(** * NBA game predictor backend: model of the request handlers and the
    upstream-API helpers, with the properties of its specification.

    Sources embedded here:
    - [src/services/ball_api.py]: the tables, the image-CDN URL builders and
      the fetch helpers (module [BallApi]);
    - [src/model/train_model.py]: the bundle written by [save_model]
      (module [TrainModel]);
    - [src/main.py]: the process globals, [get_team_features] and the
      endpoints (module [Main]).

    Python values are modelled at the types the code uses them at.  Decoded
    upstream JSON is typed by the upstream schema, each key being absent,
    [null] or present ([field]); dictionaries built by the program are
    association lists in insertion order ([pydict]); exceptions are an
    explicit [result]; process globals and the sequence of outbound HTTP
    requests are threaded through the monad [M]. *)

From Stdlib Require Import ZArith String Ascii List Bool Lia.
From Stdlib Require Import Sorted Permutation.
From Stdlib Require Import Floats.
From stdpp Require Import base gmap strings list pretty.

Set Warnings "-inexact-float,-register-all".

Local Open Scope string_scope.
Local Open Scope Z_scope.
Local Open Scope list_scope.

(* ===================================================================== *)
(** ** Python-level primitives *)
(* ===================================================================== *)

Module Py.

(** Exceptions.  [Outbound] marks an exception raised by an HTTP call or
    while reading the payload it returned; [Local] marks any other one. *)
Inductive origin := Outbound | Local.

Inductive exn_kind :=
  | HTTPError        (* httpx transport error, raise_for_status, bad JSON *)
  | ValueError
  | KeyError
  | TypeError
  | AttributeError
  | OverflowError
  | InferenceError.  (* raised by the pickled estimator *)

Inductive exn :=
  | Error (o : origin) (k : exn_kind) (msg : string)
  | HTTPException (status_code : Z) (detail : string).

Inductive result (A : Type) :=
  | Ok (a : A)
  | Raise (e : exn).
Arguments Ok {A} a.
Arguments Raise {A} e.

Definition rbind {A B} (r : result A) (k : A -> result B) : result B :=
  match r with
  | Ok a => k a
  | Raise e => Raise e
  end.

Declare Scope result_scope.
Delimit Scope result_scope with R.
Notation "x <- c1 ;; c2" := (rbind c1 (fun x => c2))
  (at level 100, c1 at next level, right associativity) : result_scope.

(** [for x in l: out.append(f x)] where [f] may raise. *)
Fixpoint for_each {A B} (f : A -> result B) (l : list A) : result (list B) :=
  match l with
  | [] => Ok []
  | x :: xs => (y <- f x ;; ys <- for_each f xs ;; Ok (y :: ys))%R
  end.

(** *** Text

    A [str] is held as its UTF-8 bytes: a code point below 128 is one
    byte, any other one a lead byte followed by one to three continuation
    bytes.  Byte order then is code-point order, and a substring test on
    bytes is one on code points. *)
Definition byte (c : ascii) : N := N_of_ascii c.

Definition continuation (c : ascii) : bool :=
  ((128 <=? byte c) && (byte c <? 192))%N.

Definition code_point2 (c1 c2 : ascii) : option N :=
  if ((192 <=? byte c1)%N && (byte c1 <? 224)%N && continuation c2)%bool
  then Some ((byte c1 - 192) * 64 + (byte c2 - 128))%N
  else None.

Definition code_point3 (c1 c2 c3 : ascii) : option N :=
  if ((224 <=? byte c1)%N && (byte c1 <? 240)%N
      && continuation c2 && continuation c3)%bool
  then Some ((byte c1 - 224) * 4096 + (byte c2 - 128) * 64 + (byte c3 - 128))%N
  else None.

Definition code_point4 (c1 c2 c3 c4 : ascii) : option N :=
  if ((240 <=? byte c1)%N && (byte c1 <? 248)%N
      && continuation c2 && continuation c3 && continuation c4)%bool
  then Some ((byte c1 - 240) * 262144 + (byte c2 - 128) * 4096
             + (byte c3 - 128) * 64 + (byte c4 - 128))%N
  else None.

(** The UTF-8 bytes of a code point. *)
Definition utf8 (cp : N) : string :=
  if (cp <? 128)%N then String (ascii_of_N cp) EmptyString
  else if (cp <? 2048)%N then
    String (ascii_of_N (192 + cp / 64))
      (String (ascii_of_N (128 + cp mod 64)) EmptyString)
  else if (cp <? 65536)%N then
    String (ascii_of_N (224 + cp / 4096))
      (String (ascii_of_N (128 + (cp / 64) mod 64))
         (String (ascii_of_N (128 + cp mod 64)) EmptyString))
  else
    String (ascii_of_N (240 + cp / 262144))
      (String (ascii_of_N (128 + (cp / 4096) mod 64))
         (String (ascii_of_N (128 + (cp / 64) mod 64))
            (String (ascii_of_N (128 + cp mod 64)) EmptyString))).

(** The upper-case mapping that [str.upper()] applies to each code point:
    the full case mapping of the Unicode Character Database, version 14.0
    as CPython 3.11 carries it.  A run [(first, last, step, target)] sends
    [first], [first + step], ..., [last] to [target], [target + step], ... *)
Definition UPPER_RUNS : list (N * N * N * N) :=
  [
    (97, 122, 1, 65); (181, 181, 1, 924); (224, 246, 1, 192); (248, 254, 1, 216);
    (255, 255, 1, 376); (257, 303, 2, 256); (305, 305, 1, 73); (307, 311, 2, 306);
    (314, 328, 2, 313); (331, 375, 2, 330); (378, 382, 2, 377); (383, 383, 1, 83);
    (384, 384, 1, 579); (387, 389, 2, 386); (392, 392, 1, 391); (396, 396, 1, 395);
    (402, 402, 1, 401); (405, 405, 1, 502); (409, 409, 1, 408); (410, 410, 1, 573);
    (414, 414, 1, 544); (417, 421, 2, 416); (424, 424, 1, 423); (429, 429, 1, 428);
    (432, 432, 1, 431); (436, 438, 2, 435); (441, 441, 1, 440); (445, 445, 1, 444);
    (447, 447, 1, 503); (453, 453, 1, 452); (454, 454, 1, 452); (456, 456, 1, 455);
    (457, 457, 1, 455); (459, 459, 1, 458); (460, 460, 1, 458); (462, 476, 2, 461);
    (477, 477, 1, 398); (479, 495, 2, 478); (498, 498, 1, 497); (499, 499, 1, 497);
    (501, 501, 1, 500); (505, 543, 2, 504); (547, 563, 2, 546); (572, 572, 1, 571);
    (575, 576, 1, 11390); (578, 578, 1, 577); (583, 591, 2, 582); (592, 592, 1, 11375);
    (593, 593, 1, 11373); (594, 594, 1, 11376); (595, 595, 1, 385); (596, 596, 1, 390);
    (598, 599, 1, 393); (601, 601, 1, 399); (603, 603, 1, 400); (604, 604, 1, 42923);
    (608, 608, 1, 403); (609, 609, 1, 42924); (611, 611, 1, 404); (613, 613, 1, 42893);
    (614, 614, 1, 42922); (616, 616, 1, 407); (617, 617, 1, 406); (618, 618, 1, 42926);
    (619, 619, 1, 11362); (620, 620, 1, 42925); (623, 623, 1, 412); (625, 625, 1, 11374);
    (626, 626, 1, 413); (629, 629, 1, 415); (637, 637, 1, 11364); (640, 640, 1, 422);
    (642, 642, 1, 42949); (643, 643, 1, 425); (647, 647, 1, 42929); (648, 648, 1, 430);
    (649, 649, 1, 580); (650, 651, 1, 433); (652, 652, 1, 581); (658, 658, 1, 439);
    (669, 669, 1, 42930); (670, 670, 1, 42928); (837, 837, 1, 921); (881, 883, 2, 880);
    (887, 887, 1, 886); (891, 893, 1, 1021); (940, 940, 1, 902); (941, 943, 1, 904);
    (945, 961, 1, 913); (962, 962, 1, 931); (963, 971, 1, 931); (972, 972, 1, 908);
    (973, 974, 1, 910); (976, 976, 1, 914); (977, 977, 1, 920); (981, 981, 1, 934);
    (982, 982, 1, 928); (983, 983, 1, 975); (985, 1007, 2, 984); (1008, 1008, 1, 922);
    (1009, 1009, 1, 929); (1010, 1010, 1, 1017); (1011, 1011, 1, 895);
    (1013, 1013, 1, 917); (1016, 1016, 1, 1015); (1019, 1019, 1, 1018);
    (1072, 1103, 1, 1040); (1104, 1119, 1, 1024); (1121, 1153, 2, 1120);
    (1163, 1215, 2, 1162); (1218, 1230, 2, 1217); (1231, 1231, 1, 1216);
    (1233, 1327, 2, 1232); (1377, 1414, 1, 1329); (4304, 4346, 1, 7312);
    (4349, 4351, 1, 7357); (5112, 5117, 1, 5104); (7296, 7296, 1, 1042);
    (7297, 7297, 1, 1044); (7298, 7298, 1, 1054); (7299, 7300, 1, 1057);
    (7301, 7301, 1, 1058); (7302, 7302, 1, 1066); (7303, 7303, 1, 1122);
    (7304, 7304, 1, 42570); (7545, 7545, 1, 42877); (7549, 7549, 1, 11363);
    (7566, 7566, 1, 42950); (7681, 7829, 2, 7680); (7835, 7835, 1, 7776);
    (7841, 7935, 2, 7840); (7936, 7943, 1, 7944); (7952, 7957, 1, 7960);
    (7968, 7975, 1, 7976); (7984, 7991, 1, 7992); (8000, 8005, 1, 8008);
    (8017, 8023, 2, 8025); (8032, 8039, 1, 8040); (8048, 8049, 1, 8122);
    (8050, 8053, 1, 8136); (8054, 8055, 1, 8154); (8056, 8057, 1, 8184);
    (8058, 8059, 1, 8170); (8060, 8061, 1, 8186); (8112, 8113, 1, 8120);
    (8126, 8126, 1, 921); (8144, 8145, 1, 8152); (8160, 8161, 1, 8168);
    (8165, 8165, 1, 8172); (8526, 8526, 1, 8498); (8560, 8575, 1, 8544);
    (8580, 8580, 1, 8579); (9424, 9449, 1, 9398); (11312, 11359, 1, 11264);
    (11361, 11361, 1, 11360); (11365, 11365, 1, 570); (11366, 11366, 1, 574);
    (11368, 11372, 2, 11367); (11379, 11379, 1, 11378); (11382, 11382, 1, 11381);
    (11393, 11491, 2, 11392); (11500, 11502, 2, 11499); (11507, 11507, 1, 11506);
    (11520, 11557, 1, 4256); (11559, 11559, 1, 4295); (11565, 11565, 1, 4301);
    (42561, 42605, 2, 42560); (42625, 42651, 2, 42624); (42787, 42799, 2, 42786);
    (42803, 42863, 2, 42802); (42874, 42876, 2, 42873); (42879, 42887, 2, 42878);
    (42892, 42892, 1, 42891); (42897, 42899, 2, 42896); (42900, 42900, 1, 42948);
    (42903, 42921, 2, 42902); (42933, 42947, 2, 42932); (42952, 42954, 2, 42951);
    (42961, 42961, 1, 42960); (42967, 42969, 2, 42966); (42998, 42998, 1, 42997);
    (43859, 43859, 1, 42931); (43888, 43967, 1, 5024); (65345, 65370, 1, 65313);
    (66600, 66639, 1, 66560); (66776, 66811, 1, 66736); (66967, 66977, 1, 66928);
    (66979, 66993, 1, 66940); (66995, 67001, 1, 66956); (67003, 67004, 1, 66964);
    (68800, 68850, 1, 68736); (71872, 71903, 1, 71840); (93792, 93823, 1, 93760);
    (125218, 125251, 1, 125184)
  ]%N.

(** The code points whose upper case is more than one code point. *)
Definition UPPER_SPECIAL : list (N * list N) :=
  [
    (223, [83; 83]); (329, [700; 78]); (496, [74; 780]); (912, [921; 776; 769]);
    (944, [933; 776; 769]); (1415, [1333; 1362]); (7830, [72; 817]); (7831, [84; 776]);
    (7832, [87; 778]); (7833, [89; 778]); (7834, [65; 702]); (8016, [933; 787]);
    (8018, [933; 787; 768]); (8020, [933; 787; 769]); (8022, [933; 787; 834]);
    (8064, [7944; 921]); (8065, [7945; 921]); (8066, [7946; 921]); (8067, [7947; 921]);
    (8068, [7948; 921]); (8069, [7949; 921]); (8070, [7950; 921]); (8071, [7951; 921]);
    (8072, [7944; 921]); (8073, [7945; 921]); (8074, [7946; 921]); (8075, [7947; 921]);
    (8076, [7948; 921]); (8077, [7949; 921]); (8078, [7950; 921]); (8079, [7951; 921]);
    (8080, [7976; 921]); (8081, [7977; 921]); (8082, [7978; 921]); (8083, [7979; 921]);
    (8084, [7980; 921]); (8085, [7981; 921]); (8086, [7982; 921]); (8087, [7983; 921]);
    (8088, [7976; 921]); (8089, [7977; 921]); (8090, [7978; 921]); (8091, [7979; 921]);
    (8092, [7980; 921]); (8093, [7981; 921]); (8094, [7982; 921]); (8095, [7983; 921]);
    (8096, [8040; 921]); (8097, [8041; 921]); (8098, [8042; 921]); (8099, [8043; 921]);
    (8100, [8044; 921]); (8101, [8045; 921]); (8102, [8046; 921]); (8103, [8047; 921]);
    (8104, [8040; 921]); (8105, [8041; 921]); (8106, [8042; 921]); (8107, [8043; 921]);
    (8108, [8044; 921]); (8109, [8045; 921]); (8110, [8046; 921]); (8111, [8047; 921]);
    (8114, [8122; 921]); (8115, [913; 921]); (8116, [902; 921]); (8118, [913; 834]);
    (8119, [913; 834; 921]); (8124, [913; 921]); (8130, [8138; 921]); (8131, [919; 921]);
    (8132, [905; 921]); (8134, [919; 834]); (8135, [919; 834; 921]); (8140, [919; 921]);
    (8146, [921; 776; 768]); (8147, [921; 776; 769]); (8150, [921; 834]);
    (8151, [921; 776; 834]); (8162, [933; 776; 768]); (8163, [933; 776; 769]);
    (8164, [929; 787]); (8166, [933; 834]); (8167, [933; 776; 834]); (8178, [8186; 921]);
    (8179, [937; 921]); (8180, [911; 921]); (8182, [937; 834]); (8183, [937; 834; 921]);
    (8188, [937; 921]); (64256, [70; 70]); (64257, [70; 73]); (64258, [70; 76]);
    (64259, [70; 70; 73]); (64260, [70; 70; 76]); (64261, [83; 84]); (64262, [83; 84]);
    (64275, [1348; 1350]); (64276, [1348; 1333]); (64277, [1348; 1339]);
    (64278, [1358; 1350]); (64279, [1348; 1341])
  ]%N.

Fixpoint upper_in_runs (cp : N) (runs : list (N * N * N * N)) : option N :=
  match runs with
  | [] => None
  | (first, last, step, target) :: rest =>
      if ((first <=? cp) && (cp <=? last) && ((cp - first) mod step =? 0))%N
      then Some (target + (cp - first))%N
      else upper_in_runs cp rest
  end.

Fixpoint upper_special (cp : N) (table : list (N * list N)) : option (list N) :=
  match table with
  | [] => None
  | (k, v) :: rest => if (cp =? k)%N then Some v else upper_special cp rest
  end.

(** The upper case of one code point, as code points. *)
Definition to_upper (cp : N) : list N :=
  match upper_special cp UPPER_SPECIAL with
  | Some l => l
  | None => match upper_in_runs cp UPPER_RUNS with
            | Some t => [t]
            | None => [cp]
            end
  end.

Definition upper_code_point (cp : N) : string :=
  fold_right (fun c s => append (utf8 c) s) EmptyString (to_upper cp).

(** [str.upper()] on the ASCII letters. *)
Definition upper_ascii (c : ascii) : ascii :=
  let n := nat_of_ascii c in
  if ((97 <=? n)%nat && (n <=? 122)%nat)%bool then ascii_of_nat (n - 32) else c.

(** [str.upper()]: each code point is replaced by its upper case.  A byte
    that starts no code point stands for no text and is left as it is. *)
Fixpoint upper (s : string) : string :=
  match s with
  | EmptyString => EmptyString
  | String c1 s1 =>
      if (byte c1 <? 128)%N then String (upper_ascii c1) (upper s1)
      else
        match s1 with
        | EmptyString => String c1 EmptyString
        | String c2 s2 =>
            match code_point2 c1 c2 with
            | Some cp => append (upper_code_point cp) (upper s2)
            | None =>
                match s2 with
                | EmptyString => String c1 (upper s1)
                | String c3 s3 =>
                    match code_point3 c1 c2 c3 with
                    | Some cp => append (upper_code_point cp) (upper s3)
                    | None =>
                        match s3 with
                        | EmptyString => String c1 (upper s1)
                        | String c4 s4 =>
                            match code_point4 c1 c2 c3 c4 with
                            | Some cp => append (upper_code_point cp) (upper s4)
                            | None => String c1 (upper s1)
                            end
                        end
                    end
                end
            end
        end
  end.

(** [s[:n]]: the first [n] code points. *)
Fixpoint take_code_points (n : nat) (s : string) : string :=
  match s with
  | EmptyString => EmptyString
  | String c s' =>
      if continuation c then String c (take_code_points n s')
      else match n with
           | O => EmptyString
           | S n' => String c (take_code_points n' s')
           end
  end.

(** A key of a decoded JSON object: absent, [null], or a value. *)
Inductive field (A : Type) :=
  | Missing
  | Null
  | Val (a : A).
Arguments Missing {A}.
Arguments Null {A}.
Arguments Val {A} a.

(** [d[k]]: [KeyError] when the key is absent; a [null] reads as [None]. *)
Definition getitem {A} (k : string) (f : field A) : result (option A) :=
  match f with
  | Missing => Raise (Error Outbound KeyError k)
  | Null => Ok None
  | Val a => Ok (Some a)
  end.

(** [d.get(k)] and [d.get(k, default)]. *)
Definition get {A} (f : field A) : option A :=
  match f with
  | Val a => Some a
  | _ => None
  end.

Definition get_default {A} (f : field A) (default : option A) : option A :=
  match f with
  | Missing => default
  | Null => None
  | Val a => Some a
  end.

(** [v[k]] on a value that may be [None]: subscripting [None] is a
    [TypeError]. *)
Definition subscript {A B} (v : option A) (k : string) (proj : A -> field B)
  : result (option B) :=
  match v with
  | None => Raise (Error Outbound TypeError "'NoneType' object is not subscriptable")
  | Some a => getitem k (proj a)
  end.

(** [v.get(k, default)] on a value that may be [None]. *)
Definition attr_get {A B} (v : option A) (proj : A -> field B)
  (default : option B) : result (option B) :=
  match v with
  | None => Raise (Error Outbound AttributeError "'NoneType' object has no attribute 'get'")
  | Some a => Ok (get_default (proj a) default)
  end.

(** [s[:10]]. *)
Definition slice10 (v : option string) : result string :=
  match v with
  | None => Raise (Error Outbound TypeError "'NoneType' object is not subscriptable")
  | Some s => Ok (take_code_points 10 s)
  end.

(** [for x in v] over a decoded list that may be [None]. *)
Definition iter {A} (v : option (list A)) : result (list A) :=
  match v with
  | None => Raise (Error Outbound TypeError "'NoneType' object is not iterable")
  | Some l => Ok l
  end.

(** Values stored in the dictionaries the program builds and in the static
    games file: what [json.load] produces. *)
Inductive pyval :=
  | PNone
  | PBool (b : bool)
  | PInt (z : Z)
  | PFloat (f : float)
  | PStr (s : string)
  | PList (l : list pyval)
  | PDict (d : list (string * pyval)).

Definition pydict := list (string * pyval).

Definition of_int (v : option Z) : pyval :=
  match v with Some z => PInt z | None => PNone end.
Definition of_str (v : option string) : pyval :=
  match v with Some s => PStr s | None => PNone end.
Definition of_bool (v : option bool) : pyval :=
  match v with Some b => PBool b | None => PNone end.

(** Lookup in a dictionary kept in insertion order. *)
Fixpoint dict_get (k : string) (d : pydict) : option pyval :=
  match d with
  | [] => None
  | (k', v) :: d' => if String.eqb k k' then Some v else dict_get k d'
  end.

(** [d.get(k, default)]. *)
Definition dict_get_default (k : string) (default : pyval) (d : pydict) : pyval :=
  match dict_get k d with
  | Some v => v
  | None => default
  end.

(** [d.get(k)]. *)
Definition dict_get_none (k : string) (d : pydict) : pyval :=
  dict_get_default k PNone d.

(** [d[k]] on a dictionary of the program. *)
Definition dict_getitem (k : string) (d : pydict) : result pyval :=
  match dict_get k d with
  | Some v => Ok v
  | None => Raise (Error Local KeyError k)
  end.

(** Truth value of an object. *)
Definition truthy (v : pyval) : bool :=
  match v with
  | PNone => false
  | PBool b => b
  | PInt z => negb (z =? 0)
  | PFloat f => negb (PrimFloat.eqb f 0%float)
  | PStr s => negb (String.eqb s "")
  | PList l => match l with [] => false | _ => true end
  | PDict d => match d with [] => false | _ => true end
  end.

Definition nonempty {A} (l : list A) : bool :=
  match l with [] => false | _ => true end.

(** Exact comparison of a binary64 number with an integer, as Python's
    [float.__eq__] does it: the float must denote that very integer. *)
Definition float_eq_int (f : float) (n : Z) : bool :=
  match Prim2SF f with
  | S754_zero _ => n =? 0
  | S754_finite s m e =>
      let mag := if 0 <=? e then Z.pos m * 2 ^ e
                 else if (Z.pos m mod 2 ^ (- e)) =? 0 then Z.pos m / 2 ^ (- e)
                 else -1 in
      if mag =? -1 then false else (if s then - mag else mag) =? n
  | _ => false
  end.

(** [v == n] for an integer [n]: numbers compare by value ([True == 1],
    [2.0 == 2]), anything else differs from an integer. *)
Definition eq_int (v : pyval) (n : Z) : bool :=
  match v with
  | PInt z => z =? n
  | PBool b => (if b then 1 else 0) =? n
  | PFloat f => float_eq_int f n
  | _ => false
  end.

(** [sub in s]. *)
Fixpoint contains (sub s : string) : bool :=
  match s with
  | EmptyString => String.prefix sub EmptyString
  | String _ s' => (String.prefix sub s || contains sub s')%bool
  end.

(** [str(n)] for an integer. *)
Definition str_of_int (n : Z) : string := pretty n.

(** Text of a value inside an f-string; [repr_other] stands for the builtin
    rendering of floats, lists and dictionaries. *)
Definition format (repr_other : pyval -> string) (v : pyval) : string :=
  match v with
  | PNone => "None"
  | PBool true => "True"
  | PBool false => "False"
  | PInt z => str_of_int z
  | PStr s => s
  | _ => repr_other v
  end.

Definition format_opt_int (v : option Z) : string :=
  match v with Some z => str_of_int z | None => "None" end.

Definition format_opt_str (v : option string) : string :=
  match v with Some s => s | None => "None" end.

End Py.

(* ===================================================================== *)
(** ** src/services/ball_api.py *)
(* ===================================================================== *)

Module BallApi.
Import Py.

Definition BASE_URL := "https://api.balldontlie.io/v1".
Definition SEATGEEK_BASE_URL := "https://api.seatgeek.com/2".
Definition NBA_CDN_BASE := "https://cdn.nba.com".

(** Team ID mapping for NBA CDN logos (abbreviation -> NBA ID). *)
Definition TEAM_NBA_IDS : list (string * Z) :=
  [ ("ATL", 1610612737); ("BOS", 1610612738); ("BKN", 1610612751); ("CHA", 1610612766);
    ("CHI", 1610612741); ("CLE", 1610612739); ("DAL", 1610612742); ("DEN", 1610612743);
    ("DET", 1610612765); ("GSW", 1610612744); ("HOU", 1610612745); ("IND", 1610612754);
    ("LAC", 1610612746); ("LAL", 1610612747); ("MEM", 1610612763); ("MIA", 1610612748);
    ("MIL", 1610612749); ("MIN", 1610612750); ("NOP", 1610612740); ("NYK", 1610612752);
    ("OKC", 1610612760); ("ORL", 1610612753); ("PHI", 1610612755); ("PHX", 1610612756);
    ("POR", 1610612757); ("SAC", 1610612758); ("SAS", 1610612759); ("TOR", 1610612761);
    ("UTA", 1610612762); ("WAS", 1610612764) ].

(** BallDontLie API team IDs (abbreviation -> BallDontLie ID). *)
Definition BALLDONTLIE_TEAM_IDS : list (string * Z) :=
  [ ("ATL", 1); ("BOS", 2); ("BKN", 3); ("CHA", 4); ("CHI", 5);
    ("CLE", 6); ("DAL", 7); ("DEN", 8); ("DET", 9); ("GSW", 10);
    ("HOU", 11); ("IND", 12); ("LAC", 13); ("LAL", 14); ("MEM", 15);
    ("MIA", 16); ("MIL", 17); ("MIN", 18); ("NOP", 19); ("NYK", 20);
    ("OKC", 21); ("ORL", 22); ("PHI", 23); ("PHX", 24); ("POR", 25);
    ("SAC", 26); ("SAS", 27); ("TOR", 28); ("UTA", 29); ("WAS", 30) ].

Definition TEAM_FULL_NAMES : list (string * string) :=
  [ ("ATL", "Atlanta Hawks"); ("BOS", "Boston Celtics"); ("BKN", "Brooklyn Nets");
    ("CHA", "Charlotte Hornets"); ("CHI", "Chicago Bulls"); ("CLE", "Cleveland Cavaliers");
    ("DAL", "Dallas Mavericks"); ("DEN", "Denver Nuggets"); ("DET", "Detroit Pistons");
    ("GSW", "Golden State Warriors"); ("HOU", "Houston Rockets"); ("IND", "Indiana Pacers");
    ("LAC", "Los Angeles Clippers"); ("LAL", "Los Angeles Lakers"); ("MEM", "Memphis Grizzlies");
    ("MIA", "Miami Heat"); ("MIL", "Milwaukee Bucks"); ("MIN", "Minnesota Timberwolves");
    ("NOP", "New Orleans Pelicans"); ("NYK", "New York Knicks"); ("OKC", "Oklahoma City Thunder");
    ("ORL", "Orlando Magic"); ("PHI", "Philadelphia 76ers"); ("PHX", "Phoenix Suns");
    ("POR", "Portland Trail Blazers"); ("SAC", "Sacramento Kings"); ("SAS", "San Antonio Spurs");
    ("TOR", "Toronto Raptors"); ("UTA", "Utah Jazz"); ("WAS", "Washington Wizards") ].

(** [table.get(k)] on a module-level table. *)
Fixpoint table_get {V} (k : string) (t : list (string * V)) : option V :=
  match t with
  | [] => None
  | (k', v) :: t' => if String.eqb k k' then Some v else table_get k t'
  end.

Definition get_balldontlie_team_id (team_abbr : string) : option Z :=
  table_get (upper team_abbr) BALLDONTLIE_TEAM_IDS.

Definition get_team_full_name (team_abbr : string) : string :=
  match table_get (upper team_abbr) TEAM_FULL_NAMES with
  | Some name => name
  | None => team_abbr
  end.

(** [get_team_logo_url(team_abbr, size)]: the logo SVG on the NBA CDN, the
    empty string when the abbreviation has no (non-zero) NBA ID. *)
Definition get_team_logo_url (team_abbr : string) (size : string) : string :=
  match table_get (upper team_abbr) TEAM_NBA_IDS with
  | Some nba_id =>
      if nba_id =? 0 then ""
      else NBA_CDN_BASE +:+ "/logos/nba/" +:+ str_of_int nba_id +:+ "/primary/"
           +:+ size +:+ "/logo.svg"
  | None => ""
  end.

(** The same call on a value read from a payload: [None.upper()] is an
    [AttributeError]. *)
Definition get_team_logo_url_of (team_abbr : option string) (size : string)
  : result string :=
  match team_abbr with
  | Some a => Ok (get_team_logo_url a size)
  | None => Raise (Error Outbound AttributeError "'NoneType' object has no attribute 'upper'")
  end.

(** [get_player_headshot_url(player_id, size)]; the ID is formatted as an
    f-string field, so a [None] prints as "None". *)
Definition get_player_headshot_url (player_id : option Z) (size : string) : string :=
  NBA_CDN_BASE +:+ "/headshots/nba/latest/" +:+ size +:+ "/"
  +:+ format_opt_int player_id +:+ ".png".

Definition default_headshot_size := "260x190".

(** *** Decoded upstream payloads *)

Record api_team := {
  t_id : field Z;
  t_abbreviation : field string;
  t_city : field string;
  t_name : field string;
  t_full_name : field string;
  t_conference : field string;
  t_division : field string
}.

Record api_game := {
  g_id : field Z;
  g_date : field string;
  g_time : field string;
  g_status : field string;
  g_period : field Z;
  g_postseason : field bool;
  g_season : field Z;
  g_home_team : field api_team;
  g_visitor_team : field api_team;
  g_home_team_score : field Z;
  g_visitor_team_score : field Z
}.

Record api_player := {
  p_id : field Z;
  p_first_name : field string;
  p_last_name : field string;
  p_position : field string;
  p_height : field string;
  p_weight : field string;
  p_jersey_number : field string;
  p_college : field string;
  p_country : field string;
  p_draft_year : field Z;
  p_draft_round : field Z;
  p_draft_number : field Z;
  p_team : field api_team
}.

(** A row of a box score; the counting statistics are copied through
    unread, so they stay arbitrary JSON values. *)
Record api_stat_row := {
  sr_player : field api_player;
  sr_min : field pyval;
  sr_pts : field pyval;
  sr_reb : field pyval;
  sr_ast : field pyval;
  sr_stl : field pyval;
  sr_blk : field pyval;
  sr_turnover : field pyval;
  sr_fgm : field pyval;
  sr_fga : field pyval;
  sr_fg3m : field pyval;
  sr_fg3a : field pyval;
  sr_ftm : field pyval;
  sr_fta : field pyval
}.

Record api_box_score := {
  bs_home_team : field api_team;
  bs_visitor_team : field api_team;
  bs_home_team_stats : field (list api_stat_row);
  bs_visitor_team_stats : field (list api_stat_row)
}.

Record api_season_average := {
  sa_games_played : field pyval;
  sa_min : field pyval;
  sa_pts : field pyval;
  sa_reb : field pyval;
  sa_ast : field pyval;
  sa_stl : field pyval;
  sa_blk : field pyval;
  sa_turnover : field pyval;
  sa_fg_pct : field pyval;
  sa_fg3_pct : field pyval;
  sa_ft_pct : field pyval
}.

Record sg_venue := {
  v_name : field pyval;
  v_city : field pyval;
  v_state : field pyval;
  v_capacity : field pyval;
  v_address : field pyval
}.

Record sg_stats := {
  st_lowest_price : field pyval;
  st_average_price : field pyval;
  st_highest_price : field pyval;
  st_listing_count : field pyval
}.

Record sg_event := {
  ev_id : field pyval;
  ev_url : field pyval;
  ev_venue : field sg_venue;
  ev_stats : field sg_stats;
  ev_score : field pyval
}.

(** *** Outbound requests and the world that answers them *)

(** One outbound HTTP GET, by endpoint and query.  Dates are proleptic
    Gregorian day numbers (the query carries them as YYYY-MM-DD). *)
Inductive request :=
  | GET_games (start_date end_date : Z) (team_ids : list pyval) (per_page : Z)
  | GET_game (game_id : Z)
  | GET_players (search : option string) (team_ids : list pyval) (per_page : Z)
  | GET_teams
  | GET_box_scores (game_id : Z)
  | GET_season_averages (season player_id : Z)
  | GET_seatgeek_events (home_team away_team game_date : string).

(** What one call yields: an exception (transport error, error status,
    undecodable body) or the decoded value under the body's key. *)
Inductive outcome (A : Type) :=
  | Failed (msg : string)
  | Replied (body : A).
Arguments Failed {A} msg.
Arguments Replied {A} body.

(** Everything outside the modelled code that a handler run depends on:
    the two environment variables, the day [datetime.now()] falls on, the
    builtin text of non-scalar values, and the upstream services.  Each
    [answer_*] gives the outcome of a call from the requests sent before
    it, so repeating a request may yield another outcome. *)
Record env := {
  BALL_API_KEY : string;
  SEATGEEK_CLIENT_ID : string;
  today : Z;
  repr_other : pyval -> string;
  answer_games : list request -> request -> outcome (field (list api_game));
  answer_game : list request -> request -> outcome (field api_game);
  answer_players : list request -> request -> outcome (field (list api_player));
  answer_teams : list request -> request -> outcome (field (list api_team));
  answer_box_scores : list request -> request -> outcome (field (list api_box_score));
  answer_season_averages :
    list request -> request -> outcome (field (list api_season_average));
  answer_seatgeek : list request -> request -> outcome (field (list sg_event))
}.

(** Code that may send requests: it maps the requests sent so far (oldest
    first) to a value or an exception and the extended list. *)
Definition IO (A : Type) := list request -> result A * list request.

Definition io_ret {A} (a : A) : IO A := fun sent => (Ok a, sent).
Definition io_raise {A} (e : exn) : IO A := fun sent => (Raise e, sent).
Definition io_bind {A B} (m : IO A) (k : A -> IO B) : IO B :=
  fun sent =>
    match m sent with
    | (Ok a, sent') => k a sent'
    | (Raise e, sent') => (Raise e, sent')
    end.
Definition lift {A} (r : result A) : IO A := fun sent => (r, sent).

(** [try: m except Exception as e: h e]. *)
Definition io_try {A} (m : IO A) (h : exn -> IO A) : IO A :=
  fun sent =>
    match m sent with
    | (Ok a, sent') => (Ok a, sent')
    | (Raise e, sent') => h e sent'
    end.

Declare Scope io_scope.
Delimit Scope io_scope with IO.
Notation "x <- c1 ;; c2" := (io_bind c1 (fun x => c2))
  (at level 100, c1 at next level, right associativity) : io_scope.

(** [client.get(...)], [raise_for_status()] and [json()] in one step. *)
Definition http_get {A} (answer : list request -> request -> outcome A)
  (r : request) : IO A :=
  fun sent =>
    (match answer sent r with
     | Replied body => Ok body
     | Failed msg => Raise (Error Outbound HTTPError msg)
     end, sent ++ [r]).

(** [get_headers()]: raises before anything is sent when no key is set. *)
Definition get_headers (up : env) : result string :=
  if String.eqb (BALL_API_KEY up) "" then
    Raise (Error Outbound ValueError "BALL_API_KEY environment variable not set")
  else Ok (BALL_API_KEY up).

(** [datetime.now() + timedelta(days=d)]: [timedelta] rejects more than
    999999999 days and a date must stay within years 1 to 9999. *)
Definition MAX_DELTA_DAYS := 999999999.
Definition MAX_ORDINAL := 3652059.

(** [datetime.now()] as a day number: the day read from the environment,
    which is a date, so within the representable range. *)
Definition now (up : env) : Z := Z.max 1 (Z.min (today up) MAX_ORDINAL).

Definition date_plus (day : Z) (d : Z) : result Z :=
  if MAX_DELTA_DAYS <? Z.abs d then
    Raise (Error Local OverflowError "days; must have magnitude <= 999999999")
  else if (1 <=? day + d) && (day + d <=? MAX_ORDINAL) then Ok (day + d)
  else Raise (Error Local OverflowError "date value out of range").

(** [fetch_games(start_date, end_date, team_ids, per_page)]. *)
Definition fetch_games (up : env) (start_date end_date : Z)
  (team_ids : list pyval) (per_page : Z) : IO (field (list api_game)) :=
  (_ <- lift (get_headers up) ;;
   http_get (answer_games up) (GET_games start_date end_date team_ids per_page))%IO.

(** The entry of [fetch_upcoming_games] for one upstream game. *)
Definition format_upcoming_game (game : api_game) : result pydict :=
  (ht <- getitem "home_team" (g_home_team game) ;;
   home_abbr <- subscript ht "abbreviation" t_abbreviation ;;
   vt <- getitem "visitor_team" (g_visitor_team game) ;;
   away_abbr <- subscript vt "abbreviation" t_abbreviation ;;
   id <- getitem "id" (g_id game) ;;
   home_name <- subscript ht "full_name" t_full_name ;;
   home_logo <- get_team_logo_url_of home_abbr "L" ;;
   home_logo_small <- get_team_logo_url_of home_abbr "S" ;;
   away_name <- subscript vt "full_name" t_full_name ;;
   away_logo <- get_team_logo_url_of away_abbr "L" ;;
   away_logo_small <- get_team_logo_url_of away_abbr "S" ;;
   date <- getitem "date" (g_date game) ;;
   game_date <- slice10 date ;;
   Ok [ ("id", of_int id);
        ("home_team", of_str home_abbr);
        ("home_team_name", of_str home_name);
        ("home_team_logo", PStr home_logo);
        ("home_team_logo_small", PStr home_logo_small);
        ("away_team", of_str away_abbr);
        ("away_team_name", of_str away_name);
        ("away_team_logo", PStr away_logo);
        ("away_team_logo_small", PStr away_logo_small);
        ("game_date", PStr game_date);
        ("status", of_str (get_default (g_status game) (Some "scheduled")));
        ("home_score", of_int (get (g_home_team_score game)));
        ("away_score", of_int (get (g_visitor_team_score game)));
        ("season", of_int (get (g_season game))) ])%R.

(** [fetch_upcoming_games(days_ahead)]: the date arithmetic precedes the
    [try]; everything else is inside it and yields [[]] on any exception. *)
Definition fetch_upcoming_games (up : env) (days_ahead : Z) : IO (list pydict) :=
  (end_date <- lift (date_plus (now up) days_ahead) ;;
   io_try
     (data <- fetch_games up (now up) end_date [] 100 ;;
      games <- lift (iter (get_default data (Some []))) ;;
      lift (for_each format_upcoming_game games))
     (fun _ => io_ret []))%IO.

Definition fetch_today_games (up : env) : IO (list pydict) :=
  fetch_upcoming_games up 0.

(** [a > b] on two scores, either of which may be [None]. *)
Definition score_gt (a b : option Z) : result bool :=
  match a, b with
  | Some x, Some y => Ok (y <? x)
  | _, _ => Raise (Error Outbound TypeError "'>' not supported between these instances")
  end.

Definition is_final (status : option string) : bool :=
  match status with
  | Some s => (String.eqb s "Final" || String.eqb s "final")%bool
  | None => false
  end.

(** One iteration of the loop of [fetch_past_games]: [None] is [continue]. *)
Definition format_past_game (game : api_game) : result (option pydict) :=
  let status := get_default (g_status game) (Some "") in
  if (negb (is_final status)
      && match get_default (g_home_team_score game) (Some 0) with
         | Some z => z =? 0
         | None => false
         end)%bool
  then Ok None
  else
  (ht <- getitem "home_team" (g_home_team game) ;;
   home_abbr <- subscript ht "abbreviation" t_abbreviation ;;
   vt <- getitem "visitor_team" (g_visitor_team game) ;;
   away_abbr <- subscript vt "abbreviation" t_abbreviation ;;
   let home_score := get_default (g_home_team_score game) (Some 0) in
   let away_score := get_default (g_visitor_team_score game) (Some 0) in
   home_won <- score_gt home_score away_score ;;
   let winner := if home_won : bool then home_abbr else away_abbr in
   winner_logo <- get_team_logo_url_of winner "L" ;;
   id <- getitem "id" (g_id game) ;;
   home_name <- subscript ht "full_name" t_full_name ;;
   home_logo <- get_team_logo_url_of home_abbr "L" ;;
   home_logo_small <- get_team_logo_url_of home_abbr "S" ;;
   away_name <- subscript vt "full_name" t_full_name ;;
   away_logo <- get_team_logo_url_of away_abbr "L" ;;
   away_logo_small <- get_team_logo_url_of away_abbr "S" ;;
   date <- getitem "date" (g_date game) ;;
   game_date <- slice10 date ;;
   Ok (Some
      [ ("id", of_int id);
        ("home_team", of_str home_abbr);
        ("home_team_name", of_str home_name);
        ("home_team_logo", PStr home_logo);
        ("home_team_logo_small", PStr home_logo_small);
        ("away_team", of_str away_abbr);
        ("away_team_name", of_str away_name);
        ("away_team_logo", PStr away_logo);
        ("away_team_logo_small", PStr away_logo_small);
        ("game_date", PStr game_date);
        ("status", PStr "Final");
        ("home_score", of_int home_score);
        ("away_score", of_int away_score);
        ("winner", of_str winner);
        ("winner_logo", PStr winner_logo);
        ("season", of_int (get (g_season game))) ]))%R.

(** The loop itself: entries are appended in order, skipped games left out. *)
Fixpoint format_past_games (games : list api_game) : result (list pydict) :=
  match games with
  | [] => Ok []
  | game :: rest =>
      (entry <- format_past_game game ;;
       entries <- format_past_games rest ;;
       Ok (match entry with Some d => d :: entries | None => entries end))%R
  end.

(** The sort key [x["game_date"]]; the entries built above hold a string
    there. *)
Definition game_date_key (x : pydict) : result string :=
  (v <- dict_getitem "game_date" x ;;
   match v with
   | PStr s => Ok s
   | _ => Raise (Error Local TypeError "'<' not supported between these instances")
   end)%R.

(** [list.sort(key=..., reverse=True)] on string keys: the stable sort into
    descending key order.  An element goes in front of the first element
    whose key is not greater than its own, so equal keys keep their order. *)
Fixpoint insert_desc {A} (x : string * A) (l : list (string * A)) : list (string * A) :=
  match l with
  | [] => [x]
  | y :: l' => if String.ltb (fst x) (fst y) then y :: insert_desc x l' else x :: l
  end.

Fixpoint sort_desc {A} (l : list (string * A)) : list (string * A) :=
  match l with
  | [] => []
  | x :: l' => insert_desc x (sort_desc l')
  end.

Definition sort_by_game_date_desc (l : list pydict) : result (list pydict) :=
  (keyed <- for_each (fun x => k <- game_date_key x ;; Ok (k, x)) l ;;
   Ok (map snd (sort_desc keyed)))%R.

(** [fetch_past_games(days_back)]. *)
Definition fetch_past_games (up : env) (days_back : Z) : IO (list pydict) :=
  (start_date <- lift (date_plus (now up) (- days_back)) ;;
   end_date <- lift (date_plus (now up) (- 1)) ;;
   io_try
     (data <- fetch_games up start_date end_date [] 100 ;;
      games <- lift (iter (get_default data (Some []))) ;;
      formatted_games <- lift (format_past_games games) ;;
      lift (sort_by_game_date_desc formatted_games))
     (fun _ => io_ret []))%IO.

(** [not game] on the decoded object: a dictionary is falsy when it has no
    key. *)
Definition is_missing {A} (f : field A) : bool :=
  match f with Missing => true | _ => false end.

Definition api_game_empty (g : api_game) : bool :=
  (is_missing (g_id g) && is_missing (g_date g) && is_missing (g_time g)
   && is_missing (g_status g) && is_missing (g_period g)
   && is_missing (g_postseason g) && is_missing (g_season g)
   && is_missing (g_home_team g) && is_missing (g_visitor_team g)
   && is_missing (g_home_team_score g) && is_missing (g_visitor_team_score g))%bool.

Definition str_truthy (v : option string) : bool :=
  match v with
  | Some s => negb (String.eqb s "")
  | None => false
  end.

(** The dictionary [fetch_game_by_id] builds for a decoded game. *)
Definition format_game_details (game : api_game) : result pydict :=
  (ht <- getitem "home_team" (g_home_team game) ;;
   home_abbr <- subscript ht "abbreviation" t_abbreviation ;;
   vt <- getitem "visitor_team" (g_visitor_team game) ;;
   away_abbr <- subscript vt "abbreviation" t_abbreviation ;;
   id <- getitem "id" (g_id game) ;;
   home_name <- attr_get ht t_full_name (Some "") ;;
   home_id <- attr_get ht t_id None ;;
   home_city <- attr_get ht t_city (Some "") ;;
   home_conference <- attr_get ht t_conference (Some "") ;;
   home_division <- attr_get ht t_division (Some "") ;;
   home_logo <- get_team_logo_url_of home_abbr "L" ;;
   home_logo_small <- get_team_logo_url_of home_abbr "S" ;;
   away_name <- attr_get vt t_full_name (Some "") ;;
   away_id <- attr_get vt t_id None ;;
   away_city <- attr_get vt t_city (Some "") ;;
   away_conference <- attr_get vt t_conference (Some "") ;;
   away_division <- attr_get vt t_division (Some "") ;;
   away_logo <- get_team_logo_url_of away_abbr "L" ;;
   away_logo_small <- get_team_logo_url_of away_abbr "S" ;;
   game_date <-
     (if str_truthy (get (g_date game))
      then d <- slice10 (get_default (g_date game) (Some "")) ;; Ok (PStr d)
      else Ok PNone) ;;
   Ok [ ("id", of_int id);
        ("home_team", of_str home_abbr);
        ("home_team_name", of_str home_name);
        ("home_team_id", of_int home_id);
        ("home_team_city", of_str home_city);
        ("home_team_conference", of_str home_conference);
        ("home_team_division", of_str home_division);
        ("home_team_logo", PStr home_logo);
        ("home_team_logo_small", PStr home_logo_small);
        ("away_team", of_str away_abbr);
        ("away_team_name", of_str away_name);
        ("away_team_id", of_int away_id);
        ("away_team_city", of_str away_city);
        ("away_team_conference", of_str away_conference);
        ("away_team_division", of_str away_division);
        ("away_team_logo", PStr away_logo);
        ("away_team_logo_small", PStr away_logo_small);
        ("game_date", game_date);
        ("game_time", of_str (get_default (g_time game) None));
        ("status", of_str (get_default (g_status game) (Some "scheduled")));
        ("period", of_int (get_default (g_period game) (Some 0)));
        ("time_remaining", of_str (get_default (g_time game) None));
        ("postseason", of_bool (get_default (g_postseason game) (Some false)));
        ("season", of_int (get (g_season game)));
        ("home_score", of_int (get_default (g_home_team_score game) (Some 0)));
        ("away_score", of_int (get_default (g_visitor_team_score game) (Some 0)));
        ("tickets", PDict
           [ ("available", PBool false);
             ("note", PStr "Ticket data requires Ticketmaster or SeatGeek API integration");
             ("ticketmaster_search_url",
              PStr ("https://www.ticketmaster.com/search?q=" +:+ format_opt_str home_name));
             ("seatgeek_search_url",
              PStr ("https://seatgeek.com/search?search=" +:+ format_opt_str home_abbr)) ]) ])%R.

(** [fetch_game_by_id(game_id)]: the whole body is inside the [try], which
    yields [None] on any exception. *)
Definition fetch_game_by_id (up : env) (game_id : Z) : IO (option pydict) :=
  io_try
    (_ <- lift (get_headers up) ;;
     data <- http_get (answer_game up) (GET_game game_id) ;;
     match get data with
     | None => io_ret None
     | Some game =>
         if api_game_empty game then io_ret None
         else (d <- lift (format_game_details game) ;; io_ret (Some d))
     end)%IO
    (fun _ => io_ret None).

(** One roster entry of [fetch_team_roster]. *)
Definition format_roster_player (player : api_player) : result pydict :=
  (id <- getitem "id" (p_id player) ;;
   first_name <- getitem "first_name" (p_first_name player) ;;
   last_name <- getitem "last_name" (p_last_name player) ;;
   Ok [ ("id", of_int id);
        ("first_name", of_str first_name);
        ("last_name", of_str last_name);
        ("full_name", PStr (format_opt_str first_name +:+ " " +:+ format_opt_str last_name));
        ("position", of_str (get_default (p_position player) (Some "")));
        ("jersey_number", of_str (get_default (p_jersey_number player) (Some "")));
        ("height", of_str (get_default (p_height player) (Some "")));
        ("weight", of_str (get_default (p_weight player) (Some "")));
        ("headshot_url", PStr (get_player_headshot_url id default_headshot_size)) ])%R.

(** [fetch_team_roster(team_id)]. *)
Definition fetch_team_roster (up : env) (team_id : pyval) : IO (list pydict) :=
  io_try
    (_ <- lift (get_headers up) ;;
     data <- http_get (answer_players up) (GET_players None [team_id] 50) ;;
     players <- lift (iter (get_default data (Some []))) ;;
     lift (for_each format_roster_player players))%IO
    (fun _ => io_ret []).

(** One entry of [fetch_team_upcoming_games]. *)
Definition format_team_game (game : api_game) : result pydict :=
  (ht <- getitem "home_team" (g_home_team game) ;;
   home_abbr <- subscript ht "abbreviation" t_abbreviation ;;
   vt <- getitem "visitor_team" (g_visitor_team game) ;;
   away_abbr <- subscript vt "abbreviation" t_abbreviation ;;
   id <- getitem "id" (g_id game) ;;
   home_name <- subscript ht "full_name" t_full_name ;;
   home_logo <- get_team_logo_url_of home_abbr "L" ;;
   away_name <- subscript vt "full_name" t_full_name ;;
   away_logo <- get_team_logo_url_of away_abbr "L" ;;
   date <- getitem "date" (g_date game) ;;
   game_date <- slice10 date ;;
   Ok [ ("id", of_int id);
        ("home_team", of_str home_abbr);
        ("home_team_name", of_str home_name);
        ("home_team_logo", PStr home_logo);
        ("away_team", of_str away_abbr);
        ("away_team_name", of_str away_name);
        ("away_team_logo", PStr away_logo);
        ("game_date", PStr game_date);
        ("status", of_str (get_default (g_status game) (Some "scheduled"))) ])%R.

(** [fetch_team_upcoming_games(team_id, limit)]. *)
Definition fetch_team_upcoming_games (up : env) (team_id : pyval) (limit : Z)
  : IO (list pydict) :=
  (end_date <- lift (date_plus (now up) 30) ;;
   io_try
     (_ <- lift (get_headers up) ;;
      data <- http_get (answer_games up) (GET_games (now up) end_date [team_id] limit) ;;
      games <- lift (iter (get_default data (Some []))) ;;
      lift (for_each format_team_game games))
     (fun _ => io_ret []))%IO.

(** [fetch_game_details_full(game_id)]. *)
Definition fetch_game_details_full (up : env) (game_id : Z) : IO (option pydict) :=
  (found <- fetch_game_by_id up game_id ;;
   match found with
   | None => io_ret None
   | Some game =>
       if negb (nonempty game) then io_ret None
       else
         let home_team_id := dict_get_none "home_team_id" game in
         let away_team_id := dict_get_none "away_team_id" game in
         home_roster <- (if truthy home_team_id
                         then fetch_team_roster up home_team_id else io_ret []) ;;
         away_roster <- (if truthy away_team_id
                         then fetch_team_roster up away_team_id else io_ret []) ;;
         home_upcoming <- (if truthy home_team_id
                           then fetch_team_upcoming_games up home_team_id 5
                           else io_ret []) ;;
         away_upcoming <- (if truthy away_team_id
                           then fetch_team_upcoming_games up away_team_id 5
                           else io_ret []) ;;
         home_abbr <- lift (dict_getitem "home_team" game) ;;
         home_name <- lift (dict_getitem "home_team_name" game) ;;
         home_logo <- lift (dict_getitem "home_team_logo" game) ;;
         home_small <- lift (match home_abbr with
                             | PStr a => Ok (get_team_logo_url a "S")
                             | _ => Raise (Error Local AttributeError "upper")
                             end) ;;
         away_abbr <- lift (dict_getitem "away_team" game) ;;
         away_name <- lift (dict_getitem "away_team_name" game) ;;
         away_logo <- lift (dict_getitem "away_team_logo" game) ;;
         away_small <- lift (match away_abbr with
                             | PStr a => Ok (get_team_logo_url a "S")
                             | _ => Raise (Error Local AttributeError "upper")
                             end) ;;
         io_ret (Some
           [ ("game", PDict game);
             ("home_team_details", PDict
                [ ("abbreviation", home_abbr);
                  ("name", home_name);
                  ("logo_url", home_logo);
                  ("logo_url_small", PStr home_small);
                  ("roster", PList (map PDict home_roster));
                  ("upcoming_games", PList (map PDict home_upcoming)) ]);
             ("away_team_details", PDict
                [ ("abbreviation", away_abbr);
                  ("name", away_name);
                  ("logo_url", away_logo);
                  ("logo_url_small", PStr away_small);
                  ("roster", PList (map PDict away_roster));
                  ("upcoming_games", PList (map PDict away_upcoming)) ]) ])
   end)%IO.

(** One entry of [fetch_teams]. *)
Definition format_team (team : api_team) : result pydict :=
  (abbr <- getitem "abbreviation" (t_abbreviation team) ;;
   id <- getitem "id" (t_id team) ;;
   city <- getitem "city" (t_city team) ;;
   name <- getitem "name" (t_name team) ;;
   full_name <- getitem "full_name" (t_full_name team) ;;
   conference <- getitem "conference" (t_conference team) ;;
   division <- getitem "division" (t_division team) ;;
   logo_url <- get_team_logo_url_of abbr "L" ;;
   logo_url_small <- get_team_logo_url_of abbr "S" ;;
   Ok [ ("id", of_int id);
        ("abbreviation", of_str abbr);
        ("city", of_str city);
        ("name", of_str name);
        ("full_name", of_str full_name);
        ("conference", of_str conference);
        ("division", of_str division);
        ("logo_url", PStr logo_url);
        ("logo_url_small", PStr logo_url_small) ])%R.

(** [fetch_teams()]: no [try] here, an exception reaches the caller. *)
Definition fetch_teams (up : env) : IO (list pydict) :=
  (_ <- lift (get_headers up) ;;
   data <- http_get (answer_teams up) GET_teams ;;
   teams <- lift (iter (get_default data (Some []))) ;;
   lift (for_each format_team teams))%IO.

(** [d.get(k, {}).get(k2, default)]: an absent [k] reads as the empty
    dictionary, a [null] one as [None], which has no [get]. *)
Definition get_in {A B} (f : field A) (proj : A -> field B) (default : option B)
  : result (option B) :=
  match f with
  | Missing => Ok default
  | Null => Raise (Error Outbound AttributeError "'NoneType' object has no attribute 'get'")
  | Val a => Ok (get_default (proj a) default)
  end.

(** One entry of [fetch_players]. *)
Definition format_player (player : api_player) : result pydict :=
  (id <- getitem "id" (p_id player) ;;
   first_name <- getitem "first_name" (p_first_name player) ;;
   last_name <- getitem "last_name" (p_last_name player) ;;
   team <- get_in (p_team player) t_abbreviation (Some "") ;;
   team_name <- get_in (p_team player) t_full_name (Some "") ;;
   Ok [ ("id", of_int id);
        ("first_name", of_str first_name);
        ("last_name", of_str last_name);
        ("full_name", PStr (format_opt_str first_name +:+ " " +:+ format_opt_str last_name));
        ("position", of_str (get_default (p_position player) (Some "")));
        ("height", of_str (get_default (p_height player) (Some "")));
        ("weight", of_str (get_default (p_weight player) (Some "")));
        ("jersey_number", of_str (get_default (p_jersey_number player) (Some "")));
        ("college", of_str (get_default (p_college player) (Some "")));
        ("country", of_str (get_default (p_country player) (Some "")));
        ("draft_year", of_int (get (p_draft_year player)));
        ("draft_round", of_int (get (p_draft_round player)));
        ("draft_number", of_int (get (p_draft_number player)));
        ("team", of_str team);
        ("team_name", of_str team_name);
        ("headshot_url", PStr (get_player_headshot_url id default_headshot_size)) ])%R.

(** [fetch_players(search, team_ids, per_page)]; a falsy [search] or
    [team_ids] is left out of the query. *)
Definition fetch_players (up : env) (search : option string) (team_ids : list pyval)
  (per_page : Z) : IO (list pydict) :=
  (_ <- lift (get_headers up) ;;
   data <- http_get (answer_players up)
             (GET_players (if str_truthy search then search else None) team_ids per_page) ;;
   players <- lift (iter (get_default data (Some []))) ;;
   lift (for_each format_player players))%IO.

Definition of_val (v : option pyval) : pyval :=
  match v with Some x => x | None => PNone end.

(** One player row of a box score. *)
Definition format_stat_row (p : api_stat_row) : result pydict :=
  (player_id <- get_in (sr_player p) p_id None ;;
   first_name <- get_in (sr_player p) p_first_name (Some "") ;;
   last_name <- get_in (sr_player p) p_last_name (Some "") ;;
   position <- get_in (sr_player p) p_position (Some "") ;;
   headshot_id <- get_in (sr_player p) p_id (Some 0) ;;
   Ok [ ("player_id", of_int player_id);
        ("name", PStr (format_opt_str first_name +:+ " " +:+ format_opt_str last_name));
        ("position", of_str position);
        ("minutes", of_val (get_default (sr_min p) (Some (PStr ""))));
        ("points", of_val (get_default (sr_pts p) (Some (PInt 0))));
        ("rebounds", of_val (get_default (sr_reb p) (Some (PInt 0))));
        ("assists", of_val (get_default (sr_ast p) (Some (PInt 0))));
        ("steals", of_val (get_default (sr_stl p) (Some (PInt 0))));
        ("blocks", of_val (get_default (sr_blk p) (Some (PInt 0))));
        ("turnovers", of_val (get_default (sr_turnover p) (Some (PInt 0))));
        ("fg_made", of_val (get_default (sr_fgm p) (Some (PInt 0))));
        ("fg_attempted", of_val (get_default (sr_fga p) (Some (PInt 0))));
        ("fg3_made", of_val (get_default (sr_fg3m p) (Some (PInt 0))));
        ("fg3_attempted", of_val (get_default (sr_fg3a p) (Some (PInt 0))));
        ("ft_made", of_val (get_default (sr_ftm p) (Some (PInt 0))));
        ("ft_attempted", of_val (get_default (sr_fta p) (Some (PInt 0))));
        ("headshot_url", PStr (get_player_headshot_url headshot_id default_headshot_size)) ])%R.

(** [fetch_box_score(game_id)]. *)
Definition fetch_box_score (up : env) (game_id : Z) : IO pydict :=
  (_ <- lift (get_headers up) ;;
   data <- http_get (answer_box_scores up) (GET_box_scores game_id) ;;
   match get data with
   | None | Some [] =>
       io_ret [ ("game_id", PInt game_id); ("home_players", PList []);
                ("away_players", PList []) ]
   | Some (box_score :: _) =>
       lift
         (home_team <- get_in (bs_home_team box_score) t_abbreviation (Some "") ;;
          away_team <- get_in (bs_visitor_team box_score) t_abbreviation (Some "") ;;
          home_rows <- iter (get_default (bs_home_team_stats box_score) (Some [])) ;;
          home_players <- for_each format_stat_row home_rows ;;
          away_rows <- iter (get_default (bs_visitor_team_stats box_score) (Some [])) ;;
          away_players <- for_each format_stat_row away_rows ;;
          Ok [ ("game_id", PInt game_id);
               ("home_team", of_str home_team);
               ("away_team", of_str away_team);
               ("home_players", PList (map PDict home_players));
               ("away_players", PList (map PDict away_players)) ])%R
   end)%IO.

(** [fetch_player_season_averages(player_id, season)]. *)
Definition fetch_player_season_averages (up : env) (player_id season : Z) : IO pydict :=
  (_ <- lift (get_headers up) ;;
   data <- http_get (answer_season_averages up) (GET_season_averages season player_id) ;;
   match get data with
   | None | Some [] => io_ret []
   | Some (stats :: _) =>
       io_ret
         [ ("player_id", PInt player_id);
           ("season", PInt season);
           ("games_played", of_val (get_default (sa_games_played stats) (Some (PInt 0))));
           ("minutes", of_val (get_default (sa_min stats) (Some (PInt 0))));
           ("points", of_val (get_default (sa_pts stats) (Some (PInt 0))));
           ("rebounds", of_val (get_default (sa_reb stats) (Some (PInt 0))));
           ("assists", of_val (get_default (sa_ast stats) (Some (PInt 0))));
           ("steals", of_val (get_default (sa_stl stats) (Some (PInt 0))));
           ("blocks", of_val (get_default (sa_blk stats) (Some (PInt 0))));
           ("turnovers", of_val (get_default (sa_turnover stats) (Some (PInt 0))));
           ("fg_pct", of_val (get_default (sa_fg_pct stats) (Some (PInt 0))));
           ("fg3_pct", of_val (get_default (sa_fg3_pct stats) (Some (PInt 0))));
           ("ft_pct", of_val (get_default (sa_ft_pct stats) (Some (PInt 0)))) ]
   end)%IO.

(** [str(e)]. *)
Definition exn_text (e : exn) : string :=
  match e with
  | Error _ _ msg => msg
  | HTTPException code detail => str_of_int code +:+ ": " +:+ detail
  end.

(** The listing [fetch_ticket_prices] builds for the first event found. *)
Definition format_event (event : sg_event) : result pydict :=
  (let stats := ev_stats event in
   venue_name <- get_in (ev_venue event) v_name None ;;
   venue_city <- get_in (ev_venue event) v_city None ;;
   venue_state <- get_in (ev_venue event) v_state None ;;
   venue_capacity <- get_in (ev_venue event) v_capacity None ;;
   venue_address <- get_in (ev_venue event) v_address None ;;
   lowest_price <- get_in stats st_lowest_price None ;;
   average_price <- get_in stats st_average_price None ;;
   highest_price <- get_in stats st_highest_price None ;;
   listing_count <- get_in stats st_listing_count None ;;
   Ok [ ("available", PBool true);
        ("event_id", of_val (get (ev_id event)));
        ("event_url", of_val (get (ev_url event)));
        ("venue", PDict
           [ ("name", of_val venue_name);
             ("city", of_val venue_city);
             ("state", of_val venue_state);
             ("capacity", of_val venue_capacity);
             ("address", of_val venue_address) ]);
        ("prices", PDict
           [ ("lowest_price", of_val lowest_price);
             ("average_price", of_val average_price);
             ("highest_price", of_val highest_price);
             ("listing_count", of_val listing_count) ]);
        ("popularity", of_val (get (ev_score event)));
        ("buy_url", of_val (get (ev_url event))) ])%R.

(** [fetch_ticket_prices(home_team, away_team, game_date)]. *)
Definition fetch_ticket_prices (up : env) (home_team away_team game_date : pyval)
  : IO pydict :=
  let home := format (repr_other up) home_team in
  let away := format (repr_other up) away_team in
  if String.eqb (SEATGEEK_CLIENT_ID up) "" then
    io_ret
      [ ("available", PBool false);
        ("error", PStr "SEATGEEK_CLIENT_ID not configured");
        ("ticketmaster_url", PStr ("https://www.ticketmaster.com/search?q=" +:+ home));
        ("seatgeek_url", PStr ("https://seatgeek.com/search?search=" +:+ home)) ]
  else
    io_try
      (date <- lift (match game_date with
                     | PStr d => Ok d
                     | _ => Raise (Error Outbound TypeError "unsupported operand type(s) for +")
                     end) ;;
       data <- http_get (answer_seatgeek up) (GET_seatgeek_events home away date) ;;
       match get_default data (Some []) with
       | None | Some [] =>
           io_ret
             [ ("available", PBool false);
               ("message", PStr "No ticket listings found");
               ("seatgeek_search_url",
                PStr ("https://seatgeek.com/search?search=" +:+ home)) ]
       | Some (event :: _) => lift (format_event event)
       end)%IO
      (fun e =>
         io_ret
           [ ("available", PBool false);
             ("error", PStr (exn_text e));
             ("seatgeek_search_url",
              PStr ("https://seatgeek.com/search?search=" +:+ home)) ]).

End BallApi.

(* ===================================================================== *)
(** ** The model bundle, and src/model/train_model.py *)
(* ===================================================================== *)

Module Bundle.
Import Py.

(** A number held in the bundle's statistics or in a feature vector. *)
Inductive num :=
  | NInt (z : Z)
  | NFloat (f : float).

(** Per-team averages: team abbreviation -> statistic name -> value. *)
Abbreviation team_stats := (gmap string (gmap string num)).

(** The pickled estimator, seen through the one call made on it:
    [predict_proba([features])[0]] as the pair of class probabilities
    [(prob[0], prob[1])], or [None] when the call raises. *)
Definition model := list num -> option (float * float).

(** The pickled dictionary.  Each key that the training script writes or the
    server reads is a field, [None] when the dictionary lacks the key. *)
Record bundle := {
  b_model : option model;                      (* "model" *)
  b_feature_cols : option (list string);       (* "feature_cols" *)
  b_team_stats_home : option team_stats;       (* "team_stats_home" *)
  b_team_stats_away : option team_stats;       (* "team_stats_away" *)
  b_feature_columns : option (list string);    (* "feature_columns" *)
  b_label_column : option string               (* "label_column" *)
}.

Definition key_if {A} (k : string) (v : option A) : list string :=
  match v with Some _ => [k] | None => [] end.

(** [bundle.keys()]. *)
Definition keys (b : bundle) : list string :=
  key_if "model" (b_model b) ++ key_if "feature_cols" (b_feature_cols b)
  ++ key_if "team_stats_home" (b_team_stats_home b)
  ++ key_if "team_stats_away" (b_team_stats_away b)
  ++ key_if "feature_columns" (b_feature_columns b)
  ++ key_if "label_column" (b_label_column b).

End Bundle.

Module TrainModel.
Import Py Bundle.

Definition FEATURE_COLUMNS : list string :=
  [ "off_rating_home"; "off_rating_away";
    "def_rating_home"; "def_rating_away";
    "net_rating_home"; "net_rating_away";
    "pace_home"; "pace_away";
    "home_rest_days"; "away_rest_days";
    "home_last10_win_pct"; "away_last10_win_pct";
    "home_starters_out"; "away_starters_out" ].

Definition LABEL_COLUMN := "home_win".

(** What [save_model(model, path)] pickles. *)
Definition save_model (m : model) : bundle :=
  {| b_model := Some m;
     b_feature_cols := None;
     b_team_stats_home := None;
     b_team_stats_away := None;
     b_feature_columns := Some FEATURE_COLUMNS;
     b_label_column := Some LABEL_COLUMN |}.

(** A CSV file read by [pd.read_csv]: its header and its rows. *)
Record frame := {
  columns : list string;
  rows : list (list pyval)
}.

(** The two exceptions [load_data] raises itself, each with the text of
    its message, and whatever [pd.read_csv] raised. *)
Inductive load_error :=
  | FileNotFoundError (msg : string)
  | MissingColumns (msg : string)      (* the ValueError *)
  | ReadError (msg : string).

(** [repr] of a list of column names taken from [FEATURE_COLUMNS] and
    [LABEL_COLUMN], which hold no quote and no backslash. *)
Fixpoint join_names (l : list string) : string :=
  match l with
  | [] => ""
  | [c] => "'" +:+ c +:+ "'"
  | c :: rest => "'" +:+ c +:+ "', " +:+ join_names rest
  end.

Definition repr_names (l : list string) : string := "[" +:+ join_names l +:+ "]".

(** [c not in df.columns]. *)
Definition is_column (df : frame) (c : string) : bool :=
  existsb (String.eqb c) (columns df).

(** [missing_cols = [c for c in FEATURE_COLUMNS + [LABEL_COLUMN]
    if c not in df.columns]]. *)
Definition missing_cols (df : frame) : list string :=
  List.filter (fun c => negb (is_column df c)) (FEATURE_COLUMNS ++ [LABEL_COLUMN]).

(** [load_data(path)].  [file] is [None] when [path] does not exist, and
    otherwise what [pd.read_csv(path)] yields: a frame, or the message of
    the exception it raised. *)
Definition load_data (path : string) (file : option (string + frame))
  : load_error + frame :=
  match file with
  | None => inl (FileNotFoundError ("Training data not found at: " +:+ path))
  | Some (inl msg) => inl (ReadError msg)
  | Some (inr df) =>
      match missing_cols df with
      | [] => inr df
      | missing => inl (MissingColumns ("Missing required columns in CSV: "
                                        +:+ repr_names missing))
      end
  end.

End TrainModel.

(* ===================================================================== *)
(** ** src/main.py *)
(* ===================================================================== *)

Module Main.
Import Py BallApi Bundle.

(** The three module-level variables. *)
Record globals := {
  model_bundle : option bundle;
  fallback_games : list pydict;
  cached_games : list pydict
}.

(** Module initialisation.  [model_file] and [games_file] are the contents
    of [model/nba_model.pkl] and [data/games.json] when the files exist.
    The [print] after loading indexes the bundle with ['feature_cols']. *)
Definition startup (model_file : option bundle) (games_file : option (list pydict))
  : result globals :=
  (_ <- match model_file with
        | Some b =>
            match b_feature_cols b with
            | Some cols => Ok tt
            | None => Raise (Error Local KeyError "feature_cols")
            end
        | None => Ok tt
        end ;;
   Ok {| model_bundle := model_file;
         fallback_games := match games_file with Some l => l | None => [] end;
         cached_games := [] |})%R.

(** Handler code: it reads and writes the globals and may send requests.
    An exception leaves the globals as they were when it was raised. *)
Definition M (A : Type) := globals -> list request -> result A * globals * list request.

Definition ret {A} (a : A) : M A := fun g sent => (Ok a, g, sent).
Definition raise {A} (e : exn) : M A := fun g sent => (Raise e, g, sent).
Definition bind {A B} (m : M A) (k : A -> M B) : M B :=
  fun g sent =>
    match m g sent with
    | (Ok a, g', sent') => k a g' sent'
    | (Raise e, g', sent') => (Raise e, g', sent')
    end.

(** [try: m except Exception as e: h e]. *)
Definition try_except {A} (m : M A) (h : exn -> M A) : M A :=
  fun g sent =>
    match m g sent with
    | (Ok a, g', sent') => (Ok a, g', sent')
    | (Raise e, g', sent') => h e g' sent'
    end.

(** [await helper(...)]: helpers of [ball_api] see no global of [main]. *)
Definition await {A} (m : IO A) : M A :=
  fun g sent => let '(r, sent') := m sent in (r, g, sent').

Definition pure {A} (r : result A) : M A := fun g sent => (r, g, sent).

Definition read {A} (proj : globals -> A) : M A := fun g sent => (Ok (proj g), g, sent).

(** [cached_games = games] under [global cached_games]. *)
Definition assign_cached_games (games : list pydict) : M unit :=
  fun g sent =>
    (Ok tt,
     {| model_bundle := model_bundle g;
        fallback_games := fallback_games g;
        cached_games := games |},
     sent).

(** [cached_games.append(game)]. *)
Definition append_cached_games (game : pydict) : M unit :=
  fun g sent =>
    (Ok tt,
     {| model_bundle := model_bundle g;
        fallback_games := fallback_games g;
        cached_games := cached_games g ++ [game] |},
     sent).

Declare Scope main_scope.
Delimit Scope main_scope with M.
Notation "x <- c1 ;; c2" := (bind c1 (fun x => c2))
  (at level 100, c1 at next level, right associativity) : main_scope.

Definition len {A} (l : list A) : pyval := PInt (Z.of_nat (length l)).
Definition list_of_dicts (games : list pydict) : pyval := PList (map PDict games).

(** *** Feature vector *)

(** [stats.get(team)]: a dictionary key must be hashable; among the values
    at hand only a string can be a key of the statistics. *)
Definition stats_get (stats : team_stats) (team : pyval)
  : result (option (gmap string num)) :=
  match team with
  | PStr t => Ok (stats !! t)
  | PList _ | PDict _ => Raise (Error Local TypeError "unhashable type")
  | _ => Ok None
  end.

(** [model_bundle.get("team_stats_home", {})] and its away counterpart. *)
Definition team_stats_home (b : bundle) : gmap string (gmap string num) :=
  match b_team_stats_home b with Some s => s | None => ∅ end.
Definition team_stats_away (b : bundle) : gmap string (gmap string num) :=
  match b_team_stats_away b with Some s => s | None => ∅ end.

(** [data.get(col, 0)]. *)
Definition stat_or_zero (data : gmap string num) (col : string) : num :=
  match data !! col with
  | Some v => v
  | None => NInt 0
  end.

(** The body of the loop over [feature_cols]. *)
Definition feature_of (home_data away_data : gmap string num) (col : string) : num :=
  if contains "_home" col then stat_or_zero home_data col
  else if contains "_away" col then stat_or_zero away_data col
  else stat_or_zero home_data col.

(** [get_team_features(home_team, away_team)]. *)
Definition get_team_features (mb : option bundle) (home_team away_team : pyval)
  : result (option (list num)) :=
  match mb with
  | None => Ok None
  | Some b =>
      (feature_cols <- match b_feature_cols b with
                       | Some cols => Ok cols
                       | None => Raise (Error Local KeyError "feature_cols")
                       end ;;
       let home_stats := team_stats_home b in
       let away_stats := team_stats_away b in
       home_data <- stats_get home_stats home_team ;;
       away_data <- stats_get away_stats away_team ;;
       match home_data, away_data with
       | Some hd, Some ad => Ok (Some (map (feature_of hd ad) feature_cols))
       | _, _ => Ok None
       end)%R
  end.

(** *** Commentary on a prediction *)

(** Order of a float and an integer as Python decides it: on the exact
    values, without rounding the integer to a float; [None] for a NaN. *)
Definition float_cmp_int (f : float) (n : Z) : option comparison :=
  match Prim2SF f with
  | S754_zero _ => Some (0 ?= n)
  | S754_infinity s => Some (if s then Lt else Gt)
  | S754_nan => None
  | S754_finite s m e =>
      let v := if s then Z.neg m else Z.pos m in
      Some (if 0 <=? e then (v * 2 ^ e ?= n) else (v ?= n * 2 ^ (- e)))
  end.

(** [a > b] on two statistics. *)
Definition num_gt (a b : num) : bool :=
  match a, b with
  | NInt x, NInt y => y <? x
  | NFloat x, NFloat y => PrimFloat.ltb y x
  | NFloat f, NInt n =>
      match float_cmp_int f n with Some Gt => true | _ => false end
  | NInt n, NFloat f =>
      match float_cmp_int f n with Some Lt => true | _ => false end
  end.

(** [a + 3]. *)
Definition plus_three (a : num) : num :=
  match a with
  | NInt z => NInt (z + 3)
  | NFloat f => NFloat (f + 3)%float
  end.

(** [stats.get(team, {})]. *)
Definition stats_get_or_empty (stats : team_stats) (team : pyval)
  : result (gmap string num) :=
  (data <- stats_get stats team ;;
   Ok (match data with Some d => d | None => ∅ end))%R.

(** ["prefix" + team]: only a string can be appended to a string. *)
Definition concat_str (prefix : string) (team : pyval) : result string :=
  match team with
  | PStr t => Ok (prefix +:+ t)
  | _ => Raise (Error Local TypeError "can only concatenate str to str")
  end.

(** [get_prediction_factors(home_team, away_team, home_win_prob)]. *)
Definition get_prediction_factors (up : env) (mb : option bundle)
  (home_team away_team : pyval) (home_win_prob : float) : result (list string) :=
  match mb with
  | None => Ok []
  | Some b =>
      (home_stats <- stats_get_or_empty (team_stats_home b) home_team ;;
       away_stats <- stats_get_or_empty (team_stats_away b) away_team ;;
       factors <-
         (if (negb (bool_decide (home_stats = ∅))
              && negb (bool_decide (away_stats = ∅)))%bool
          then
            let home_pts := stat_or_zero home_stats "pts_home" in
            let away_pts := stat_or_zero away_stats "pts_away" in
            let points :=
              if num_gt home_pts away_pts
              then [ format (repr_other up) home_team +:+ " averages more points per game" ]
              else [ format (repr_other up) away_team +:+ " averages more points per game" ] in
            home_court <-
              (if PrimFloat.ltb 0.5 home_win_prob
               then (f <- concat_str "Home court advantage favors " home_team ;; Ok [ f ])
               else Ok []) ;;
            let home_reb := stat_or_zero home_stats "reb_home" in
            let away_reb := stat_or_zero away_stats "reb_away" in
            let boards :=
              if num_gt home_reb (plus_three away_reb)
              then [ format (repr_other up) home_team +:+ " dominates on the boards" ]
              else if num_gt away_reb (plus_three home_reb)
              then [ format (repr_other up) away_team +:+ " dominates on the boards" ]
              else [] in
            Ok (points ++ home_court ++ boards)
          else Ok []) ;;
       Ok (firstn 4 factors))%R
  end.

(** *** Game lookup and enrichment *)

(** [next((g for g in games if g["id"] == game_id), None)]. *)
Fixpoint find_game (game_id : Z) (games : list pydict) : result (option pydict) :=
  match games with
  | [] => Ok None
  | g :: rest =>
      (id <- dict_getitem "id" g ;;
       if eq_int id game_id then Ok (Some g) else find_game game_id rest)%R
  end.

(** [if game:] on the result of a lookup: the dictionary when there is a
    non-empty one. *)
Definition found (game : option pydict) : option pydict :=
  match game with
  | Some g => if nonempty g then Some g else None
  | None => None
  end.

(** The keys [_enrich_game_data] copies, each with its default, in the
    order of the literal; ["tickets"] follows them. *)
Definition ENRICH_DEFAULTS : list (string * pyval) :=
  [ ("id", PNone);
    ("home_team", PStr "");
    ("home_team_name", PStr "");
    ("home_team_id", PInt 0);
    ("home_team_city", PStr "");
    ("home_team_conference", PStr "");
    ("home_team_division", PStr "");
    ("home_team_logo", PStr "");
    ("home_team_logo_small", PStr "");
    ("away_team", PStr "");
    ("away_team_name", PStr "");
    ("away_team_id", PInt 0);
    ("away_team_city", PStr "");
    ("away_team_conference", PStr "");
    ("away_team_division", PStr "");
    ("away_team_logo", PStr "");
    ("away_team_logo_small", PStr "");
    ("game_date", PStr "");
    ("game_time", PNone);
    ("status", PStr "scheduled");
    ("period", PInt 0);
    ("time_remaining", PNone);
    ("postseason", PBool false);
    ("season", PInt 2025);
    ("home_score", PInt 0);
    ("away_score", PInt 0) ].

Definition default_tickets (up : env) (game : pydict) : pyval :=
  PDict
    [ ("available", PBool false);
      ("note", PStr "Ticket data requires API integration");
      ("ticketmaster_search_url",
       PStr ("https://www.ticketmaster.com/search?q="
             +:+ format (repr_other up) (dict_get_default "home_team_name" (PStr "") game)));
      ("seatgeek_search_url",
       PStr ("https://seatgeek.com/search?search="
             +:+ format (repr_other up) (dict_get_default "home_team" (PStr "") game))) ].

(** [_enrich_game_data(game)]. *)
Definition _enrich_game_data (up : env) (game : pydict) : pydict :=
  map (fun kd => (fst kd, dict_get_default (fst kd) (snd kd) game)) ENRICH_DEFAULTS
  ++ [ ("tickets", dict_get_default "tickets" (default_tickets up game) game) ].

(** *** Key players of the predicted winner *)

Record key_player := {
  kp_id : Z;
  kp_name : string;
  kp_position : string;
  kp_headshot_url : string;
  kp_impact_reason : string
}.

(** The [KeyPlayer(...)] constructor on values of a roster entry, which are
    integers, strings or [None]: a [None] fails validation. *)
Definition KeyPlayer (id name position headshot_url : pyval) (impact_reason : string)
  : result key_player :=
  match id, name, position, headshot_url with
  | PInt i, PStr n, PStr p, PStr h =>
      Ok {| kp_id := i; kp_name := n; kp_position := p; kp_headshot_url := h;
            kp_impact_reason := impact_reason |}
  | _, _, _, _ => Raise (Error Local ValueError "validation error for KeyPlayer")
  end.

Definition impact_reasons : list (string * string) :=
  [ ("G", "Floor General");
    ("F", "Two-Way Threat");
    ("C", "Rim Protector");
    ("G-F", "Versatile Scorer");
    ("F-G", "Playmaking Forward");
    ("F-C", "Interior Presence");
    ("C-F", "Stretch Big") ].

Definition impact_reason_of (position : pyval) : string :=
  match position with
  | PStr p => match table_get p impact_reasons with
              | Some r => r
              | None => "Key Contributor"
              end
  | _ => "Key Contributor"
  end.

(** [position in positions_seen] for positions that are strings or [None]. *)
Definition same_position (a b : pyval) : bool :=
  match a, b with
  | PStr x, PStr y => String.eqb x y
  | PNone, PNone => true
  | _, _ => false
  end.

(** The loop of [get_key_players_for_team] over [roster[:limit * 2]]. *)
Fixpoint select_key_players (limit : nat) (roster : list pydict)
  (key_players : list key_player) (positions_seen : list pyval)
  : result (list key_player) :=
  match roster with
  | [] => Ok key_players
  | player :: rest =>
      if (limit <=? length key_players)%nat then Ok key_players
      else
        let position := dict_get_default "position" (PStr "") player in
        if (existsb (same_position position) positions_seen
            && (1 <? length key_players)%nat)%bool
        then select_key_players limit rest key_players positions_seen
        else
          (id <- dict_getitem "id" player ;;
           name <- dict_getitem "full_name" player ;;
           headshot_url <- dict_getitem "headshot_url" player ;;
           kp <- KeyPlayer id name position headshot_url (impact_reason_of position) ;;
           select_key_players limit rest (key_players ++ [kp])
             (position :: positions_seen))%R
  end.

(** [get_key_players_for_team(team_id, team_abbr)], with [limit = 3]. *)
Definition get_key_players_for_team (up : env) (team_id : pyval) : M (list key_player) :=
  try_except
    (roster <- await (fetch_team_roster up team_id) ;;
     if negb (nonempty roster) then ret []
     else pure (select_key_players 3 (firstn 6 roster) [] []))%M
    (fun _ => ret []).

(** *** Responses *)

(** The arguments the two prediction endpoints pass to
    [PredictionResponse]; the rounded probabilities and the commentary of
    [get_prediction_factors], which read no state that changes and send
    nothing, are left out. *)
Record prediction_response := {
  pr_game_id : Z;
  pr_home_team : pyval;
  pr_home_team_name : pyval;
  pr_home_team_logo : pyval;
  pr_away_team : pyval;
  pr_away_team_name : pyval;
  pr_away_team_logo : pyval;
  pr_predicted_winner : pyval;
  pr_predicted_winner_name : pyval;
  pr_predicted_winner_logo : pyval;
  pr_confidence : string;
  pr_key_players : option (list key_player)
}.

Inductive response :=
  | Json (body : pyval)
  | Prediction (p : prediction_response).

(** [a == b] on team abbreviations. *)
Definition same_team (a b : pyval) : bool :=
  match a, b with
  | PStr x, PStr y => String.eqb x y
  | _, _ => false
  end.

(** [get_team_logo_url(team)] on a value of a game dictionary. *)
Definition logo_of (team : pyval) : result pyval :=
  match team with
  | PStr a => Ok (PStr (get_team_logo_url a "L"))
  | _ => Raise (Error Local AttributeError "object has no attribute 'upper'")
  end.

(** [x or f()]. *)
Definition or_else (x : pyval) (alt : result pyval) : result pyval :=
  if truthy x then Ok x else alt.

Definition model_of (mb : option bundle) : result model :=
  match mb with
  | Some b => match b_model b with
              | Some m => Ok m
              | None => Raise (Error Local KeyError "model")
              end
  | None => Raise (Error Local TypeError "'NoneType' object is not subscriptable")
  end.

(** [model.predict_proba([features])[0]]. *)
Definition predict_proba (m : model) (features : list num) : result (float * float) :=
  match m features with
  | Some prob => Ok prob
  | None => Raise (Error Local InferenceError "predict_proba")
  end.

Definition some_if_nonempty {A} (l : list A) : option (list A) :=
  match l with [] => None | _ => Some l end.

(** *** Endpoints *)

(** Lines 440-452 of [predict_game]: the predicted winner and the
    confidence label from the two class probabilities. *)
Definition predict_game_verdict (home_team away_team : pyval)
  (home_win_prob away_win_prob : float) : pyval * string :=
  let '(predicted_winner, confidence_val) :=
    if PrimFloat.ltb 0.5 home_win_prob
    then (home_team, home_win_prob)
    else (away_team, away_win_prob) in
  let confidence :=
    if PrimFloat.leb 0.7 confidence_val then "High"
    else if PrimFloat.leb 0.55 confidence_val then "Medium"
    else "Low" in
  (predicted_winner, confidence).

(** Lines 516-528 of [predict_by_teams]: the same steps, written out again
    in that handler. *)
Definition predict_by_teams_verdict (home away : string)
  (home_win_prob away_win_prob : float) : string * string :=
  let '(predicted_winner, confidence_val) :=
    if PrimFloat.ltb 0.5 home_win_prob
    then (home, home_win_prob)
    else (away, away_win_prob) in
  let confidence :=
    if PrimFloat.leb 0.7 confidence_val then "High"
    else if PrimFloat.leb 0.55 confidence_val then "Medium"
    else "Low" in
  (predicted_winner, confidence).

Definition root (up : env) : M response :=
  ret (Json (PDict
    [ ("message", PStr "NBA Game Predictor API");
      ("api_key_configured", PBool (negb (String.eqb (BALL_API_KEY up) "")));
      ("endpoints", PDict
         [ ("games", PDict
              [ ("/games", PStr "List upcoming games (next N days)");
                ("/games/today", PStr "Get today's games");
                ("/games/past", PStr "Get past games (last N days) with scores & winner");
                ("/games/{id}", PStr "Get game info with logos, conference, division");
                ("/games/{id}/details",
                 PStr "Full game details: rosters, upcoming games, logos");
                ("/games/{id}/boxscore", PStr "Box score with player stats");
                ("/games/{id}/tickets",
                 PStr "Ticket prices & buy links (requires SEATGEEK_CLIENT_ID)") ]);
           ("predictions", PDict
              [ ("/predict/{id}", PStr "Predict game outcome (POST)");
                ("/predict/teams/{home}/{away}", PStr "Predict any matchup");
                ("/results", PStr "View prediction accuracy") ]);
           ("teams", PDict
              [ ("/teams", PStr "List all teams with logos");
                ("/teams/{abbr}/logo", PStr "Get team logo URL");
                ("/teams/{id}/roster", PStr "Get team roster with headshots");
                ("/teams/{id}/upcoming", PStr "Get team's upcoming games") ]);
           ("players", PDict
              [ ("/players", PStr "Search players with headshots");
                ("/players/{id}", PStr "Get player details & stats") ]) ]) ])).

(** GET /games *)
Definition get_games (up : env) (days : Z) : M response :=
  (returned <-
     try_except
       (games <- await (fetch_upcoming_games up days) ;;
        if nonempty games then
          (_ <- assign_cached_games games ;;
           ret (Some (Json (PDict [ ("source", PStr "balldontlie_api");
                                    ("count", len games);
                                    ("games", list_of_dicts games) ]))))
        else ret None)
       (fun _ => ret None) ;;
   match returned with
   | Some resp => ret resp
   | None =>
       cached <- read cached_games ;;
       if nonempty cached then
         ret (Json (PDict [ ("source", PStr "cache");
                            ("count", len cached);
                            ("games", list_of_dicts cached) ]))
       else
         (static <- read fallback_games ;;
          ret (Json (PDict [ ("source", PStr "static");
                             ("count", len static);
                             ("games", list_of_dicts static) ])))
   end)%M.

(** GET /games/today *)
Definition get_today_games (up : env) : M response :=
  try_except
    (games <- await (fetch_today_games up) ;;
     ret (Json (PDict [ ("count", len games); ("games", list_of_dicts games) ])))%M
    (fun e => raise (HTTPException 500 ("Failed to fetch today's games: " +:+ exn_text e))).

(** GET /games/past *)
Definition get_past_games (up : env) (days : Z) : M response :=
  try_except
    (games <- await (fetch_past_games up days) ;;
     ret (Json (PDict [ ("count", len games); ("days_back", PInt days);
                        ("games", list_of_dicts games) ])))%M
    (fun e => raise (HTTPException 500 ("Failed to fetch past games: " +:+ exn_text e))).

(** GET /games/{game_id} *)
Definition get_game (up : env) (game_id : Z) : M response :=
  (returned <-
     try_except
       (game <- await (fetch_game_by_id up game_id) ;;
        ret (found game))
       (fun _ => ret None) ;;
   match returned with
   | Some game => ret (Json (PDict game))
   | None =>
       cached <- read cached_games ;;
       game <- pure (find_game game_id cached) ;;
       match found game with
       | Some g => ret (Json (PDict (_enrich_game_data up g)))
       | None =>
           static <- read fallback_games ;;
           game <- pure (find_game game_id static) ;;
           match found game with
           | Some g => ret (Json (PDict (_enrich_game_data up g)))
           | None => raise (HTTPException 404 "Game not found")
           end
       end
   end)%M.

(** GET /games/{game_id}/details *)
Definition get_game_full_details (up : env) (game_id : Z) : M response :=
  (returned <-
     try_except
       (details <- await (fetch_game_details_full up game_id) ;;
        ret (found details))
       (fun _ => ret None) ;;
   match returned with
   | Some details => ret (Json (PDict details))
   | None => raise (HTTPException 404 "Game not found")
   end)%M.

(** Lines 408-420 of [predict_game]: the game is looked up in the cache,
    then in the static list, then fetched, and a fetched game is appended to
    the cache. *)
Definition locate_game (up : env) (game_id : Z) : M (option pydict) :=
  (cached <- read cached_games ;;
   game <- pure (find_game game_id cached) ;;
   game <- (match found game with
            | Some g => ret (Some g)
            | None =>
                static <- read fallback_games ;;
                game <- pure (find_game game_id static) ;;
                ret (found game)
            end) ;;
   match game with
   | Some g => ret (Some g)
   | None =>
       try_except
         (game <- await (fetch_game_by_id up game_id) ;;
          match found game with
          | Some g => (_ <- append_cached_games g ;; ret game)
          | None => ret game
          end)
         (fun _ => ret None)
   end)%M.

(** Lines 425-489 of [predict_game]: the prediction for a located game. *)
Definition predict_located (up : env) (game_id : Z) (mb : option bundle)
  (game : pydict) : M response :=
  (home_team <- pure (dict_getitem "home_team" game) ;;
   away_team <- pure (dict_getitem "away_team" game) ;;
   features <- pure (get_team_features mb home_team away_team) ;;
   match features with
   | None =>
       raise (HTTPException 400
                ("Missing stats for teams: " +:+ format (repr_other up) home_team
                 +:+ " or " +:+ format (repr_other up) away_team))
   | Some features =>
       model <- pure (model_of mb) ;;
       prob <- pure (predict_proba model features) ;;
       let home_win_prob := snd prob in
       let away_win_prob := fst prob in
       let '(predicted_winner, confidence) :=
         predict_game_verdict home_team away_team home_win_prob away_win_prob in
       home_logo <- pure (or_else (dict_get_none "home_team_logo" game)
                            (logo_of home_team)) ;;
       away_logo <- pure (or_else (dict_get_none "away_team_logo" game)
                            (logo_of away_team)) ;;
       let home_name := dict_get_default "home_team_name" home_team game in
       let away_name := dict_get_default "away_team_name" away_team game in
       let winner_logo :=
         if same_team predicted_winner home_team then home_logo else away_logo in
       key_players <-
         try_except
           (let winner_team_id :=
              if same_team predicted_winner home_team
              then dict_get_none "home_team_id" game
              else dict_get_none "away_team_id" game in
            if truthy winner_team_id
            then get_key_players_for_team up winner_team_id
            else ret [])
           (fun _ => ret []) ;;
       let winner_name :=
         if same_team predicted_winner home_team then home_name else away_name in
       ret (Prediction
              {| pr_game_id := game_id;
                 pr_home_team := home_team;
                 pr_home_team_name := home_name;
                 pr_home_team_logo := home_logo;
                 pr_away_team := away_team;
                 pr_away_team_name := away_name;
                 pr_away_team_logo := away_logo;
                 pr_predicted_winner := predicted_winner;
                 pr_predicted_winner_name := winner_name;
                 pr_predicted_winner_logo := winner_logo;
                 pr_confidence := confidence;
                 pr_key_players := some_if_nonempty key_players |})
   end)%M.

(** POST /predict/{game_id} *)
Definition predict_game (up : env) (game_id : Z) : M response :=
  (mb <- read model_bundle ;;
   _ <- (match mb with
         | None => raise (HTTPException 500 "Model not loaded. Run notebook first.")
         | Some _ => ret tt
         end) ;;
   game <- locate_game up game_id ;;
   match found game with
   | None => raise (HTTPException 404 "Game not found")
   | Some game => predict_located up game_id mb game
   end)%M.

(** GET /predict/teams/{home_team}/{away_team} *)
Definition predict_by_teams (up : env) (home_team away_team : string) : M response :=
  (mb <- read model_bundle ;;
   _ <- (match mb with
         | None => raise (HTTPException 500 "Model not loaded. Run notebook first.")
         | Some _ => ret tt
         end) ;;
   let home := upper home_team in
   let away := upper away_team in
   features <- pure (get_team_features mb (PStr home) (PStr away)) ;;
   match features with
   | None =>
       raise (HTTPException 400
                ("Missing stats for teams: " +:+ home_team +:+ " or " +:+ away_team))
   | Some features =>
       model <- pure (model_of mb) ;;
       prob <- pure (predict_proba model features) ;;
       let home_win_prob := snd prob in
       let away_win_prob := fst prob in
       let '(predicted_winner, confidence) :=
         predict_by_teams_verdict home away home_win_prob away_win_prob in
       let home_logo := get_team_logo_url home "L" in
       let away_logo := get_team_logo_url away "L" in
       let home_name := get_team_full_name home in
       let away_name := get_team_full_name away in
       let winner_logo :=
         if String.eqb predicted_winner home then home_logo else away_logo in
       key_players <-
         try_except
           (match get_balldontlie_team_id predicted_winner with
            | Some winner_team_id =>
                if winner_team_id =? 0 then ret []
                else get_key_players_for_team up (PInt winner_team_id)
            | None => ret []
            end)
           (fun _ => ret []) ;;
       let winner_name :=
         if String.eqb predicted_winner home then home_name else away_name in
       ret (Prediction
              {| pr_game_id := 0;
                 pr_home_team := PStr home;
                 pr_home_team_name := PStr home_name;
                 pr_home_team_logo := PStr home_logo;
                 pr_away_team := PStr away;
                 pr_away_team_name := PStr away_name;
                 pr_away_team_logo := PStr away_logo;
                 pr_predicted_winner := PStr predicted_winner;
                 pr_predicted_winner_name := PStr winner_name;
                 pr_predicted_winner_logo := PStr winner_logo;
                 pr_confidence := confidence;
                 pr_key_players := some_if_nonempty key_players |})
   end)%M.

(** GET /results *)
Definition get_results : M response :=
  ret (Json (PDict
    [ ("accuracy", PFloat 0.85);
      ("total_predictions", PInt 42);
      ("records", PList
         [ PDict [ ("game", PStr "LAL vs GSW"); ("predicted", PFloat 0.72);
                   ("actual", PInt 1); ("correct", PBool true) ];
           PDict [ ("game", PStr "BOS vs MIA"); ("predicted", PFloat 0.65);
                   ("actual", PInt 1); ("correct", PBool true) ];
           PDict [ ("game", PStr "PHX vs DEN"); ("predicted", PFloat 0.48);
                   ("actual", PInt 0); ("correct", PBool true) ] ]) ])).

(** [sorted(...)] on a list of distinct strings. *)
Fixpoint insert_asc (x : string) (l : list string) : list string :=
  match l with
  | [] => [x]
  | y :: l' => if String.leb x y then x :: l else y :: insert_asc x l'
  end.

Definition sorted_strings (l : list string) : list string :=
  fold_right insert_asc [] l.

(** GET /teams *)
Definition list_teams (up : env) : M response :=
  (returned <-
     try_except
       (api_teams <- await (fetch_teams up) ;;
        if nonempty api_teams then
          ret (Some (Json (PDict [ ("source", PStr "balldontlie_api");
                                   ("count", len api_teams);
                                   ("teams", list_of_dicts api_teams) ])))
        else ret None)
       (fun _ => ret None) ;;
   match returned with
   | Some resp => ret resp
   | None =>
       mb <- read model_bundle ;;
       match mb with
       | None => raise (HTTPException 500 "Model not loaded")
       | Some b =>
           let home_teams := team_stats_home b in
           let away_teams := team_stats_away b in
           let all_teams :=
             sorted_strings (elements (dom home_teams ∪ dom away_teams : gset string)) in
           ret (Json (PDict [ ("source", PStr "model");
                              ("count", len all_teams);
                              ("teams", PList (map PStr all_teams)) ]))
       end
   end)%M.

(** GET /teams/{team_abbr}/logo *)
Definition get_team_logo (team_abbr size : string) : M response :=
  let logo_url := get_team_logo_url (upper team_abbr) size in
  if String.eqb logo_url "" then
    raise (HTTPException 404 ("Team not found: " +:+ team_abbr))
  else
    ret (Json (PDict [ ("team", PStr (upper team_abbr)); ("size", PStr size);
                       ("logo_url", PStr logo_url) ])).

(** GET /teams/{team_id}/roster *)
Definition get_team_roster (up : env) (team_id : Z) : M response :=
  try_except
    (roster <- await (fetch_team_roster up (PInt team_id)) ;;
     ret (Json (PDict [ ("team_id", PInt team_id); ("count", len roster);
                        ("players", list_of_dicts roster) ])))%M
    (fun e => raise (HTTPException 500 ("Failed to fetch roster: " +:+ exn_text e))).

(** GET /teams/{team_id}/upcoming *)
Definition get_team_upcoming_games (up : env) (team_id limit : Z) : M response :=
  try_except
    (games <- await (fetch_team_upcoming_games up (PInt team_id) limit) ;;
     ret (Json (PDict [ ("team_id", PInt team_id); ("count", len games);
                        ("games", list_of_dicts games) ])))%M
    (fun e => raise (HTTPException 500 ("Failed to fetch upcoming games: " +:+ exn_text e))).

(** GET /players *)
Definition list_players (up : env) (search : option string) (per_page : Z) : M response :=
  try_except
    (players <- await (fetch_players up search [] per_page) ;;
     ret (Json (PDict [ ("count", len players); ("players", list_of_dicts players) ])))%M
    (fun e => raise (HTTPException 500 ("Failed to fetch players: " +:+ exn_text e))).

(** [d[k] = v]. *)
Fixpoint dict_set (k : string) (v : pyval) (d : pydict) : pydict :=
  match d with
  | [] => [(k, v)]
  | (k', v') :: d' => if String.eqb k k' then (k, v) :: d' else (k', v') :: dict_set k v d'
  end.

(** GET /players/{player_id} *)
Definition get_player (up : env) (player_id season : Z) : M response :=
  try_except
    (stats <- await (fetch_player_season_averages up player_id season) ;;
     ret (Json (PDict (dict_set "headshot_url"
                         (PStr (get_player_headshot_url (Some player_id)
                                  default_headshot_size))
                         stats))))%M
    (fun e => raise (HTTPException 500 ("Failed to fetch player: " +:+ exn_text e))).

(** GET /games/{game_id}/boxscore *)
Definition get_box_score (up : env) (game_id : Z) : M response :=
  try_except
    (box_score <- await (fetch_box_score up game_id) ;;
     ret (Json (PDict box_score)))%M
    (fun e => raise (HTTPException 500 ("Failed to fetch box score: " +:+ exn_text e))).

(** GET /games/{game_id}/tickets: no [try] in this handler. *)
Definition get_game_tickets (up : env) (game_id : Z) : M response :=
  (game <- await (fetch_game_by_id up game_id) ;;
   match found game with
   | None => raise (HTTPException 404 "Game not found")
   | Some game =>
       home_team_name <- pure (dict_getitem "home_team_name" game) ;;
       away_team_name <- pure (dict_getitem "away_team_name" game) ;;
       game_date <- pure (dict_getitem "game_date" game) ;;
       tickets <- await (fetch_ticket_prices up home_team_name away_team_name game_date) ;;
       away_team <- pure (dict_getitem "away_team" game) ;;
       home_team <- pure (dict_getitem "home_team" game) ;;
       game_date' <- pure (dict_getitem "game_date" game) ;;
       ret (Json (PDict
              [ ("game_id", PInt game_id);
                ("matchup", PStr (format (repr_other up) away_team +:+ " @ "
                                  +:+ format (repr_other up) home_team));
                ("game_date", game_date');
                ("tickets", PDict tickets) ]))
   end)%M.

(** *** The application: one request, one handler run *)

Inductive endpoint :=
  | Root
  | GetGames (days : Z)
  | GetTodayGames
  | GetPastGames (days : Z)
  | GetGame (game_id : Z)
  | GetGameFullDetails (game_id : Z)
  | PredictGame (game_id : Z)
  | PredictByTeams (home_team away_team : string)
  | GetResults
  | ListTeams
  | GetTeamLogo (team_abbr size : string)
  | GetTeamRoster (team_id : Z)
  | GetTeamUpcomingGames (team_id limit : Z)
  | ListPlayers (search : option string) (per_page : Z)
  | GetPlayer (player_id season : Z)
  | GetBoxScore (game_id : Z)
  | GetGameTickets (game_id : Z).

Definition handle (up : env) (ep : endpoint) : M response :=
  match ep with
  | Root => root up
  | GetGames days => get_games up days
  | GetTodayGames => get_today_games up
  | GetPastGames days => get_past_games up days
  | GetGame game_id => get_game up game_id
  | GetGameFullDetails game_id => get_game_full_details up game_id
  | PredictGame game_id => predict_game up game_id
  | PredictByTeams home_team away_team => predict_by_teams up home_team away_team
  | GetResults => get_results
  | ListTeams => list_teams up
  | GetTeamLogo team_abbr size => get_team_logo team_abbr size
  | GetTeamRoster team_id => get_team_roster up team_id
  | GetTeamUpcomingGames team_id limit => get_team_upcoming_games up team_id limit
  | ListPlayers search per_page => list_players up search per_page
  | GetPlayer player_id season => get_player up player_id season
  | GetBoxScore game_id => get_box_score up game_id
  | GetGameTickets game_id => get_game_tickets up game_id
  end.

(** The globals after serving one request, starting with nothing sent. *)
Definition serve (up : env) (ep : endpoint) (g : globals) : globals :=
  snd (fst (handle up ep g [])).

(** A run of the server: requests served one after the other, each in its
    own environment. *)
Fixpoint run (calls : list (env * endpoint)) (g : globals) : globals :=
  match calls with
  | [] => g
  | (up, ep) :: rest => run rest (serve up ep g)
  end.

End Main.

(* ===================================================================== *)
(** ** The notions the specification uses *)
(* ===================================================================== *)

Module Spec.
Import Py BallApi Bundle Main.

(** *** Winner and confidence *)

(** "The predicted winner is the home team if and only if the home-win
    probability is strictly greater than 0.5." *)
Definition winner {A} (home away : A) (home_win_prob : float) : A :=
  if (0.5 <? home_win_prob)%float then home else away.

(** "The predicted winner's probability." *)
Definition winner_probability (home_win_prob away_win_prob : float) : float :=
  winner home_win_prob away_win_prob home_win_prob.

(** "High at 0.7 or more, Medium from 0.55 up to 0.7, Low otherwise." *)
Definition confidence (p : float) : string :=
  if (0.7 <=? p)%float then "High"
  else if (0.55 <=? p)%float then "Medium"
  else "Low".

(** *** The bundle *)

(** The keys the prediction path reads from the bundle. *)
Definition keys_read : list string :=
  [ "feature_cols"; "team_stats_home"; "team_stats_away" ].

(** *** Games *)

(** A game dictionary with an ["id"]. *)
Definition has_id (game : pydict) : Prop := dict_get "id" game <> None.

(** "Matching on the 'id' field": [g["id"] == game_id]. *)
Definition id_is (game_id : Z) (game : pydict) : bool :=
  match dict_get "id" game with
  | Some v => eq_int v game_id
  | None => false
  end.

(** "Upstream status is not final and home score is 0": the games that
    [fetch_past_games] leaves out. *)
Definition excluded (game : api_game) : bool :=
  negb (is_final (get_default (g_status game) (Some "")))
  && match get_default (g_home_team_score game) (Some 0) with
     | Some z => z =? 0
     | None => false
     end.

(** Two entries in descending order of their [game_date] strings. *)
Definition date_desc (x y : pydict) : Prop :=
  exists dx dy,
    dict_get "game_date" x = Some (PStr dx)
    /\ dict_get "game_date" y = Some (PStr dy)
    /\ String.leb dy dx = true.

(** What is said of one entry of [fetch_past_games]: its status is "Final"
    and its winner is the home abbreviation when the home score is the
    greater one, the away abbreviation otherwise. *)
Definition final_entry (entry : pydict) : Prop :=
  dict_get "status" entry = Some (PStr "Final")
  /\ exists home away hs vs date,
       dict_get "home_team" entry = Some (PStr home)
       /\ dict_get "away_team" entry = Some (PStr away)
       /\ dict_get "home_score" entry = Some (PInt hs)
       /\ dict_get "away_score" entry = Some (PInt vs)
       /\ dict_get "game_date" entry = Some (PStr date)
       /\ dict_get "winner" entry = Some (PStr (if vs <? hs then home else away))
       /\ (home <> away -> (dict_get "winner" entry = Some (PStr home) <-> vs < hs)).

(** *** Process globals *)

(** The endpoints whose handlers write no global. *)
Definition read_only (ep : endpoint) : bool :=
  match ep with
  | GetGames _ | PredictGame _ => false
  | _ => true
  end.

(** Code that leaves the globals as they are. *)
Definition keeps_globals {A} (m : M A) : Prop :=
  forall g sent, snd (fst (m g sent)) = g.

Definition with_appended (g : globals) (game : pydict) : globals :=
  {| model_bundle := model_bundle g;
     fallback_games := fallback_games g;
     cached_games := cached_games g ++ [game] |}.

(** What POST /predict/{game_id} may do to the globals: nothing, or append
    the game that [fetch_game_by_id] returned. *)
Definition appended_fetched (up : env) (game_id : Z) (sent : list request)
  (g g' : globals) : Prop :=
  g' = g
  \/ exists game,
       fst (fetch_game_by_id up game_id sent) = Ok (Some game)
       /\ g' = with_appended g game.

(** *** Upstream failure *)

(** The same configuration with every upstream call failing. *)
Definition cut_off (up : env) : env :=
  {| BALL_API_KEY := BALL_API_KEY up;
     SEATGEEK_CLIENT_ID := SEATGEEK_CLIENT_ID up;
     today := today up;
     repr_other := repr_other up;
     answer_games := fun _ _ => Failed "connect timeout";
     answer_game := fun _ _ => Failed "connect timeout";
     answer_players := fun _ _ => Failed "connect timeout";
     answer_teams := fun _ _ => Failed "connect timeout";
     answer_box_scores := fun _ _ => Failed "connect timeout";
     answer_season_averages := fun _ _ => Failed "connect timeout";
     answer_seatgeek := fun _ _ => Failed "connect timeout" |}.

(** An exception raised by an outbound call or while reading its payload. *)
Definition outbound (e : exn) : Prop :=
  match e with
  | Error Outbound _ _ => True
  | _ => False
  end.

(** No outbound exception comes out: of a pure step, of a helper, of a
    handler. *)
Definition local_result {A} (r : result A) : Prop :=
  forall e, r = Raise e -> ~ outbound e.
Definition io_contained {A} (m : IO A) : Prop :=
  forall sent, local_result (fst (m sent)).
Definition contained {A} (m : M A) : Prop :=
  forall g sent, local_result (fst (fst (m g sent))).

(** At most the one request [r] was added to [sent]. *)
Definition at_most_one (r : request) (sent sent' : list request) : Prop :=
  sent' = sent \/ sent' = sent ++ [r].

(** The kind of an outbound request: one per upstream resource. *)
Inductive call :=
  | CGames | CGame | CPlayers | CTeams | CBoxScores | CSeasonAverages | CSeatGeek.

Definition call_of (r : request) : call :=
  match r with
  | GET_games _ _ _ _ => CGames
  | GET_game _ => CGame
  | GET_players _ _ _ => CPlayers
  | GET_teams => CTeams
  | GET_box_scores _ => CBoxScores
  | GET_season_averages _ _ => CSeasonAverages
  | GET_seatgeek_events _ _ _ => CSeatGeek
  end.

(** The outbound calls written in each handler, in program order: "no
    endpoint retries a failed call" says that a run makes each of them at
    most once. *)
Definition call_plan (ep : endpoint) : list call :=
  match ep with
  | Root | GetResults | GetTeamLogo _ _ => []
  | GetGames _ | GetTodayGames | GetPastGames _ => [ CGames ]
  | GetGame _ => [ CGame ]
  | GetGameFullDetails _ => [ CGame; CPlayers; CPlayers; CGames; CGames ]
  | PredictGame _ => [ CGame; CPlayers ]
  | PredictByTeams _ _ => [ CPlayers ]
  | ListTeams => [ CTeams ]
  | GetTeamRoster _ => [ CPlayers ]
  | GetTeamUpcomingGames _ _ => [ CGames ]
  | ListPlayers _ _ => [ CPlayers ]
  | GetPlayer _ _ => [ CSeasonAverages ]
  | GetBoxScore _ => [ CBoxScores ]
  | GetGameTickets _ => [ CGame; CSeatGeek ]
  end.

(** The requests a helper or a handler sends follow a plan: they extend
    what was sent before, and their kinds are picked in order from the
    plan, each entry at most once. *)
Definition io_follows {A} (plan : list call) (m : IO A) : Prop :=
  forall sent, exists new,
    snd (m sent) = sent ++ new /\ sublist (map call_of new) plan.

Definition follows {A} (plan : list call) (m : M A) : Prop :=
  forall g sent, exists new,
    snd (m g sent) = sent ++ new /\ sublist (map call_of new) plan.

(** The body of the three answers of GET /games. *)
Definition games_body (source : string) (games : list pydict) : response :=
  Json (PDict [ ("source", PStr source); ("count", len games);
                ("games", list_of_dicts games) ]).

(** An HTTP error response with the given status code. *)
Definition http_error (code : Z) (r : result response) : Prop :=
  exists detail, r = Raise (HTTPException code detail).

(** A game answered from the data the process holds: the cache, then the
    static list, then 404. *)
Definition lookup_game (up : env) (game_id : Z) (g : globals) : result response :=
  (cached <- find_game game_id (cached_games g) ;;
   match found cached with
   | Some game => Ok (Json (PDict (_enrich_game_data up game)))
   | None =>
       static <- find_game game_id (fallback_games g) ;;
       match found static with
       | Some game => Ok (Json (PDict (_enrich_game_data up game)))
       | None => Raise (HTTPException 404 "Game not found")
       end
   end)%R.

(** What an endpoint answers while every upstream call fails: [r] is the
    outcome of the handler started with globals [g]. *)
Definition outage_answer (up : env) (ep : endpoint) (g : globals)
  (r : result response) : Prop :=
  match ep with
  | Root | GetResults | GetTeamLogo _ _ => True
  | GetGames _ =>
      r = Ok (if nonempty (cached_games g) then games_body "cache" (cached_games g)
              else games_body "static" (fallback_games g))
  | GetTodayGames =>
      r = Ok (Json (PDict [ ("count", PInt 0); ("games", PList []) ]))
  | GetPastGames days =>
      match rbind (date_plus (now up) (- days)) (fun _ => date_plus (now up) (- 1)) with
      | Ok _ => r = Ok (Json (PDict [ ("count", PInt 0); ("days_back", PInt days);
                                      ("games", PList []) ]))
      | Raise _ => http_error 500 r
      end
  | GetGame game_id => r = lookup_game up game_id g
  | GetGameFullDetails _ | GetGameTickets _ =>
      r = Raise (HTTPException 404 "Game not found")
  | PredictGame _ | PredictByTeams _ _ =>
      forall p, r = Ok (Prediction p) -> pr_key_players p = None
  | ListTeams =>
      match model_bundle g with
      | None => r = Raise (HTTPException 500 "Model not loaded")
      | Some _ => exists teams,
          r = Ok (Json (PDict [ ("source", PStr "model"); ("count", len teams);
                                ("teams", PList (map PStr teams)) ]))
      end
  | GetTeamRoster team_id =>
      r = Ok (Json (PDict [ ("team_id", PInt team_id); ("count", PInt 0);
                            ("players", PList []) ]))
  | GetTeamUpcomingGames team_id _ =>
      match date_plus (now up) 30 with
      | Ok _ => r = Ok (Json (PDict [ ("team_id", PInt team_id); ("count", PInt 0);
                                      ("games", PList []) ]))
      | Raise _ => http_error 500 r
      end
  | ListPlayers _ _ | GetPlayer _ _ | GetBoxScore _ => http_error 500 r
  end.

End Spec.

(* ===================================================================== *)
(** ** Concrete inputs *)
(* ===================================================================== *)

Module Examples.
Import Py BallApi Bundle Main.

(** An estimator that always gives the home team 62 %. *)
Definition steady_model : model := fun _ => Some (0.38, 0.62)%float.

Definition home_stats : gmap string (gmap string num) :=
  {[ "LAL" := {[ "pts_home" := NFloat 114.5; "pace" := NInt 99 ]};
     "BOS" := {[ "pts_home" := NFloat 117.25 ]} ]}.

Definition away_stats : gmap string (gmap string num) :=
  {[ "LAL" := {[ "pts_away" := NFloat 110.0 ]};
     "BOS" := {[ "pts_away" := NFloat 113.5 ]} ]}.

(** A bundle of the shape the server reads. *)
Definition served_bundle : bundle :=
  {| b_model := Some steady_model;
     b_feature_cols := Some [ "pts_home"; "pts_away"; "pace"; "reb_home" ];
     b_team_stats_home := Some home_stats;
     b_team_stats_away := Some away_stats;
     b_feature_columns := None;
     b_label_column := None |}.

Definition lakers : api_team :=
  {| t_id := Val 14; t_abbreviation := Val "LAL"; t_city := Val "Los Angeles";
     t_name := Val "Lakers"; t_full_name := Val "Los Angeles Lakers";
     t_conference := Val "West"; t_division := Val "Pacific" |}.

Definition celtics : api_team :=
  {| t_id := Val 2; t_abbreviation := Val "BOS"; t_city := Val "Boston";
     t_name := Val "Celtics"; t_full_name := Val "Boston Celtics";
     t_conference := Val "East"; t_division := Val "Atlantic" |}.

(** A team the logo table does not know. *)
Definition sonics : api_team :=
  {| t_id := Val 31; t_abbreviation := Val "SEA"; t_city := Val "Seattle";
     t_name := Val "SuperSonics"; t_full_name := Val "Seattle SuperSonics";
     t_conference := Val "West"; t_division := Val "Northwest" |}.

Definition game_of (id : Z) (date status : string) (home visitor : api_team)
  (home_score visitor_score : Z) : api_game :=
  {| g_id := Val id; g_date := Val date; g_time := Null; g_status := Val status;
     g_period := Val 4; g_postseason := Val false; g_season := Val 2025;
     g_home_team := Val home; g_visitor_team := Val visitor;
     g_home_team_score := Val home_score; g_visitor_team_score := Val visitor_score |}.

Definition james : api_player :=
  {| p_id := Val 237; p_first_name := Val "LeBron"; p_last_name := Val "James";
     p_position := Val "F"; p_height := Val "6-9"; p_weight := Val "250";
     p_jersey_number := Val "23"; p_college := Val "St. Vincent-St. Mary HS (OH)";
     p_country := Val "USA"; p_draft_year := Val 2003; p_draft_round := Val 1;
     p_draft_number := Val 1; p_team := Val lakers |}.

(** Upstream games: three finished ones and one that was not played. *)
Definition upstream_games : list api_game :=
  [ game_of 101 "2025-01-10T00:00:00Z" "Final" lakers celtics 101 110;
    game_of 102 "2025-01-12T00:00:00Z" "7:30 pm ET" celtics lakers 0 0;
    game_of 103 "2025-01-12T00:00:00Z" "Final" celtics lakers 120 118;
    game_of 104 "2025-01-11T00:00:00Z" "Final" lakers sonics 99 98 ].

(** A reachable upstream, on 2025-01-13. *)
Definition online : env :=
  {| BALL_API_KEY := "key";
     SEATGEEK_CLIENT_ID := "";
     today := 739264;
     repr_other := fun _ => "";
     answer_games := fun _ _ => Replied (Val upstream_games);
     answer_game := fun _ _ => Replied (Val (game_of 101 "2025-01-10T00:00:00Z" "Final"
                                               lakers celtics 101 110));
     answer_players := fun _ _ => Replied (Val [ james ]);
     answer_teams := fun _ _ => Replied (Val [ lakers; celtics; sonics ]);
     answer_box_scores := fun _ _ => Replied (Val []);
     answer_season_averages := fun _ _ => Replied (Val []);
     answer_seatgeek := fun _ _ => Replied (Val []) |}.

(** The same day with the upstream unreachable. *)
Definition offline : env := Spec.cut_off online.

Definition static_game : pydict :=
  [ ("id", PInt 7); ("home_team", PStr "LAL"); ("away_team", PStr "BOS");
    ("game_date", PStr "2025-02-01"); ("status", PStr "scheduled") ].

(** Globals of a freshly started server. *)
Definition fresh : globals :=
  {| model_bundle := Some served_bundle;
     fallback_games := [ static_game ];
     cached_games := [] |}.

(** Globals after a game has been cached. *)
Definition warm : globals :=
  {| model_bundle := Some served_bundle;
     fallback_games := [ static_game ];
     cached_games := [ [ ("id", PInt 8); ("home_team", PStr "BOS");
                         ("away_team", PStr "LAL") ] ] |}.

End Examples.


(* ===================================================================== *)
(** ** Further notions and inputs *)
(* ===================================================================== *)

Module Shapes.
Import Py BallApi Bundle Main.

(** The keys of a game as GET /games/{game_id} answers it, in order. *)
Definition ENRICHED_KEYS : list string := map fst ENRICH_DEFAULTS ++ [ "tickets" ].


(** A game that has an ["id"] other than [game_id]. *)
Definition other_id (game_id : Z) (game : pydict) : Prop :=
  Spec.has_id game /\ Spec.id_is game_id game = false.

(** The order of [sorted] on strings. *)
Definition string_le (a b : string) : Prop := String.leb a b = true.

(** The positions seen by the loop of [get_key_players_for_team] are those
    of the players kept so far. *)
Definition seen_are_kept (seen : list pyval) (acc : list key_player) : Prop :=
  forall p, existsb (same_position (PStr p)) seen = true <-> In p (map kp_position acc).

(** From the third player on, a player's position is new. *)
Definition later_positions_new (l : list key_player) : Prop :=
  forall pre x post,
    l = pre ++ x :: post -> (2 <= length pre)%nat ->
    ~ In (kp_position x) (map kp_position pre).

End Shapes.

Module Samples.
Import Py BallApi Bundle Main.

Definition player_of (id : Z) (first last position : string) : api_player :=
  {| p_id := Val id; p_first_name := Val first; p_last_name := Val last;
     p_position := Val position; p_height := Missing; p_weight := Missing;
     p_jersey_number := Missing; p_college := Missing; p_country := Missing;
     p_draft_year := Missing; p_draft_round := Missing; p_draft_number := Missing;
     p_team := Missing |}.

(** A roster whose first three players are guards. *)
Definition guards_first : list api_player :=
  [ player_of 11 "Ann" "Ames" "G"; player_of 12 "Bea" "Birk" "G";
    player_of 13 "Cy" "Cole" "G"; player_of 14 "Di" "Dunn" "F";
    player_of 15 "Ed" "Egan" "C" ].

(** A game whose payload lacks the home team. *)
Definition headless_game : api_game :=
  {| g_id := Val 301; g_date := Val "2025-01-14T00:00:00Z"; g_time := Null;
     g_status := Val "scheduled"; g_period := Val 0; g_postseason := Val false;
     g_season := Val 2025; g_home_team := Missing;
     g_visitor_team := Val Examples.lakers;
     g_home_team_score := Val 0; g_visitor_team_score := Val 0 |}.

Definition stat_row_of (player : api_player) (pts : Z) : api_stat_row :=
  {| sr_player := Val player; sr_min := Val (PStr "31"); sr_pts := Val (PInt pts);
     sr_reb := Missing; sr_ast := Missing; sr_stl := Missing; sr_blk := Missing;
     sr_turnover := Missing; sr_fgm := Missing; sr_fga := Missing;
     sr_fg3m := Missing; sr_fg3a := Missing; sr_ftm := Missing; sr_fta := Missing |}.

Definition box_score_101 : api_box_score :=
  {| bs_home_team := Val Examples.lakers;
     bs_visitor_team := Val Examples.celtics;
     bs_home_team_stats := Val [ stat_row_of Examples.james 28 ];
     bs_visitor_team_stats :=
       Val [ stat_row_of (player_of 11 "Ann" "Ames" "G") 17;
             stat_row_of (player_of 14 "Di" "Dunn" "F") 9 ] |}.

(** Two finished games on 2025-01-12 around one of 2025-01-11, and a list
    that a malformed game spoils. *)
Definition busy_day : list api_game :=
  [ Examples.game_of 201 "2025-01-12T00:00:00Z" "Final"
      Examples.lakers Examples.celtics 101 99;
    Examples.game_of 202 "2025-01-11T00:00:00Z" "Final"
      Examples.celtics Examples.sonics 90 95;
    Examples.game_of 203 "2025-01-12T00:00:00Z" "Final"
      Examples.sonics Examples.lakers 88 104 ].

(** An upstream with a roster, a box score and several games of one day. *)
Definition busy : env :=
  {| BALL_API_KEY := "key";
     SEATGEEK_CLIENT_ID := "";
     today := 739264;
     repr_other := fun _ => "";
     answer_games := fun _ r =>
       match r with
       | GET_games start _ _ _ =>
           if start <? 739264 then Replied (Val busy_day)
           else Replied (Val [ Examples.game_of 300 "2025-01-13T00:00:00Z" "scheduled"
                                 Examples.lakers Examples.celtics 0 0;
                               headless_game ])
       | _ => Failed "not a games request"
       end;
     answer_game := fun _ _ => Replied (Val (Examples.game_of 300 "2025-01-13T00:00:00Z"
                                               "scheduled" Examples.sonics
                                               Examples.celtics 0 0));
     answer_players := fun _ _ => Replied (Val guards_first);
     answer_teams := fun _ _ => Failed "unused";
     answer_box_scores := fun _ _ => Replied (Val [ box_score_101 ]);
     answer_season_averages := fun _ _ => Replied (Val []);
     answer_seatgeek := fun _ _ => Failed "unused" |}.

(** The same upstream reached without an API key. *)
Definition keyless : env :=
  {| BALL_API_KEY := "";
     SEATGEEK_CLIENT_ID := "client";
     today := today busy;
     repr_other := repr_other busy;
     answer_games := answer_games busy;
     answer_game := answer_game busy;
     answer_players := answer_players busy;
     answer_teams := answer_teams busy;
     answer_box_scores := answer_box_scores busy;
     answer_season_averages := answer_season_averages busy;
     answer_seatgeek := answer_seatgeek busy |}.

(** The same upstream with the players endpoint down. *)
Definition rosterless : env :=
  {| BALL_API_KEY := BALL_API_KEY busy;
     SEATGEEK_CLIENT_ID := SEATGEEK_CLIENT_ID busy;
     today := today busy;
     repr_other := repr_other busy;
     answer_games := answer_games busy;
     answer_game := answer_game busy;
     answer_players := fun _ _ => Failed "503 Service Unavailable";
     answer_teams := answer_teams busy;
     answer_box_scores := answer_box_scores busy;
     answer_season_averages := answer_season_averages busy;
     answer_seatgeek := answer_seatgeek busy |}.

(** What [fetch_game_by_id(300)] builds from that upstream. *)
Definition fetched_300 : pydict :=
  match fst (fetch_game_by_id busy 300 []) with
  | Ok (Some game) => game
  | _ => []
  end.

(** Abbreviations written with letters outside ASCII whose upper case is an
    ASCII letter: a long s (U+017F) before "as", "ch" before a dotless i
    (U+0131), and "bo" before a sharp s (U+00DF), which [str.upper()]
    turns into "SS". *)
Definition long_s_as : string := utf8 383 +:+ "as".
Definition ch_dotless_i : string := "ch" +:+ utf8 305.
Definition bo_sharp_s : string := "bo" +:+ utf8 223.

End Samples.
(* ===================================================================== *)
(** ** Properties *)
(* ===================================================================== *)

Import Py BallApi Bundle Main.

Arguments get_team_features : simpl never.
Arguments predict_by_teams_verdict : simpl never.
Arguments predict_game_verdict : simpl never.
Arguments get_key_players_for_team : simpl never.
Arguments get_team_logo_url : simpl never.
Arguments get_team_full_name : simpl never.
Arguments get_balldontlie_team_id : simpl never.
Arguments upper : simpl never.
Arguments fetch_upcoming_games : simpl never.
Arguments fetch_past_games : simpl never.
Arguments fetch_game_by_id : simpl never.
Arguments fetch_game_details_full : simpl never.
Arguments fetch_team_roster : simpl never.
Arguments fetch_team_upcoming_games : simpl never.
Arguments fetch_teams : simpl never.
Arguments fetch_players : simpl never.
Arguments fetch_box_score : simpl never.
Arguments fetch_player_season_averages : simpl never.
Arguments fetch_ticket_prices : simpl never.
Arguments _enrich_game_data : simpl never.
Arguments date_plus : simpl never.
Arguments get_headers : simpl never.
Arguments iter : simpl never.

(** Unfold the plumbing of handler and helper code. *)
Ltac unfold_M :=
  unfold bind, read, pure, ret, raise, try_except, await,
         assign_cached_games, append_cached_games in *.

Ltac unfold_IO :=
  unfold io_bind, io_try, io_ret, io_raise, lift, http_get in *.

(** Split on the first scrutinee left in a hypothesis about a run. *)
Ltac case_step H :=
  match type of H with
  | context [match ?x with _ => _ end] =>
      let E := fresh "E" in destruct x eqn:E; simpl in H; try discriminate H
  end.

(** Split on the head of a chain of binds that produced a value. *)
Ltac bind_step H :=
  match type of H with
  | rbind ?r _ = Ok _ =>
      let E := fresh "E" in destruct r eqn:E; simpl in H; [|discriminate H]
  end.

(** *** Reading payloads *)

Lemma getitem_Ok {A} k (f : field A) v : getitem k f = Ok v -> v = get f.
Proof. destruct f; simpl; intros H; try discriminate; injection H as <-; reflexivity. Qed.

Lemma iter_Ok {A} (v : option (list A)) l : iter v = Ok l -> v = Some l.
Proof.
  unfold iter. destruct v; intros H; [injection H as <-; reflexivity|discriminate].
Qed.

Lemma get_team_logo_url_of_Ok abbr size url :
  get_team_logo_url_of abbr size = Ok url ->
  exists a, abbr = Some a /\ url = get_team_logo_url a size.
Proof.
  destruct abbr as [a|]; simpl; [|discriminate].
  intros H. injection H as <-. eauto.
Qed.

Lemma for_each_Forall2 {A B} (f : A -> result B) l out :
  for_each f l = Ok out -> Forall2 (fun x y => f x = Ok y) l out.
Proof.
  revert out. induction l as [|x l IH]; intros out H; simpl in H.
  - injection H as <-. constructor.
  - destruct (f x) as [y|] eqn:Hx; simpl in H; [|discriminate].
    destruct (for_each f l) as [ys|]; simpl in H; [|discriminate].
    injection H as <-. constructor; auto.
Qed.

Lemma Forall2_for_each {A B} (f : A -> result B) l out :
  Forall2 (fun x y => f x = Ok y) l out -> for_each f l = Ok out.
Proof.
  induction 1 as [|x y l out Hx _ IH]; [reflexivity|].
  simpl. rewrite Hx. simpl. rewrite IH. reflexivity.
Qed.

Lemma date_plus_Ok day d a : date_plus day d = Ok a -> a = day + d.
Proof.
  unfold date_plus. destruct (MAX_DELTA_DAYS <? Z.abs d); [discriminate|].
  destruct ((1 <=? day + d) && (day + d <=? MAX_ORDINAL)); [|discriminate].
  intros H. injection H as <-. reflexivity.
Qed.

Lemma now_in_range up : 1 <= now up <= MAX_ORDINAL.
Proof. unfold now, MAX_ORDINAL. lia. Qed.

Lemma date_plus_now_0 up : date_plus (now up) 0 = Ok (now up).
Proof.
  unfold date_plus. pose proof (now_in_range up) as [H1 H2].
  replace (MAX_DELTA_DAYS <? Z.abs 0) with false by reflexivity.
  rewrite Z.add_0_r.
  destruct (Z.leb_spec 1 (now up)); [|lia].
  destruct (Z.leb_spec (now up) MAX_ORDINAL); [reflexivity|lia].
Qed.

(** *** Binary64 comparisons *)

Lemma compare_cont_flip p q :
  PosDef.Pos.compare_cont Eq q p = CompOpp (PosDef.Pos.compare_cont Eq p q).
Proof.
  change (Pos.compare_cont Eq q p = CompOpp (Pos.compare_cont Eq p q)).
  rewrite (Pos.compare_cont_antisym p q Eq). reflexivity.
Qed.

Lemma SFcompare_antisym x y :
  SFcompare y x = option_map CompOpp (SFcompare x y).
Proof.
  destruct x as [sx|sx| |sx mx ex], y as [sy|sy| |sy my ey]; simpl; try reflexivity;
    try (destruct sx; reflexivity); try (destruct sy; reflexivity);
    try (destruct sx, sy; reflexivity).
  destruct sx, sy; simpl; try reflexivity.
  - rewrite (Z.compare_antisym ey ex). destruct (ey ?= ex)%Z; simpl; try reflexivity.
    rewrite (compare_cont_flip mx my). reflexivity.
  - rewrite (Z.compare_antisym ey ex). destruct (ey ?= ex)%Z; simpl; try reflexivity.
    rewrite (compare_cont_flip mx my). reflexivity.
Qed.

Lemma SFcompare_None x y :
  SFcompare x y = None -> x = S754_nan \/ y = S754_nan.
Proof.
  destruct x, y; simpl; intros H; auto; discriminate.
Qed.

Lemma SFcompare_nan_r x : SFcompare x S754_nan = None.
Proof. destruct x; reflexivity. Qed.

(** For a threshold [a] that is a number and a value [c] that some
    comparison has shown to be a number, "not [a <= c]" is "[c < a]". *)
Lemma not_leb_ltb (a b c : float) :
  PrimFloat.leb b c = true -> PrimFloat.eqb a a = true ->
  (PrimFloat.leb a c = false <-> PrimFloat.ltb c a = true).
Proof.
  rewrite !FloatAxioms.leb_spec, !FloatAxioms.ltb_spec, FloatAxioms.eqb_spec.
  unfold SFleb, SFltb, SFeqb.
  rewrite (SFcompare_antisym (Prim2SF a) (Prim2SF c)).
  intros Hbc Haa.
  destruct (SFcompare (Prim2SF a) (Prim2SF c)) as [[]|] eqn:Hac; simpl;
    try (split; congruence).
  exfalso. apply SFcompare_None in Hac as [Hn|Hn]; rewrite Hn in *.
  - simpl in Haa. discriminate.
  - rewrite SFcompare_nan_r in Hbc. discriminate.
Qed.

(** *** Winner and confidence (lines 440-452 and 516-528 of main.py) *)

Lemma confidence_high p :
  Spec.confidence p = "High" <-> (0.7 <=? p)%float = true.
Proof.
  unfold Spec.confidence.
  destruct (0.7 <=? p)%float; [split; reflexivity|].
  destruct (0.55 <=? p)%float; split; discriminate.
Qed.

Lemma confidence_medium p :
  Spec.confidence p = "Medium"
  <-> (0.55 <=? p)%float = true /\ (p <? 0.7)%float = true.
Proof.
  unfold Spec.confidence.
  destruct (0.55 <=? p)%float eqn:H55.
  - pose proof (not_leb_ltb 0.7 0.55 p H55 eq_refl) as Hlt.
    destruct (0.7 <=? p)%float.
    + split; [discriminate|]. intros [_ H]. apply Hlt in H. discriminate.
    + split; [|reflexivity]. intros _. split; [reflexivity|]. apply Hlt. reflexivity.
  - destruct (0.7 <=? p)%float; split; try discriminate; intros [H _]; discriminate.
Qed.

Lemma confidence_low p :
  Spec.confidence p = "Low"
  <-> (0.7 <=? p)%float = false /\ (0.55 <=? p)%float = false.
Proof.
  unfold Spec.confidence.
  destruct (0.7 <=? p)%float, (0.55 <=? p)%float; split;
    try discriminate; try (intros [? ?]; discriminate); auto.
Qed.

Lemma predict_by_teams_verdict_spec home away ph pa :
  predict_by_teams_verdict home away ph pa
  = (Spec.winner home away ph, Spec.confidence (Spec.winner_probability ph pa)).
Proof.
  unfold predict_by_teams_verdict, Spec.winner_probability, Spec.winner, Spec.confidence.
  destruct (0.5 <? ph)%float; reflexivity.
Qed.

Lemma predict_game_verdict_spec home_team away_team ph pa :
  predict_game_verdict home_team away_team ph pa
  = (Spec.winner home_team away_team ph,
     Spec.confidence (Spec.winner_probability ph pa)).
Proof.
  unfold predict_game_verdict, Spec.winner_probability, Spec.winner, Spec.confidence.
  destruct (0.5 <? ph)%float; reflexivity.
Qed.

Lemma predict_by_teams_response up home_team away_team g sent p g' sent' :
  predict_by_teams up home_team away_team g sent = (Ok (Prediction p), g', sent') ->
  exists b m features prob,
    model_bundle g = Some b /\ b_model b = Some m
    /\ get_team_features (Some b) (PStr (upper home_team)) (PStr (upper away_team))
       = Ok (Some features)
    /\ m features = Some prob
    /\ pr_predicted_winner p
       = PStr (fst (predict_by_teams_verdict (upper home_team) (upper away_team)
                      (snd prob) (fst prob)))
    /\ pr_confidence p
       = snd (predict_by_teams_verdict (upper home_team) (upper away_team)
                (snd prob) (fst prob)).
Proof.
  unfold predict_by_teams. unfold_M. simpl.
  destruct (model_bundle g) as [b|] eqn:Hb; simpl; [|discriminate].
  destruct (get_team_features (Some b) (PStr (upper home_team)) (PStr (upper away_team)))
    as [[features|]|] eqn:Hf; simpl; try discriminate.
  unfold model_of. destruct (b_model b) as [m|] eqn:Hm; simpl; [|discriminate].
  unfold predict_proba. destruct (m features) as [prob|] eqn:Hp; simpl; [|discriminate].
  destruct (predict_by_teams_verdict (upper home_team) (upper away_team)
              (snd prob) (fst prob)) as [w l] eqn:Hv.
  intros H. exists b, m, features, prob.
  repeat (split; [first [reflexivity|assumption]|]).
  rewrite Hv. repeat case_step H; injection H as <- _ _; simpl; split; reflexivity.
Qed.

Lemma predict_game_response up game_id g sent p g' sent' :
  predict_game up game_id g sent = (Ok (Prediction p), g', sent') ->
  exists b m game features prob,
    model_bundle g = Some b /\ b_model b = Some m
    /\ dict_get "home_team" game = Some (pr_home_team p)
    /\ dict_get "away_team" game = Some (pr_away_team p)
    /\ get_team_features (Some b) (pr_home_team p) (pr_away_team p) = Ok (Some features)
    /\ m features = Some prob
    /\ pr_predicted_winner p
       = fst (predict_game_verdict (pr_home_team p) (pr_away_team p)
                (snd prob) (fst prob))
    /\ pr_confidence p
       = snd (predict_game_verdict (pr_home_team p) (pr_away_team p)
                (snd prob) (fst prob)).
Proof.
  unfold predict_game, locate_game, predict_located. unfold_M. simpl.
  destruct (model_bundle g) as [b|] eqn:Hb; simpl; [|discriminate].
  intros H.
  repeat case_step H.
  all: unfold dict_getitem, model_of, predict_proba in *.
  all: repeat match goal with
         | E : match ?x with _ => _ end = _ |- _ =>
             let E' := fresh "E" in destruct x eqn:E'; try discriminate E
         end.
  all: repeat match goal with E : Ok _ = Ok _ |- _ => injection E as E; subst end.
  all: injection H as <- _ _; simpl.
  all: eexists _, _, _, _, _.
  all: repeat (split; [first [reflexivity|eassumption]|]).
  all: match goal with E : predict_game_verdict _ _ _ _ = _ |- _ => rewrite E end.
  all: split; reflexivity.
Qed.

(** C8.  In both prediction endpoints the verdict on a model output is the
    same: the home team is predicted when the home-win probability is
    strictly greater than 0.5 and the away team otherwise (so at exactly
    0.5), which for two different abbreviations makes the predicted winner
    the home team if and only if that probability exceeds 0.5; with [p] the
    predicted winner's probability, the label is "High" iff [p >= 0.7],
    "Medium" iff [0.55 <= p < 0.7], and "Low" otherwise.  Every prediction
    either endpoint returns carries the verdict on the estimator's output
    for that matchup. *)
Theorem prediction_verdict_rules :
  forall (home away : string) (home_win_prob away_win_prob : float),
    let verdict := predict_by_teams_verdict home away home_win_prob away_win_prob in
    let p := if (0.5 <? home_win_prob)%float then home_win_prob else away_win_prob in
    ((0.5 <? home_win_prob)%float = true -> fst verdict = home)
    /\ ((0.5 <? home_win_prob)%float = false -> fst verdict = away)
    /\ (home <> away -> (fst verdict = home <-> (0.5 <? home_win_prob)%float = true))
    /\ fst (predict_by_teams_verdict home away 0.5 away_win_prob) = away
    /\ (snd verdict = "High" <-> (0.7 <=? p)%float = true)
    /\ (snd verdict = "Medium"
        <-> (0.55 <=? p)%float = true /\ (p <? 0.7)%float = true)
    /\ (snd verdict = "Low"
        <-> (0.7 <=? p)%float = false /\ (0.55 <=? p)%float = false)
    /\ (forall home_team away_team : pyval,
          predict_game_verdict home_team away_team home_win_prob away_win_prob
          = (if (0.5 <? home_win_prob)%float then home_team else away_team,
             snd verdict))
    /\ (forall up g sent resp g' sent',
          predict_by_teams up home away g sent = (Ok (Prediction resp), g', sent') ->
          exists b m features prob,
            model_bundle g = Some b /\ b_model b = Some m
            /\ get_team_features (Some b) (PStr (upper home)) (PStr (upper away))
               = Ok (Some features)
            /\ m features = Some prob
            /\ pr_predicted_winner resp
               = PStr (fst (predict_by_teams_verdict (upper home) (upper away)
                              (snd prob) (fst prob)))
            /\ pr_confidence resp
               = snd (predict_by_teams_verdict (upper home) (upper away)
                        (snd prob) (fst prob)))
    /\ (forall up game_id g sent resp g' sent',
          predict_game up game_id g sent = (Ok (Prediction resp), g', sent') ->
          exists b m game features prob,
            model_bundle g = Some b /\ b_model b = Some m
            /\ dict_get "home_team" game = Some (pr_home_team resp)
            /\ dict_get "away_team" game = Some (pr_away_team resp)
            /\ get_team_features (Some b) (pr_home_team resp) (pr_away_team resp)
               = Ok (Some features)
            /\ m features = Some prob
            /\ pr_predicted_winner resp
               = fst (predict_game_verdict (pr_home_team resp) (pr_away_team resp)
                        (snd prob) (fst prob))
            /\ pr_confidence resp
               = snd (predict_game_verdict (pr_home_team resp) (pr_away_team resp)
                        (snd prob) (fst prob))).
Proof.
  intros home away ph pa verdict p. subst verdict.
  rewrite !predict_by_teams_verdict_spec. simpl.
  assert (Hp : Spec.winner_probability ph pa = p) by reflexivity.
  rewrite Hp. unfold Spec.winner.
  split; [intros ->; reflexivity|].
  split; [intros ->; reflexivity|].
  split.
  { intros Hne. destruct (0.5 <? ph)%float; (split; [|intros H]);
      try reflexivity; try discriminate.
    intros H. exfalso. apply Hne. symmetry. exact H. }
  split; [reflexivity|].
  split; [apply confidence_high|].
  split; [apply confidence_medium|].
  split; [apply confidence_low|].
  split.
  { intros h a. rewrite predict_game_verdict_spec, Hp. reflexivity. }
  split.
  - intros up g sent resp g' sent'. apply predict_by_teams_response.
  - intros up game_id g sent resp g' sent'. apply predict_game_response.
Qed.

Lemma prediction_verdict_rules_witness :
  "LAL" <> "BOS"
  /\ (0.5 <? 0.62)%float = true
  /\ fst (predict_by_teams_verdict "LAL" "BOS" 0.62 0.38) = "LAL"
  /\ snd (predict_by_teams_verdict "LAL" "BOS" 0.62 0.38) = "Medium"
  /\ fst (predict_by_teams_verdict "LAL" "BOS" 0.5 0.5) = "BOS".
Proof.
  split; [discriminate|]. split; [reflexivity|].
  destruct (prediction_verdict_rules "LAL" "BOS" 0.62 0.38)
    as (Hhome & _ & _ & _ & _ & Hmedium & _).
  destruct (prediction_verdict_rules "LAL" "BOS" 0.5 0.5)
    as (_ & Haway & _).
  split; [exact (Hhome eq_refl)|].
  split; [apply Hmedium; split; reflexivity|exact (Haway eq_refl)].
Defined.

(** *** The bundle: what the training script saves, what the server reads *)

(** C1 (the code at the failing input).  The dictionary pickled by
    [save_model] has the keys "model", "feature_columns" and "label_column"
    only: none of the keys the prediction path reads.  Loading it makes
    module initialisation of the server raise [KeyError: 'feature_cols'],
    and so does [get_team_features] on it. *)
Theorem save_model_bundle_lacks_read_keys :
  forall (m : model) (games_file : option (list pydict)) (home away : pyval),
    keys (TrainModel.save_model m) = [ "model"; "feature_columns"; "label_column" ]
    /\ Forall (fun k => ~ In k (keys (TrainModel.save_model m))) Spec.keys_read
    /\ startup (Some (TrainModel.save_model m)) games_file
       = Raise (Error Local KeyError "feature_cols")
    /\ get_team_features (Some (TrainModel.save_model m)) home away
       = Raise (Error Local KeyError "feature_cols").
Proof.
  intros m games_file home away. repeat split.
  repeat constructor; simpl; intros H;
    repeat (destruct H as [H|H]; [discriminate H|]); exact H.
Qed.

(** *** Feature-vector assembly *)

Lemma startup_loaded b games_file g :
  startup (Some b) games_file = Ok g ->
  model_bundle g = Some b /\ exists cols, b_feature_cols b = Some cols.
Proof.
  unfold startup. simpl. destruct (b_feature_cols b) as [cols|] eqn:Hc; simpl.
  - intros H. injection H as <-. simpl. eauto.
  - discriminate.
Qed.

Lemma startup_no_model games_file g :
  startup None games_file = Ok g -> model_bundle g = None.
Proof. unfold startup. simpl. intros H. injection H as <-. reflexivity. Qed.

(** C3.  Once the server has started with a bundle, for two teams that have
    an entry in the bundle's home and away statistics respectively,
    [get_team_features] returns one entry per feature column, in order: the
    home team's statistic of that name for a column containing "_home",
    otherwise the away team's for a column containing "_away", otherwise the
    home team's again, and 0 where the chosen record lacks the statistic.
    It returns [None] when either team has no entry, and when no bundle was
    loaded. *)
Theorem get_team_features_assembly :
  forall (b : bundle) (games_file : option (list pydict)) (g : globals)
         (home away : string),
    startup (Some b) games_file = Ok g ->
    (forall home_data away_data,
        team_stats_home b !! home = Some home_data ->
        team_stats_away b !! away = Some away_data ->
        exists cols features,
          b_feature_cols b = Some cols
          /\ get_team_features (model_bundle g) (PStr home) (PStr away)
             = Ok (Some features)
          /\ length features = length cols
          /\ forall (i : nat) (col : string),
               cols !! i = Some col ->
               features !! i
               = Some (if contains "_home" col
                       then match home_data !! col with Some v => v | None => NInt 0 end
                       else if contains "_away" col
                       then match away_data !! col with Some v => v | None => NInt 0 end
                       else match home_data !! col with Some v => v | None => NInt 0 end))
    /\ (team_stats_home b !! home = None \/ team_stats_away b !! away = None ->
        get_team_features (model_bundle g) (PStr home) (PStr away) = Ok None)
    /\ (forall g0, startup None games_file = Ok g0 ->
        get_team_features (model_bundle g0) (PStr home) (PStr away) = Ok None).
Proof.
  intros b games_file g home away Hstart.
  destruct (startup_loaded _ _ _ Hstart) as [Hmb [cols Hcols]].
  rewrite Hmb. unfold get_team_features. rewrite Hcols. simpl.
  split; [|split].
  - intros hd ad Hh Ha. exists cols, (map (feature_of hd ad) cols).
    rewrite Hh, Ha. repeat split; [apply length_map|].
    intros i col Hi. rewrite list_lookup_fmap, Hi. reflexivity.
  - intros [Hn|Hn]; rewrite Hn; [reflexivity|].
    destruct (team_stats_home b !! home); reflexivity.
  - intros g0 H0. rewrite (startup_no_model _ _ H0). reflexivity.
Qed.

Lemma get_team_features_assembly_witness :
  startup (Some Examples.served_bundle) None
  = Ok {| model_bundle := Some Examples.served_bundle;
          fallback_games := []; cached_games := [] |}
  /\ exists features,
       get_team_features (Some Examples.served_bundle)
         (PStr "LAL") (PStr "BOS") = Ok (Some features)
       /\ length features = 4%nat
       /\ features !! 1%nat = Some (NFloat 113.5)
       /\ features !! 3%nat = Some (NInt 0).
Proof.
  split; [reflexivity|].
  destruct (get_team_features_assembly
              Examples.served_bundle None
              {| model_bundle := Some Examples.served_bundle;
                 fallback_games := []; cached_games := [] |}
              "LAL" "BOS" eq_refl) as [H _].
  destruct (H {[ "pts_home" := NFloat 114.5; "pace" := NInt 99 ]}
              {[ "pts_away" := NFloat 113.5 ]} eq_refl eq_refl)
    as (cols & features & Hc & Hf & Hlen & Hcol).
  injection Hc as <-.
  exists features. split; [exact Hf|]. split; [exact Hlen|].
  split; [exact (Hcol 1%nat "pts_away" eq_refl)|exact (Hcol 3%nat "reb_home" eq_refl)].
Defined.

(** *** Teams and players with image-CDN URLs *)

Lemma format_team_entry team entry :
  format_team team = Ok entry ->
  exists abbr,
    t_abbreviation team = Val abbr
    /\ entry = [ ("id", of_int (get (t_id team)));
                 ("abbreviation", PStr abbr);
                 ("city", of_str (get (t_city team)));
                 ("name", of_str (get (t_name team)));
                 ("full_name", of_str (get (t_full_name team)));
                 ("conference", of_str (get (t_conference team)));
                 ("division", of_str (get (t_division team)));
                 ("logo_url", PStr (get_team_logo_url abbr "L"));
                 ("logo_url_small", PStr (get_team_logo_url abbr "S")) ].
Proof.
  unfold format_team. intros H. repeat bind_step H.
  repeat match goal with
         | E : getitem _ _ = Ok _ |- _ => apply getitem_Ok in E; subst
         | E : get_team_logo_url_of _ _ = Ok _ |- _ =>
             apply get_team_logo_url_of_Ok in E as (? & ? & ?)
         end.
  injection H as <-. subst.
  destruct (t_abbreviation team) as [| |abbr]; try discriminate.
  simpl in *. repeat match goal with E : Some _ = Some _ |- _ => injection E as <- end.
  exists abbr. split; reflexivity.
Qed.

Lemma format_player_entry player entry :
  format_player player = Ok entry ->
  dict_get "id" entry = Some (of_int (get (p_id player)))
  /\ dict_get "first_name" entry = Some (of_str (get (p_first_name player)))
  /\ dict_get "last_name" entry = Some (of_str (get (p_last_name player)))
  /\ dict_get "headshot_url" entry
     = Some (PStr (get_player_headshot_url (get (p_id player)) "260x190")).
Proof.
  unfold format_player. intros H. repeat bind_step H.
  repeat match goal with
         | E : getitem _ _ = Ok _ |- _ => apply getitem_Ok in E; subst
         end.
  injection H as <-. repeat split; reflexivity.
Qed.

Lemma format_roster_player_entry player entry :
  format_roster_player player = Ok entry ->
  dict_get "id" entry = Some (of_int (get (p_id player)))
  /\ dict_get "first_name" entry = Some (of_str (get (p_first_name player)))
  /\ dict_get "last_name" entry = Some (of_str (get (p_last_name player)))
  /\ dict_get "headshot_url" entry
     = Some (PStr (get_player_headshot_url (get (p_id player)) "260x190")).
Proof.
  unfold format_roster_player. intros H. repeat bind_step H.
  repeat match goal with
         | E : getitem _ _ = Ok _ |- _ => apply getitem_Ok in E; subst
         end.
  injection H as <-. repeat split; reflexivity.
Qed.

Lemma fetch_teams_Ok up sent teams sent' :
  fetch_teams up sent = (Ok teams, sent') ->
  exists data upstream_teams,
    answer_teams up sent GET_teams = Replied data
    /\ get_default data (Some []) = Some upstream_teams
    /\ for_each format_team upstream_teams = Ok teams.
Proof.
  unfold fetch_teams. unfold_IO.
  destruct (get_headers up); [|discriminate].
  destruct (answer_teams up sent GET_teams) as [msg|data]; [discriminate|].
  destruct (iter (get_default data (Some []))) as [l|] eqn:Hi; [|discriminate].
  apply iter_Ok in Hi. intros H. injection H as H _. eauto.
Qed.

Lemma fetch_players_Ok up search team_ids per_page sent players sent' :
  fetch_players up search team_ids per_page sent = (Ok players, sent') ->
  exists data upstream_players,
    answer_players up sent
      (GET_players (if str_truthy search then search else None) team_ids per_page)
    = Replied data
    /\ get_default data (Some []) = Some upstream_players
    /\ for_each format_player upstream_players = Ok players.
Proof.
  unfold fetch_players. unfold_IO.
  destruct (get_headers up); [|discriminate].
  match goal with |- context [answer_players up sent ?r] =>
    destruct (answer_players up sent r) as [msg|data]; [discriminate|] end.
  destruct (iter (get_default data (Some []))) as [l|] eqn:Hi; [|discriminate].
  apply iter_Ok in Hi. intros H. injection H as H _. eauto.
Qed.

Lemma fetch_team_roster_Ok up team_id sent players sent' :
  fetch_team_roster up team_id sent = (Ok players, sent') ->
  players = []
  \/ exists data upstream_players,
       answer_players up sent (GET_players None [team_id] 50) = Replied data
       /\ get_default data (Some []) = Some upstream_players
       /\ for_each format_roster_player upstream_players = Ok players.
Proof.
  unfold fetch_team_roster. unfold_IO.
  destruct (get_headers up); [|intros H; injection H as <- _; left; reflexivity].
  destruct (answer_players up sent (GET_players None [team_id] 50)) as [msg|data];
    [intros H; injection H as <- _; left; reflexivity|].
  destruct (iter (get_default data (Some []))) as [l|] eqn:Hi;
    [|intros H; injection H as <- _; left; reflexivity].
  apply iter_Ok in Hi.
  destruct (for_each format_roster_player l) as [out|] eqn:Hf;
    intros H; injection H as <- _; [right; eauto|left; reflexivity].
Qed.

Lemma format_roster_player_total player :
  p_id player <> Missing -> p_first_name player <> Missing ->
  p_last_name player <> Missing ->
  exists entry, format_roster_player player = Ok entry.
Proof.
  unfold format_roster_player. intros Hid Hfirst Hlast.
  destruct (p_id player); [contradiction| |];
    (destruct (p_first_name player); [contradiction| |]);
    (destruct (p_last_name player); [contradiction| |]);
    simpl; eauto.
Qed.

Lemma for_each_total {A B} (f : A -> result B) (P : A -> Prop) l :
  (forall x, P x -> exists y, f x = Ok y) ->
  Forall P l -> exists out, for_each f l = Ok out.
Proof.
  intros Hf. induction 1 as [|x l Hx _ [out IH]]; [exists []; reflexivity|].
  destruct (Hf x Hx) as [y Hy]. exists (y :: out). simpl. rewrite Hy. simpl.
  rewrite IH. reflexivity.
Qed.

Lemma fetch_team_roster_replied up team_id sent data upstream_players :
  BALL_API_KEY up <> "" ->
  answer_players up sent (GET_players None [team_id] 50) = Replied data ->
  get_default data (Some []) = Some upstream_players ->
  Forall (fun player =>
            p_id player <> Missing /\ p_first_name player <> Missing
            /\ p_last_name player <> Missing) upstream_players ->
  exists players,
    fetch_team_roster up team_id sent
    = (Ok players, sent ++ [GET_players None [team_id] 50])
    /\ for_each format_roster_player upstream_players = Ok players.
Proof.
  intros Hkey Ha Hd Hall.
  assert (Hf : exists players, for_each format_roster_player upstream_players = Ok players).
  { eapply for_each_total; [|exact Hall].
    intros x (H1 & H2 & H3). apply format_roster_player_total; assumption. }
  destruct Hf as [players Hf].
  exists players. split; [|exact Hf].
  unfold fetch_team_roster, get_headers. unfold_IO.
  apply String.eqb_neq in Hkey. rewrite Hkey, Ha, Hd. simpl. rewrite Hf. reflexivity.
Qed.

Lemma TEAM_NBA_IDS_nonzero k v : table_get k TEAM_NBA_IDS = Some v -> v <> 0.
Proof.
  unfold TEAM_NBA_IDS. simpl.
  repeat (destruct (String.eqb k _); [intros H; injection H as <-; discriminate|]).
  discriminate.
Qed.

Lemma get_team_logo_url_formula abbr size :
  get_team_logo_url abbr size
  = match table_get (upper abbr) TEAM_NBA_IDS with
    | Some nba_id =>
        "https://cdn.nba.com/logos/nba/" +:+ str_of_int nba_id +:+ "/primary/"
        +:+ size +:+ "/logo.svg"
    | None => ""
    end.
Proof.
  unfold get_team_logo_url.
  destruct (table_get (upper abbr) TEAM_NBA_IDS) as [nba_id|] eqn:Ht; [|reflexivity].
  apply TEAM_NBA_IDS_nonzero in Ht. apply Z.eqb_neq in Ht. rewrite Ht. reflexivity.
Qed.

(** C6.  Every team record returned by [fetch_teams] is the team of the
    upstream reply (id, abbreviation, city, name, full name, conference,
    division) followed by "logo_url" and "logo_url_small", which are
    [get_team_logo_url] of its abbreviation at sizes "L" and "S".  Every
    player record returned by [fetch_players] and by [fetch_team_roster] is
    made from the player at the same place of the upstream reply to the
    request the function sent: it carries that player's id and names and a
    "headshot_url" that is [get_player_headshot_url] of its id; the roster
    is the empty list when its [except] took over, and it has a record for
    every upstream player when the upstream replied and each player has an
    id and both names.  The logo URL is the CDN path of the NBA ID that the
    30-entry table gives for the abbreviation, upper-cased as [str.upper()]
    does, and the empty string when the table has no entry for it; the
    headshot URL is the CDN path of the player id. *)
Theorem records_carry_image_urls :
  forall (up : env) (sent : list request),
    (forall teams sent',
        fetch_teams up sent = (Ok teams, sent') ->
        exists data upstream_teams,
          answer_teams up sent GET_teams = Replied data
          /\ get_default data (Some []) = Some upstream_teams
          /\ Forall2
               (fun team entry =>
                  exists abbr,
                    t_abbreviation team = Val abbr
                    /\ entry
                       = [ ("id", of_int (get (t_id team)));
                           ("abbreviation", PStr abbr);
                           ("city", of_str (get (t_city team)));
                           ("name", of_str (get (t_name team)));
                           ("full_name", of_str (get (t_full_name team)));
                           ("conference", of_str (get (t_conference team)));
                           ("division", of_str (get (t_division team)));
                           ("logo_url", PStr (get_team_logo_url abbr "L"));
                           ("logo_url_small", PStr (get_team_logo_url abbr "S")) ])
               upstream_teams teams)
    /\ (forall search team_ids per_page players sent',
          fetch_players up search team_ids per_page sent = (Ok players, sent') ->
          exists data upstream_players,
            answer_players up sent
              (GET_players (if str_truthy search then search else None)
                 team_ids per_page)
            = Replied data
            /\ get_default data (Some []) = Some upstream_players
            /\ Forall2
                 (fun player entry =>
                    dict_get "id" entry = Some (of_int (get (p_id player)))
                    /\ dict_get "first_name" entry
                       = Some (of_str (get (p_first_name player)))
                    /\ dict_get "last_name" entry
                       = Some (of_str (get (p_last_name player)))
                    /\ dict_get "headshot_url" entry
                       = Some (PStr (get_player_headshot_url (get (p_id player))
                                       "260x190")))
                 upstream_players players)
    /\ (forall team_id players sent',
          fetch_team_roster up team_id sent = (Ok players, sent') ->
          players = []
          \/ exists data upstream_players,
               answer_players up sent (GET_players None [team_id] 50) = Replied data
               /\ get_default data (Some []) = Some upstream_players
               /\ Forall2
                    (fun player entry =>
                       dict_get "id" entry = Some (of_int (get (p_id player)))
                       /\ dict_get "first_name" entry
                          = Some (of_str (get (p_first_name player)))
                       /\ dict_get "last_name" entry
                          = Some (of_str (get (p_last_name player)))
                       /\ dict_get "headshot_url" entry
                          = Some (PStr (get_player_headshot_url (get (p_id player))
                                          "260x190")))
                    upstream_players players)
    /\ (forall team_id data upstream_players,
          BALL_API_KEY up <> "" ->
          answer_players up sent (GET_players None [team_id] 50) = Replied data ->
          get_default data (Some []) = Some upstream_players ->
          Forall (fun player =>
                    p_id player <> Missing /\ p_first_name player <> Missing
                    /\ p_last_name player <> Missing) upstream_players ->
          exists players,
            fetch_team_roster up team_id sent
            = (Ok players, sent ++ [GET_players None [team_id] 50])
            /\ Forall2
                 (fun player entry =>
                    dict_get "id" entry = Some (of_int (get (p_id player)))
                    /\ dict_get "first_name" entry
                       = Some (of_str (get (p_first_name player)))
                    /\ dict_get "last_name" entry
                       = Some (of_str (get (p_last_name player)))
                    /\ dict_get "headshot_url" entry
                       = Some (PStr (get_player_headshot_url (get (p_id player))
                                       "260x190")))
                 upstream_players players)
    /\ (forall abbr size,
          get_team_logo_url abbr size
          = match table_get (upper abbr) TEAM_NBA_IDS with
            | Some nba_id =>
                "https://cdn.nba.com/logos/nba/" +:+ str_of_int nba_id +:+ "/primary/"
                +:+ size +:+ "/logo.svg"
            | None => ""
            end)
    /\ (forall abbr size,
          table_get (upper abbr) TEAM_NBA_IDS = None -> get_team_logo_url abbr size = "")
    /\ length TEAM_NBA_IDS = 30%nat
    /\ NoDup (map fst TEAM_NBA_IDS)
    /\ (forall id size,
          get_player_headshot_url (Some id) size
          = "https://cdn.nba.com/headshots/nba/latest/" +:+ size +:+ "/"
            +:+ str_of_int id +:+ ".png").
Proof.
  intros up sent. repeat split.
  - intros teams sent' H.
    destruct (fetch_teams_Ok _ _ _ _ H) as (data & l & Ha & Hd & Hf).
    exists data, l. repeat (split; [assumption|]).
    apply for_each_Forall2 in Hf. eapply Forall2_impl; [exact Hf|].
    intros team entry. apply format_team_entry.
  - intros search team_ids per_page players sent' H.
    destruct (fetch_players_Ok _ _ _ _ _ _ _ H) as (data & l & Ha & Hd & Hf).
    exists data, l. repeat (split; [assumption|]).
    apply for_each_Forall2 in Hf. eapply Forall2_impl; [exact Hf|].
    intros player entry. apply format_player_entry.
  - intros team_id players sent' H.
    destruct (fetch_team_roster_Ok _ _ _ _ _ H) as [->|(data & l & Ha & Hd & Hf)];
      [left; reflexivity|right].
    exists data, l. repeat (split; [assumption|]).
    apply for_each_Forall2 in Hf. eapply Forall2_impl; [exact Hf|].
    intros player entry. apply format_roster_player_entry.
  - intros team_id data l Hkey Ha Hd Hall.
    destruct (fetch_team_roster_replied _ _ _ _ _ Hkey Ha Hd Hall) as (players & Hrun & Hf).
    exists players. split; [exact Hrun|].
    apply for_each_Forall2 in Hf. eapply Forall2_impl; [exact Hf|].
    intros player entry. apply format_roster_player_entry.
  - apply get_team_logo_url_formula.
  - intros abbr size H. rewrite get_team_logo_url_formula, H. reflexivity.
  - apply (bool_decide_unpack _). vm_compute. exact I.
Qed.

Lemma records_carry_image_urls_witness :
  (exists teams,
      fetch_teams Examples.online [] = (Ok teams, [GET_teams])
      /\ Forall2
           (fun team entry =>
              exists abbr,
                t_abbreviation team = Val abbr
                /\ dict_get "logo_url" entry = Some (PStr (get_team_logo_url abbr "L")))
           [ Examples.lakers; Examples.celtics; Examples.sonics ] teams)
  /\ (exists players,
        fetch_players Examples.online (Some "james") [] 25 []
        = (Ok players, [GET_players (Some "james") [] 25])
        /\ Forall2
             (fun player entry =>
                dict_get "id" entry = Some (of_int (get (p_id player)))
                /\ dict_get "headshot_url" entry
                   = Some (PStr (get_player_headshot_url (get (p_id player)) "260x190")))
             [ Examples.james ] players)
  /\ (exists roster,
        fetch_team_roster Samples.busy (PInt 14) []
        = (Ok roster, [GET_players None [PInt 14] 50])
        /\ Forall2
             (fun player entry =>
                dict_get "id" entry = Some (of_int (get (p_id player))))
             Samples.guards_first roster)
  /\ get_team_logo_url "LAL" "L"
     = "https://cdn.nba.com/logos/nba/1610612747/primary/L/logo.svg"
  /\ get_team_logo_url Samples.long_s_as "L"
     = "https://cdn.nba.com/logos/nba/1610612759/primary/L/logo.svg"
  /\ get_team_logo_url Samples.ch_dotless_i "S"
     = "https://cdn.nba.com/logos/nba/1610612741/primary/S/logo.svg"
  /\ get_team_logo_url "SEA" "L" = "".
Proof.
  split; [|split; [|split; [|split; [|split; [|split]]]]].
  - destruct (fetch_teams Examples.online []) as [r s] eqn:Hrun.
    assert (Hs : s = [GET_teams] /\ exists teams, r = Ok teams).
    { vm_compute in Hrun. injection Hrun as <- <-. split; [reflexivity|eauto]. }
    destruct Hs as [-> [teams ->]]. exists teams. split; [reflexivity|].
    destruct (records_carry_image_urls Examples.online []) as (Hteams & _).
    destruct (Hteams teams [GET_teams] Hrun) as (data & l & Ha & Hd & Hf).
    vm_compute in Ha. injection Ha as <-. vm_compute in Hd. injection Hd as <-.
    eapply Forall2_impl; [exact Hf|].
    intros team entry (abbr & Hab & ->). exists abbr. split; [exact Hab|reflexivity].
  - destruct (fetch_players Examples.online (Some "james") [] 25 []) as [r s] eqn:Hrun.
    assert (Hs : s = [GET_players (Some "james") [] 25]
                 /\ exists players, r = Ok players).
    { vm_compute in Hrun. injection Hrun as <- <-. split; [reflexivity|eauto]. }
    destruct Hs as [-> [players ->]]. exists players. split; [reflexivity|].
    destruct (records_carry_image_urls Examples.online []) as (_ & Hplayers & _).
    destruct (Hplayers _ _ _ _ _ Hrun) as (data & l & Ha & Hd & Hf).
    vm_compute in Ha. injection Ha as <-. vm_compute in Hd. injection Hd as <-.
    eapply Forall2_impl; [exact Hf|].
    intros player entry (Hid & _ & _ & Hshot). split; [exact Hid|exact Hshot].
  - destruct (records_carry_image_urls Samples.busy []) as (_ & _ & _ & Hroster & _).
    destruct (Hroster (PInt 14) (Val Samples.guards_first) Samples.guards_first)
      as (roster & Hrun & Hf).
    + discriminate.
    + reflexivity.
    + reflexivity.
    + repeat constructor; discriminate.
    + exists roster. split; [exact Hrun|].
      eapply Forall2_impl; [exact Hf|].
      intros player entry (Hid & _). exact Hid.
  - destruct (records_carry_image_urls Examples.online []) as (_ & _ & _ & _ & Hurl & _).
    rewrite Hurl. reflexivity.
  - destruct (records_carry_image_urls Examples.online []) as (_ & _ & _ & _ & Hurl & _).
    rewrite Hurl. reflexivity.
  - destruct (records_carry_image_urls Examples.online []) as (_ & _ & _ & _ & Hurl & _).
    rewrite Hurl. reflexivity.
  - destruct (records_carry_image_urls Examples.online [])
      as (_ & _ & _ & _ & _ & Hnone & _).
    apply Hnone. reflexivity.
Defined.

(** *** Past games: final, decided, newest first *)

Lemma score_gt_Ok a b r :
  score_gt a b = Ok r -> exists x y, a = Some x /\ b = Some y /\ r = (y <? x).
Proof.
  destruct a as [x|], b as [y|]; simpl; intros H; try discriminate.
  injection H as <-. eauto.
Qed.

Lemma format_past_game_excluded game :
  Spec.excluded game = true -> format_past_game game = Ok None.
Proof. unfold format_past_game, Spec.excluded. intros ->. reflexivity. Qed.

Lemma format_past_game_kept game r :
  Spec.excluded game = false -> format_past_game game = Ok r ->
  exists entry home away hs vs date,
    r = Some entry
    /\ dict_get "status" entry = Some (PStr "Final")
    /\ dict_get "home_team" entry = Some (PStr home)
    /\ dict_get "away_team" entry = Some (PStr away)
    /\ dict_get "home_score" entry = Some (PInt hs)
    /\ dict_get "away_score" entry = Some (PInt vs)
    /\ dict_get "winner" entry = Some (PStr (if vs <? hs then home else away))
    /\ dict_get "game_date" entry = Some (PStr date).
Proof.
  unfold format_past_game, Spec.excluded. intros ->. intros H.
  repeat bind_step H.
  injection H as <-.
  repeat match goal with
         | E : get_team_logo_url_of _ _ = Ok _ |- _ =>
             apply get_team_logo_url_of_Ok in E as (? & ? & ?)
         | E : score_gt _ _ = Ok _ |- _ => apply score_gt_Ok in E as (? & ? & ? & ? & ?)
         end.
  subst.
  repeat match goal with E : Some _ = Some _ |- _ => injection E as E; subst end.
  match goal with E : get_default (g_home_team_score game) _ = _ |- _ => rewrite E end.
  match goal with E : get_default (g_visitor_team_score game) _ = _ |- _ => rewrite E end.
  eexists _, _, _, _, _, _. split; [reflexivity|]. simpl.
  repeat split; try reflexivity.
  match goal with |- context [if ?b then _ else _] => destruct b end;
    simpl; congruence.
Qed.

Lemma format_past_games_spec games entries :
  format_past_games games = Ok entries ->
  Forall2 (fun game entry => format_past_game game = Ok (Some entry))
    (List.filter (fun game => negb (Spec.excluded game)) games) entries
  /\ Forall Spec.final_entry entries.
Proof.
  revert entries. induction games as [|game rest IH]; intros entries H; simpl in H.
  - injection H as <-. split; constructor.
  - destruct (format_past_game game) as [r|] eqn:Hg; simpl in H; [|discriminate].
    destruct (format_past_games rest) as [out|] eqn:Hr; simpl in H; [|discriminate].
    injection H as <-. destruct (IH out eq_refl) as [IH1 IH2].
    simpl. destruct (Spec.excluded game) eqn:Hex.
    + rewrite (format_past_game_excluded _ Hex) in Hg. injection Hg as <-.
      simpl. auto.
    + destruct (format_past_game_kept _ _ Hex Hg)
        as (entry & home & away & hs & vs & date
            & -> & Hs & Hh & Ha & Hhs & Hvs & Hw & Hd).
      simpl.
      split; [constructor; [exact Hg|exact IH1]|].
      constructor; [|exact IH2].
      split; [exact Hs|]. exists home, away, hs, vs, date.
      repeat (split; [assumption|]).
      intros Hne. rewrite Hw. split.
      * intros Heq. injection Heq as Heq.
        destruct (vs <? hs) eqn:Hlt; [apply Z.ltb_lt, Hlt|].
        exfalso. apply Hne. symmetry. exact Heq.
      * intros Hlt. apply Z.ltb_lt in Hlt. rewrite Hlt. reflexivity.
Qed.

(** The sort: a permutation, in descending key order. *)

Lemma ltb_false_leb a b : String.ltb a b = false -> String.leb b a = true.
Proof.
  unfold String.ltb, String.leb. rewrite (String.compare_antisym b a).
  destruct (String.compare a b); simpl; congruence.
Qed.

Lemma ltb_true_leb a b : String.ltb a b = true -> String.leb a b = true.
Proof.
  unfold String.ltb, String.leb. destruct (String.compare a b); simpl; congruence.
Qed.

Section SortDesc.
Context {A : Type}.

Definition key_desc (x y : string * A) : Prop := String.leb (fst y) (fst x) = true.

Lemma insert_desc_perm (x : string * A) l : Permutation (x :: l) (insert_desc x l).
Proof.
  induction l as [|y l IH]; simpl; [reflexivity|].
  destruct (String.ltb (fst x) (fst y)); [|reflexivity].
  rewrite perm_swap. constructor. exact IH.
Qed.

Lemma sort_desc_perm (l : list (string * A)) : Permutation l (sort_desc l).
Proof.
  induction l as [|x l IH]; simpl; [reflexivity|].
  rewrite <- insert_desc_perm. constructor. exact IH.
Qed.

Lemma insert_desc_hd (x y : string * A) l :
  key_desc y x -> HdRel key_desc y l -> HdRel key_desc y (insert_desc x l).
Proof.
  intros Hyx Hl. destruct l as [|z l]; simpl; [constructor; exact Hyx|].
  destruct (String.ltb (fst x) (fst z)); constructor; [|exact Hyx].
  inversion Hl; assumption.
Qed.

Lemma insert_desc_sorted (x : string * A) l :
  Sorted key_desc l -> Sorted key_desc (insert_desc x l).
Proof.
  induction 1 as [|y l Hs IH Hhd]; simpl; [repeat constructor|].
  destruct (String.ltb (fst x) (fst y)) eqn:Hlt.
  - constructor; [exact IH|]. apply insert_desc_hd; [|exact Hhd].
    apply ltb_true_leb, Hlt.
  - constructor; [constructor; assumption|]. constructor.
    apply ltb_false_leb, Hlt.
Qed.

Lemma sort_desc_sorted (l : list (string * A)) : Sorted key_desc (sort_desc l).
Proof.
  induction l as [|x l IH]; simpl; [constructor|]. apply insert_desc_sorted, IH.
Qed.
End SortDesc.

Lemma keyed_spec l keyed :
  for_each (fun x => (k <- game_date_key x ;; Ok (k, x))%R) l = Ok keyed ->
  map snd keyed = l
  /\ Forall (fun kx => dict_get "game_date" (snd kx) = Some (PStr (fst kx))) keyed.
Proof.
  revert keyed. induction l as [|x l IH]; intros keyed H; simpl in H.
  - injection H as <-. split; [reflexivity|constructor].
  - destruct (game_date_key x) as [k|] eqn:Hk; simpl in H; [|discriminate].
    match type of H with context [for_each ?f l] =>
      destruct (for_each f l) as [rest|] eqn:Hr; simpl in H; [|discriminate] end.
    injection H as <-. destruct (IH rest eq_refl) as [IH1 IH2].
    simpl. rewrite IH1. split; [reflexivity|]. constructor; [|exact IH2].
    simpl. unfold game_date_key, dict_getitem in Hk.
    destruct (dict_get "game_date" x) as [[]|]; simpl in Hk; try discriminate.
    injection Hk as ->. reflexivity.
Qed.

Lemma Sorted_map_snd (keyed : list (string * pydict)) :
  Forall (fun kx => dict_get "game_date" (snd kx) = Some (PStr (fst kx))) keyed ->
  Sorted key_desc keyed -> Sorted Spec.date_desc (map snd keyed).
Proof.
  intros Hall Hs. induction Hs as [|x l Hs IH Hhd]; simpl; [constructor|].
  inversion Hall as [|? ? Hx Hl]; subst.
  constructor; [apply IH, Hl|].
  destruct Hhd as [|y l Hxy]; simpl; constructor.
  inversion Hl as [|? ? Hy _]; subst.
  exists (fst x), (fst y). auto.
Qed.

Lemma sort_by_game_date_desc_spec l out :
  sort_by_game_date_desc l = Ok out ->
  Permutation l out /\ Sorted Spec.date_desc out.
Proof.
  unfold sort_by_game_date_desc. intros H.
  match type of H with context [for_each ?f l] =>
    destruct (for_each f l) as [keyed|] eqn:Hk; simpl in H; [|discriminate] end.
  injection H as <-. destruct (keyed_spec _ _ Hk) as [Hmap Hkeys].
  split.
  - rewrite <- Hmap. apply Permutation_map, sort_desc_perm.
  - apply Sorted_map_snd; [|apply sort_desc_sorted].
    rewrite Forall_forall in *. intros kx Hin. apply Hkeys.
    rewrite (sort_desc_perm keyed). exact Hin.
Qed.

Lemma fetch_past_games_Ok up days sent games sent' :
  fetch_past_games up days sent = (Ok games, sent') ->
  games = []
  \/ exists start_date end_date data upstream_games formatted,
       answer_games up sent (GET_games start_date end_date [] 100) = Replied data
       /\ get_default data (Some []) = Some upstream_games
       /\ format_past_games upstream_games = Ok formatted
       /\ sort_by_game_date_desc formatted = Ok games.
Proof.
  unfold fetch_past_games, fetch_games. unfold_IO.
  destruct (date_plus (now up) (- days)) as [start_date|]; [|discriminate].
  destruct (date_plus (now up) (- 1)) as [end_date|]; [|discriminate].
  destruct (get_headers up); [|intros H; injection H as <- _; auto].
  destruct (answer_games up sent (GET_games start_date end_date [] 100))
    as [msg|data] eqn:Ha; [intros H; injection H as <- _; auto|].
  destruct (iter (get_default data (Some []))) as [l|] eqn:Hi;
    [|intros H; injection H as <- _; auto].
  apply iter_Ok in Hi.
  destruct (format_past_games l) as [formatted|] eqn:Hf;
    [|intros H; injection H as <- _; auto].
  destruct (sort_by_game_date_desc formatted) as [out|] eqn:Hs;
    intros H; injection H as <- _; [|auto].
  right. exists start_date, end_date, data, l, formatted. auto.
Qed.

(** C9.  Every entry of the list [fetch_past_games] returns has status
    "Final" and a "winner" that is the home abbreviation when the home score
    is strictly greater than the away score and the away abbreviation
    otherwise (so, for two different abbreviations, the home one if and only
    if the home score is the greater); the list is in descending order of
    "game_date"; and its entries are, up to that reordering, built one each
    from the upstream games that are not excluded, a game being excluded
    when its status is not final and its home score is 0. *)
Theorem past_games_are_final_and_sorted :
  forall (up : env) (days : Z) (sent sent' : list request) (games : list pydict),
    fetch_past_games up days sent = (Ok games, sent') ->
    Forall Spec.final_entry games
    /\ Sorted Spec.date_desc games
    /\ (games = []
        \/ exists start_date end_date data upstream_games formatted,
             answer_games up sent (GET_games start_date end_date [] 100) = Replied data
             /\ get_default data (Some []) = Some upstream_games
             /\ Forall2 (fun game entry => format_past_game game = Ok (Some entry))
                  (List.filter (fun game => negb (Spec.excluded game)) upstream_games)
                  formatted
             /\ Permutation formatted games).
Proof.
  intros up days sent sent' games H.
  destruct (fetch_past_games_Ok _ _ _ _ _ H)
    as [->|(sd & ed & data & l & formatted & Ha & Hd & Hf & Hs)].
  { repeat split; auto; constructor. }
  destruct (format_past_games_spec _ _ Hf) as [Hkept Hfinal].
  destruct (sort_by_game_date_desc_spec _ _ Hs) as [Hperm Hsorted].
  split; [|split; [exact Hsorted|]].
  - rewrite Forall_forall in *. intros x Hx. apply Hfinal. rewrite Hperm. exact Hx.
  - right. exists sd, ed, data, l, formatted. auto.
Qed.

Lemma past_games_are_final_and_sorted_witness :
  exists games sent',
    fetch_past_games Examples.online 7 [] = (Ok games, sent')
    /\ map (dict_get "id") games = [ Some (PInt 103); Some (PInt 104); Some (PInt 101) ]
    /\ map (dict_get "winner") games
       = [ Some (PStr "BOS"); Some (PStr "LAL"); Some (PStr "BOS") ]
    /\ Forall Spec.final_entry games
    /\ Sorted Spec.date_desc games.
Proof.
  destruct (fetch_past_games Examples.online 7 []) as [r s] eqn:Hrun.
  assert (Hr : exists games, r = Ok games
                 /\ map (dict_get "id") games
                    = [ Some (PInt 103); Some (PInt 104); Some (PInt 101) ]
                 /\ map (dict_get "winner") games
                    = [ Some (PStr "BOS"); Some (PStr "LAL"); Some (PStr "BOS") ]).
  { vm_compute in Hrun. injection Hrun as <- _. eexists. split; [reflexivity|].
    split; reflexivity. }
  destruct Hr as (games & -> & Hids & Hwinners). exists games, s.
  split; [reflexivity|]. split; [exact Hids|]. split; [exact Hwinners|].
  destruct (past_games_are_final_and_sorted Examples.online 7 [] s games Hrun)
    as (Hfinal & Hsorted & _).
  split; assumption.
Defined.

(** *** GET /games: live API, then cache, then static file *)

Lemma fetch_games_sent up s e teams n sent :
  Spec.at_most_one (GET_games s e teams n) sent (snd (fetch_games up s e teams n sent)).
Proof.
  unfold fetch_games, Spec.at_most_one. unfold_IO.
  destruct (get_headers up); simpl; auto.
Qed.

Lemma io_try_sent {A} (m : IO A) (a : A) sent :
  snd (io_try m (fun _ => io_ret a) sent) = snd (m sent).
Proof. unfold_IO. destruct (m sent) as [[?|?] ?]; reflexivity. Qed.

Lemma fetch_upcoming_games_sent up days sent :
  Spec.at_most_one (GET_games (now up) (now up + days) [] 100) sent
    (snd (fetch_upcoming_games up days sent)).
Proof.
  unfold fetch_upcoming_games.
  unfold io_bind at 1. unfold lift at 1.
  destruct (date_plus (now up) days) as [end_date|e] eqn:Hd; [|left; reflexivity].
  apply date_plus_Ok in Hd. subst end_date.
  rewrite io_try_sent.
  pose proof (fetch_games_sent up (now up) (now up + days) [] 100 sent) as Hs.
  unfold io_bind. destruct (fetch_games up (now up) (now up + days) [] 100 sent)
    as [[data|e] sent1]; simpl in *; [|exact Hs].
  unfold lift. destruct (iter (get_default data (Some []))); simpl; exact Hs.
Qed.

Lemma get_games_run up days g sent :
  get_games up days g sent
  = match fst (fetch_upcoming_games up days sent) with
    | Ok (game :: rest) =>
        (Ok (Spec.games_body "balldontlie_api" (game :: rest)),
         {| model_bundle := model_bundle g;
            fallback_games := fallback_games g;
            cached_games := game :: rest |},
         snd (fetch_upcoming_games up days sent))
    | _ =>
        if nonempty (cached_games g)
        then (Ok (Spec.games_body "cache" (cached_games g)), g,
              snd (fetch_upcoming_games up days sent))
        else (Ok (Spec.games_body "static" (fallback_games g)), g,
              snd (fetch_upcoming_games up days sent))
    end.
Proof.
  unfold get_games. unfold_M.
  destruct (fetch_upcoming_games up days sent) as [[[|game rest]|e] sent1]; simpl;
    try reflexivity; destruct (cached_games g); reflexivity.
Qed.

(** C2.  GET /games first calls the live API through [fetch_upcoming_games],
    which sends at most the one request for the games of the next [days]
    days.  If that call returns a non-empty list, the answer is that list
    tagged "balldontlie_api" and the list becomes the cache.  If it raises or
    returns the empty list, the answer is the cache tagged "cache" when the
    cache is non-empty, and otherwise the static list tagged "static"; the
    globals are then left as they were.  Each answer carries the length of
    its list as "count". *)
Theorem get_games_fallback_order :
  forall (up : env) (days : Z) (g : globals) (sent : list request),
    let fetched := fetch_upcoming_games up days sent in
    let body source games :=
      Json (PDict [ ("source", PStr source);
                    ("count", PInt (Z.of_nat (length games)));
                    ("games", PList (map PDict games)) ]) in
    get_games up days g sent
    = match fst fetched with
      | Ok (game :: rest) =>
          (Ok (body "balldontlie_api" (game :: rest)),
           {| model_bundle := model_bundle g;
              fallback_games := fallback_games g;
              cached_games := game :: rest |},
           snd fetched)
      | _ =>
          match cached_games g with
          | _ :: _ => (Ok (body "cache" (cached_games g)), g, snd fetched)
          | [] => (Ok (body "static" (fallback_games g)), g, snd fetched)
          end
      end
    /\ (snd fetched = sent
        \/ snd fetched = sent ++ [GET_games (now up) (now up + days) [] 100]).
Proof.
  intros up days g sent fetched body. subst fetched body. split.
  - rewrite get_games_run.
    destruct (fst (fetch_upcoming_games up days sent)) as [[|game rest]|e];
      try reflexivity; destruct (cached_games g); reflexivity.
  - apply fetch_upcoming_games_sent.
Qed.

(** *** GET /games/{game_id}: live API, then cache, then static list *)

Lemma has_id_nonempty game : Spec.has_id game -> nonempty game = true.
Proof. destruct game; [intros H; exfalso; apply H; reflexivity|reflexivity]. Qed.

Lemma find_game_find game_id games :
  Forall Spec.has_id games ->
  find_game game_id games = Ok (List.find (Spec.id_is game_id) games).
Proof.
  induction 1 as [|g rest Hg _ IH]; [reflexivity|].
  simpl. unfold Spec.id_is at 1, dict_getitem. unfold Spec.has_id in Hg.
  destruct (dict_get "id" g) as [v|]; [|contradiction]. simpl.
  destruct (eq_int v game_id); [reflexivity|exact IH].
Qed.







(** *** What the handlers do to the globals *)

Section FrameRules.
Context {A B : Type}.

Lemma keeps_ret (a : A) : Spec.keeps_globals (ret a).
Proof. intros g sent. reflexivity. Qed.
Lemma keeps_raise (e : exn) : Spec.keeps_globals (@raise A e).
Proof. intros g sent. reflexivity. Qed.
Lemma keeps_pure (r : result A) : Spec.keeps_globals (pure r).
Proof. intros g sent. reflexivity. Qed.
Lemma keeps_read (proj : globals -> A) : Spec.keeps_globals (read proj).
Proof. intros g sent. reflexivity. Qed.
Lemma keeps_await (m : IO A) : Spec.keeps_globals (await m).
Proof. intros g sent. unfold await. destruct (m sent). reflexivity. Qed.
Lemma keeps_bind (m : M A) (k : A -> M B) :
  Spec.keeps_globals m -> (forall a, Spec.keeps_globals (k a)) ->
  Spec.keeps_globals (bind m k).
Proof.
  intros Hm Hk g sent. specialize (Hm g sent). unfold bind.
  destruct (m g sent) as [[[a|e] g1] s1]; simpl in *; subst g1; [apply Hk|reflexivity].
Qed.
Lemma keeps_try (m : M A) (h : exn -> M A) :
  Spec.keeps_globals m -> (forall e, Spec.keeps_globals (h e)) ->
  Spec.keeps_globals (try_except m h).
Proof.
  intros Hm Hh g sent. specialize (Hm g sent). unfold try_except.
  destruct (m g sent) as [[[a|e] g1] s1]; simpl in *; subst g1; [reflexivity|apply Hh].
Qed.
End FrameRules.

(** Handler code without an assignment to, or an append on, the cache. *)
Ltac keeps :=
  repeat first
    [ apply keeps_ret | apply keeps_raise | apply keeps_pure | apply keeps_read
    | apply keeps_await
    | apply keeps_bind; [|intros ?]
    | apply keeps_try; [|intros ?]
    | match goal with
      | |- Spec.keeps_globals (match ?x with _ => _ end) => destruct x
      | |- Spec.keeps_globals (let '(_, _) := ?x in _) => destruct x
      end ].

Lemma read_only_keeps up ep :
  Spec.read_only ep = true -> Spec.keeps_globals (handle up ep).
Proof.
  destruct ep; simpl; try discriminate; intros _.
  - unfold root; keeps.
  - unfold get_today_games; keeps.
  - unfold get_past_games; keeps.
  - unfold get_game; keeps.
  - unfold get_game_full_details; keeps.
  - unfold predict_by_teams; keeps.
  - unfold get_results; keeps.
  - unfold list_teams; keeps.
  - unfold get_team_logo; keeps.
  - unfold get_team_roster; keeps.
  - unfold get_team_upcoming_games; keeps.
  - unfold list_players; keeps.
  - unfold get_player; keeps.
  - unfold get_box_score; keeps.
  - unfold get_game_tickets; keeps.
Qed.

Lemma locate_game_globals up game_id g sent :
  Spec.appended_fetched up game_id sent g (snd (fst (locate_game up game_id g sent))).
Proof.
  unfold locate_game, Spec.appended_fetched. unfold_M. simpl.
  destruct (find_game game_id (cached_games g)) as [game0|e]; simpl; [|auto].
  destruct (found game0) as [hit|]; simpl; [auto|].
  destruct (find_game game_id (fallback_games g)) as [game1|e]; simpl; [|auto].
  destruct (found game1) as [hit|]; simpl; [auto|].
  destruct (fetch_game_by_id up game_id sent) as [[[game|]|e] s1]; simpl; auto.
  unfold found. destruct (nonempty game); simpl; [|auto].
  right. exists game. split; reflexivity.
Qed.

Lemma predict_located_keeps up game_id mb game :
  Spec.keeps_globals (predict_located up game_id mb game).
Proof. unfold predict_located. keeps. Qed.

Lemma predict_game_globals up game_id g sent :
  Spec.appended_fetched up game_id sent g (snd (fst (predict_game up game_id g sent))).
Proof.
  pose proof (locate_game_globals up game_id g sent) as Hl.
  unfold predict_game. unfold bind at 1 2 3. unfold read.
  destruct (model_bundle g) as [b|] eqn:Hb; [|left; reflexivity].
  unfold ret at 1.
  destruct (locate_game up game_id g sent) as [[[game|e] g1] s1]; simpl in Hl;
    [|exact Hl].
  destruct (found game) as [hit|]; [|exact Hl].
  rewrite (predict_located_keeps up game_id (Some b) hit g1 s1). exact Hl.
Qed.

Lemma handle_globals up ep g sent :
  let g' := snd (fst (handle up ep g sent)) in
  model_bundle g' = model_bundle g
  /\ fallback_games g' = fallback_games g
  /\ (cached_games g' = cached_games g
      \/ (exists days game rest,
            ep = GetGames days
            /\ fst (fetch_upcoming_games up days sent) = Ok (game :: rest)
            /\ cached_games g' = game :: rest)
      \/ (exists game_id game,
            ep = PredictGame game_id
            /\ fst (fetch_game_by_id up game_id sent) = Ok (Some game)
            /\ cached_games g' = cached_games g ++ [game])).
Proof.
  intros g'. subst g'.
  destruct (Spec.read_only ep) eqn:Hro.
  - rewrite (read_only_keeps up ep Hro g sent). auto.
  - destruct ep; try discriminate Hro; simpl.
    + rewrite get_games_run.
      destruct (fetch_upcoming_games up days sent) as [[[|game rest]|e] s1] eqn:Hf;
        simpl.
      * destruct (nonempty (cached_games g)); simpl; auto.
      * split; [reflexivity|]. split; [reflexivity|].
        right. left. exists days, game, rest. rewrite Hf. repeat split.
      * destruct (nonempty (cached_games g)); simpl; auto.
    + destruct (predict_game_globals up game_id g sent) as [->|(game & Hf & ->)];
        [auto|].
      simpl. split; [reflexivity|]. split; [reflexivity|].
      right. right. exists game_id, game. repeat split. exact Hf.
Qed.

Lemma run_keeps_files calls g :
  model_bundle (run calls g) = model_bundle g
  /\ fallback_games (run calls g) = fallback_games g.
Proof.
  revert g. induction calls as [|[up ep] rest IH]; intros g; simpl; [auto|].
  destruct (IH (serve up ep g)) as [-> ->]. unfold serve.
  destruct (handle_globals up ep g []) as (Hm & Hf & _). auto.
Qed.

(** C4.  Serving a request never changes the model bundle or the static
    games list, in one step or over a whole run, and they are what module
    initialisation loaded; the cache is left as it was by every endpoint,
    except that GET /games replaces it by the non-empty list it fetched and
    POST /predict/{game_id} appends the one game it fetched. *)
Theorem only_the_cache_changes :
  forall (up : env) (ep : endpoint) (g : globals) (sent : list request),
    let g' := snd (fst (handle up ep g sent)) in
    model_bundle g' = model_bundle g
    /\ fallback_games g' = fallback_games g
    /\ (cached_games g' = cached_games g
        \/ (exists days game rest,
              ep = GetGames days
              /\ fst (fetch_upcoming_games up days sent) = Ok (game :: rest)
              /\ cached_games g' = game :: rest)
        \/ (exists game_id game,
              ep = PredictGame game_id
              /\ fst (fetch_game_by_id up game_id sent) = Ok (Some game)
              /\ cached_games g' = cached_games g ++ [game]))
    /\ (Spec.read_only ep = true -> g' = g)
    /\ (forall calls,
          model_bundle (run calls g) = model_bundle g
          /\ fallback_games (run calls g) = fallback_games g)
    /\ (forall model_file games_file g0,
          startup model_file games_file = Ok g0 ->
          model_bundle g0 = model_file
          /\ fallback_games g0 = match games_file with Some l => l | None => [] end
          /\ cached_games g0 = []).
Proof.
  intros up ep g sent g'.
  destruct (handle_globals up ep g sent) as (Hm & Hf & Hc).
  split; [exact Hm|]. split; [exact Hf|]. split; [exact Hc|].
  split; [intros Hro; apply (read_only_keeps up ep Hro)|].
  split; [intros calls; apply run_keeps_files|].
  intros model_file games_file g0. unfold startup.
  destruct model_file as [b|]; simpl.
  - destruct (b_feature_cols b); simpl; [|discriminate].
    intros H. injection H as <-. auto.
  - intros H. injection H as <-. auto.
Qed.

(** *** The cache never empties *)

Lemma serve_cache_stays_nonempty up ep g :
  cached_games g <> [] -> cached_games (serve up ep g) <> [].
Proof.
  unfold serve.
  destruct (handle_globals up ep g []) as (_ & _ & [->|[H|H]]); [auto| |].
  - destruct H as (days & game & rest & _ & _ & ->). discriminate.
  - destruct H as (game_id & game & _ & _ & ->). intros Hne Happ.
    apply app_eq_nil in Happ as [_ Hnil]. discriminate.
Qed.

(** C10.  Once the cache is non-empty it stays non-empty under every
    sequence of requests: a request either leaves it as it is, or is a GET
    /games that replaces it by a non-empty fetched list, or is a POST
    /predict/{game_id} that appends one game to it. *)
Theorem cache_stays_nonempty :
  forall (calls : list (env * endpoint)) (g : globals),
    cached_games g <> [] ->
    cached_games (run calls g) <> []
    /\ forall up ep,
         cached_games (serve up ep g) = cached_games g
         \/ (exists days game rest,
               ep = GetGames days /\ cached_games (serve up ep g) = game :: rest)
         \/ (exists game_id game,
               ep = PredictGame game_id
               /\ cached_games (serve up ep g) = cached_games g ++ [game]).
Proof.
  intros calls g Hne. split.
  - revert g Hne. induction calls as [|[up ep] rest IH]; intros g Hne; simpl;
      [exact Hne|].
    apply IH, serve_cache_stays_nonempty, Hne.
  - intros up ep. unfold serve.
    destruct (handle_globals up ep g []) as (_ & _ & [H|[H|H]]); [auto| |].
    + destruct H as (days & game & rest & -> & _ & H). right. left. eauto.
    + destruct H as (game_id & game & -> & _ & H). right. right. eauto.
Qed.

Lemma cache_stays_nonempty_witness :
  cached_games Examples.warm <> []
  /\ cached_games
       (run [ (Examples.offline, GetGames 7); (Examples.online, PredictGame 101);
              (Examples.offline, GetTodayGames); (Examples.online, GetGames 7) ]
          Examples.warm) <> [].
Proof.
  assert (H : cached_games Examples.warm <> []) by discriminate.
  split; [exact H|].
  apply (cache_stays_nonempty
           [ (Examples.offline, GetGames 7); (Examples.online, PredictGame 101);
             (Examples.offline, GetTodayGames); (Examples.online, GetGames 7) ]
           Examples.warm H).
Defined.

(** *** Cached games carry an "id" *)

Lemma format_upcoming_game_has_id game d :
  format_upcoming_game game = Ok d -> Spec.has_id d.
Proof.
  unfold format_upcoming_game. intros H. repeat bind_step H.
  injection H as <-. unfold Spec.has_id. simpl. discriminate.
Qed.

Lemma format_game_details_has_id game d :
  format_game_details game = Ok d -> Spec.has_id d.
Proof.
  unfold format_game_details. intros H. repeat bind_step H.
  injection H as <-. unfold Spec.has_id. simpl. discriminate.
Qed.

Lemma for_each_Forall {A B} (f : A -> result B) (P : B -> Prop) l out :
  (forall x y, f x = Ok y -> P y) -> for_each f l = Ok out -> Forall P out.
Proof.
  intros Hf H. apply for_each_Forall2 in H.
  induction H; constructor; eauto.
Qed.

Lemma fetch_upcoming_games_has_id up days sent games :
  fst (fetch_upcoming_games up days sent) = Ok games -> Forall Spec.has_id games.
Proof.
  unfold fetch_upcoming_games, fetch_games. unfold_IO.
  destruct (date_plus (now up) days) as [end_date|]; [|discriminate].
  destruct (get_headers up); [|intros H; injection H as <-; constructor].
  destruct (answer_games up sent (GET_games (now up) end_date [] 100))
    as [msg|data]; [intros H; injection H as <-; constructor|].
  destruct (iter (get_default data (Some []))) as [l|];
    [|intros H; injection H as <-; constructor].
  destruct (for_each format_upcoming_game l) as [out|] eqn:Hf;
    intros H; injection H as <-; [|constructor].
  exact (for_each_Forall _ _ _ _ format_upcoming_game_has_id Hf).
Qed.

Lemma fetch_game_by_id_has_id up game_id sent game :
  fst (fetch_game_by_id up game_id sent) = Ok (Some game) -> Spec.has_id game.
Proof.
  unfold fetch_game_by_id. unfold_IO.
  destruct (get_headers up); [|discriminate].
  destruct (answer_game up sent (GET_game game_id)) as [msg|data]; [discriminate|].
  destruct (get data) as [g|]; [|discriminate].
  destruct (api_game_empty g); [discriminate|].
  destruct (format_game_details g) as [d|] eqn:Hd; [|discriminate].
  intros H. injection H as <-. exact (format_game_details_has_id _ _ Hd).
Qed.

(** Every game that enters the cache was built by [format_upcoming_game] or
    [format_game_details], so a cache whose games carry an "id" keeps that
    property under every request. *)
Lemma cached_games_keep_ids up ep g sent :
  Forall Spec.has_id (cached_games g) ->
  Forall Spec.has_id (cached_games (snd (fst (handle up ep g sent)))).
Proof.
  intros Hc.
  destruct (handle_globals up ep g sent) as (_ & _ & [E|[H|H]]).
  - rewrite E. exact Hc.
  - destruct H as (days & game & rest & _ & Hf & ->).
    exact (fetch_upcoming_games_has_id _ _ _ _ Hf).
  - destruct H as (game_id & game & _ & Hf & ->).
    apply Forall_app. split; [exact Hc|].
    constructor; [exact (fetch_game_by_id_has_id _ _ _ _ Hf)|constructor].
Qed.

Lemma run_keeps_ids calls g :
  Forall Spec.has_id (cached_games g) ->
  Forall Spec.has_id (cached_games (run calls g)).
Proof.
  revert g. induction calls as [|[up ep] rest IH]; intros g Hc; simpl; [exact Hc|].
  apply IH. unfold serve. apply cached_games_keep_ids, Hc.
Qed.

(** *** Upstream failure: no outbound exception leaves a handler *)

Lemma local_Ok {A} (a : A) : Spec.local_result (Ok a).
Proof. intros e H. discriminate. Qed.
Lemma local_Raise_Local {A} k msg : Spec.local_result (@Raise A (Error Local k msg)).
Proof. intros e H. injection H as <-. simpl. auto. Qed.
Lemma local_Raise_HTTP {A} c d : Spec.local_result (@Raise A (HTTPException c d)).
Proof. intros e H. injection H as <-. simpl. auto. Qed.
Lemma local_rbind {A B} (r : result A) (k : A -> result B) :
  Spec.local_result r -> (forall a, Spec.local_result (k a)) ->
  Spec.local_result (rbind r k).
Proof.
  intros Hr Hk. destruct r as [a|e]; simpl; [apply Hk|].
  intros e0 H. injection H as <-. exact (Hr e eq_refl).
Qed.

Ltac local_tac :=
  repeat first
    [ apply local_Ok | apply local_Raise_Local | apply local_Raise_HTTP
    | apply local_rbind; [|intros ?]
    | match goal with
      | |- Spec.local_result (match ?x with _ => _ end) => destruct x
      end ].

Lemma date_plus_local day d : Spec.local_result (date_plus day d).
Proof. unfold date_plus. local_tac. Qed.
Lemma dict_getitem_local k d : Spec.local_result (dict_getitem k d).
Proof. unfold dict_getitem. local_tac. Qed.
Lemma find_game_local game_id games : Spec.local_result (find_game game_id games).
Proof.
  induction games as [|g rest IH]; simpl; [local_tac|].
  apply local_rbind; [apply dict_getitem_local|intros id].
  destruct (eq_int id game_id); [local_tac|exact IH].
Qed.
Lemma stats_get_local stats team : Spec.local_result (stats_get stats team).
Proof. unfold stats_get. local_tac. Qed.
Lemma get_team_features_local mb home away :
  Spec.local_result (get_team_features mb home away).
Proof.
  unfold get_team_features. destruct mb as [b|]; [|local_tac].
  apply local_rbind; [local_tac|intros cols].
  apply local_rbind; [apply stats_get_local|intros hd].
  apply local_rbind; [apply stats_get_local|intros ad]. local_tac.
Qed.
Lemma model_of_local mb : Spec.local_result (model_of mb).
Proof. unfold model_of. local_tac. Qed.
Lemma predict_proba_local m features : Spec.local_result (predict_proba m features).
Proof. unfold predict_proba. local_tac. Qed.
Lemma logo_of_local team : Spec.local_result (logo_of team).
Proof. unfold logo_of. local_tac. Qed.
Lemma or_else_local x alt : Spec.local_result alt -> Spec.local_result (or_else x alt).
Proof. unfold or_else. intros H. destruct (truthy x); [local_tac|exact H]. Qed.
Lemma KeyPlayer_local a b c d r : Spec.local_result (KeyPlayer a b c d r).
Proof. unfold KeyPlayer. local_tac. Qed.
Lemma select_key_players_local limit roster kps seen :
  Spec.local_result (select_key_players limit roster kps seen).
Proof.
  revert kps seen. induction roster as [|p rest IH]; intros kps seen; simpl; [local_tac|].
  destruct (limit <=? length kps)%nat; [local_tac|].
  match goal with |- Spec.local_result (if ?b then _ else _) => destruct b end;
    [apply IH|].
  repeat (apply local_rbind;
          [first [apply dict_getitem_local|apply KeyPlayer_local]|intros ?]).
  apply IH.
Qed.

Create HintDb local_exn.
#[export] Hint Resolve local_Ok local_Raise_Local local_Raise_HTTP
  date_plus_local dict_getitem_local find_game_local
  get_team_features_local model_of_local predict_proba_local logo_of_local
  or_else_local select_key_players_local : local_exn.

Section ContainRules.
Context {A B : Type}.

Lemma io_contained_ret (a : A) : Spec.io_contained (io_ret a).
Proof. intros sent. apply local_Ok. Qed.
Lemma io_contained_try (m : IO A) (h : exn -> IO A) :
  (forall e, Spec.io_contained (h e)) -> Spec.io_contained (io_try m h).
Proof.
  intros Hh sent. unfold io_try.
  destruct (m sent) as [[a|e] s1]; simpl; [apply local_Ok|apply Hh].
Qed.

Lemma contained_ret (a : A) : Spec.contained (ret a).
Proof. intros g sent. apply local_Ok. Qed.
Lemma contained_raise_http c d : Spec.contained (@raise A (HTTPException c d)).
Proof. intros g sent. apply local_Raise_HTTP. Qed.
Lemma contained_pure (r : result A) : Spec.local_result r -> Spec.contained (pure r).
Proof. intros H g sent. exact H. Qed.
Lemma contained_read (proj : globals -> A) : Spec.contained (read proj).
Proof. intros g sent. apply local_Ok. Qed.
Lemma contained_await (m : IO A) : Spec.io_contained m -> Spec.contained (await m).
Proof.
  intros H g sent. specialize (H sent). unfold await.
  destruct (m sent) as [r s1]. exact H.
Qed.
Lemma contained_bind (m : M A) (k : A -> M B) :
  Spec.contained m -> (forall a, Spec.contained (k a)) -> Spec.contained (bind m k).
Proof.
  intros Hm Hk g sent. specialize (Hm g sent). unfold bind.
  destruct (m g sent) as [[[a|e] g1] s1]; simpl in *; [apply Hk|].
  intros e0 H. injection H as <-. exact (Hm e eq_refl).
Qed.
Lemma contained_try (m : M A) (h : exn -> M A) :
  (forall e, Spec.contained (h e)) -> Spec.contained (try_except m h).
Proof.
  intros Hh g sent. unfold try_except.
  destruct (m g sent) as [[[a|e] g1] s1]; simpl; [apply local_Ok|apply Hh].
Qed.
End ContainRules.

Lemma contained_assign games : Spec.contained (assign_cached_games games).
Proof. intros g sent. apply local_Ok. Qed.
Lemma contained_append game : Spec.contained (append_cached_games game).
Proof. intros g sent. apply local_Ok. Qed.

(** The two helpers that handlers await outside any [try]: each swallows
    every exception of its call. *)
Lemma fetch_game_by_id_contained up game_id :
  Spec.io_contained (fetch_game_by_id up game_id).
Proof.
  unfold fetch_game_by_id. apply io_contained_try. intros e. apply io_contained_ret.
Qed.

Lemma fetch_ticket_prices_contained up home away date :
  Spec.io_contained (fetch_ticket_prices up home away date).
Proof.
  unfold fetch_ticket_prices. destruct (String.eqb (SEATGEEK_CLIENT_ID up) "").
  - apply io_contained_ret.
  - apply io_contained_try. intros e. apply io_contained_ret.
Qed.

Ltac contain :=
  repeat first
    [ apply contained_ret | apply contained_raise_http | apply contained_read
    | apply contained_assign | apply contained_append
    | apply contained_pure; solve [auto with local_exn]
    | apply contained_try; intros ?
    | apply contained_bind; [|intros ?]
    | apply contained_await, fetch_game_by_id_contained
    | apply contained_await, fetch_ticket_prices_contained
    | match goal with
      | |- Spec.contained (match ?x with _ => _ end) => destruct x
      | |- Spec.contained (let '(_, _) := ?x in _) => destruct x
      end ].

Lemma handle_contained up ep : Spec.contained (handle up ep).
Proof.
  destruct ep; simpl.
  - unfold root; contain.
  - unfold get_games; contain.
  - unfold get_today_games; contain.
  - unfold get_past_games; contain.
  - unfold get_game; contain.
  - unfold get_game_full_details; contain.
  - unfold predict_game, locate_game, predict_located; contain.
  - unfold predict_by_teams; contain.
  - unfold get_results; contain.
  - unfold list_teams; contain.
  - unfold get_team_logo; contain.
  - unfold get_team_roster; contain.
  - unfold get_team_upcoming_games; contain.
  - unfold list_players; contain.
  - unfold get_player; contain.
  - unfold get_box_score; contain.
  - unfold get_game_tickets; contain.
Qed.

(** *** Upstream failure: every call site is used at most once *)

Section PlanRules.
Context {A B : Type}.

Lemma io_follows_ret (a : A) : Spec.io_follows [] (io_ret a).
Proof. intros sent. exists []. rewrite app_nil_r. split; [reflexivity|constructor]. Qed.

Lemma io_follows_raise (e : exn) : Spec.io_follows [] (@io_raise A e).
Proof. intros sent. exists []. rewrite app_nil_r. split; [reflexivity|constructor]. Qed.

Lemma io_follows_lift (r : result A) : Spec.io_follows [] (lift r).
Proof. intros sent. exists []. rewrite app_nil_r. split; [reflexivity|constructor]. Qed.

Lemma io_follows_http_get (answer : list request -> request -> outcome A) r :
  Spec.io_follows [Spec.call_of r] (http_get answer r).
Proof. intros sent. exists [r]. split; reflexivity. Qed.

Lemma io_follows_bind p1 p2 (m : IO A) (k : A -> IO B) :
  Spec.io_follows p1 m -> (forall a, Spec.io_follows p2 (k a)) ->
  Spec.io_follows (p1 ++ p2) (io_bind m k).
Proof.
  intros Hm Hk sent. destruct (Hm sent) as (n1 & E1 & S1).
  unfold io_bind. destruct (m sent) as [[a|e] s1]; simpl in E1; subst s1.
  - destruct (Hk a (sent ++ n1)) as (n2 & E2 & S2).
    exists (n1 ++ n2). rewrite E2, app_assoc, map_app.
    split; [reflexivity|apply sublist_app; assumption].
  - exists n1. split; [reflexivity|]. apply sublist_inserts_r. exact S1.
Qed.

Lemma io_follows_try p1 p2 (m : IO A) (h : exn -> IO A) :
  Spec.io_follows p1 m -> (forall e, Spec.io_follows p2 (h e)) ->
  Spec.io_follows (p1 ++ p2) (io_try m h).
Proof.
  intros Hm Hh sent. destruct (Hm sent) as (n1 & E1 & S1).
  unfold io_try. destruct (m sent) as [[a|e] s1]; simpl in E1; subst s1.
  - exists n1. split; [reflexivity|]. apply sublist_inserts_r. exact S1.
  - destruct (Hh e (sent ++ n1)) as (n2 & E2 & S2).
    exists (n1 ++ n2). rewrite E2, app_assoc, map_app.
    split; [reflexivity|apply sublist_app; assumption].
Qed.

Lemma io_follows_weaken p p' (m : IO A) :
  sublist p p' -> Spec.io_follows p m -> Spec.io_follows p' m.
Proof.
  intros Hp Hm sent. destruct (Hm sent) as (n & E & S).
  exists n. split; [exact E|]. etransitivity; eassumption.
Qed.

Lemma io_follows_if p (b : bool) (m1 m2 : IO A) :
  Spec.io_follows p m1 -> Spec.io_follows p m2 ->
  Spec.io_follows p (if b then m1 else m2).
Proof. destruct b; auto. Qed.

Lemma follows_ret (a : A) : Spec.follows [] (ret a).
Proof. intros g sent. exists []. rewrite app_nil_r. split; [reflexivity|constructor]. Qed.

Lemma follows_raise (e : exn) : Spec.follows [] (@raise A e).
Proof. intros g sent. exists []. rewrite app_nil_r. split; [reflexivity|constructor]. Qed.

Lemma follows_pure (r : result A) : Spec.follows [] (pure r).
Proof. intros g sent. exists []. rewrite app_nil_r. split; [reflexivity|constructor]. Qed.

Lemma follows_read (proj : globals -> A) : Spec.follows [] (read proj).
Proof. intros g sent. exists []. rewrite app_nil_r. split; [reflexivity|constructor]. Qed.

Lemma follows_await p (m : IO A) : Spec.io_follows p m -> Spec.follows p (await m).
Proof.
  intros Hm g sent. destruct (Hm sent) as (n & E & S). exists n.
  unfold await. destruct (m sent) as [r s1]. simpl in *. auto.
Qed.

Lemma follows_bind p1 p2 (m : M A) (k : A -> M B) :
  Spec.follows p1 m -> (forall a, Spec.follows p2 (k a)) ->
  Spec.follows (p1 ++ p2) (bind m k).
Proof.
  intros Hm Hk g sent. destruct (Hm g sent) as (n1 & E1 & S1).
  unfold bind. destruct (m g sent) as [[[a|e] g1] s1]; simpl in E1; subst s1.
  - destruct (Hk a g1 (sent ++ n1)) as (n2 & E2 & S2).
    exists (n1 ++ n2). rewrite E2, app_assoc, map_app.
    split; [reflexivity|apply sublist_app; assumption].
  - exists n1. split; [reflexivity|]. apply sublist_inserts_r. exact S1.
Qed.

Lemma follows_try p1 p2 (m : M A) (h : exn -> M A) :
  Spec.follows p1 m -> (forall e, Spec.follows p2 (h e)) ->
  Spec.follows (p1 ++ p2) (try_except m h).
Proof.
  intros Hm Hh g sent. destruct (Hm g sent) as (n1 & E1 & S1).
  unfold try_except. destruct (m g sent) as [[[a|e] g1] s1]; simpl in E1; subst s1.
  - exists n1. split; [reflexivity|]. apply sublist_inserts_r. exact S1.
  - destruct (Hh e g1 (sent ++ n1)) as (n2 & E2 & S2).
    exists (n1 ++ n2). rewrite E2, app_assoc, map_app.
    split; [reflexivity|apply sublist_app; assumption].
Qed.

Lemma follows_weaken p p' (m : M A) :
  sublist p p' -> Spec.follows p m -> Spec.follows p' m.
Proof.
  intros Hp Hm g sent. destruct (Hm g sent) as (n & E & S).
  exists n. split; [exact E|]. etransitivity; eassumption.
Qed.

Lemma follows_nil_weaken p (m : M A) : Spec.follows [] m -> Spec.follows p m.
Proof. apply follows_weaken, sublist_nil_l. Qed.

End PlanRules.

(** Handlers of the shape [try: x = await helper; ... except: ...]. *)
Lemma follows_guarded {A B} p (io : IO A) (k : A -> M B) (h : exn -> M B) :
  Spec.io_follows p io -> (forall a, Spec.follows [] (k a)) ->
  (forall e, Spec.follows [] (h e)) ->
  Spec.follows p (try_except (bind (await io) k) h).
Proof.
  intros Hio Hk Hh.
  replace p with ((p ++ []) ++ []) by (rewrite !app_nil_r; reflexivity).
  apply follows_try; [|exact Hh]. apply follows_bind; [|exact Hk].
  apply follows_await, Hio.
Qed.

Lemma follows_assign games : Spec.follows [] (assign_cached_games games).
Proof. intros g sent. exists []. rewrite app_nil_r. split; [reflexivity|constructor]. Qed.
Lemma follows_append game : Spec.follows [] (append_cached_games game).
Proof. intros g sent. exists []. rewrite app_nil_r. split; [reflexivity|constructor]. Qed.

(** Code that sends nothing. *)
Ltac quiet :=
  repeat first
    [ apply io_follows_ret | apply io_follows_raise | apply io_follows_lift
    | apply follows_ret | apply follows_raise | apply follows_pure | apply follows_read
    | apply follows_assign | apply follows_append
    | apply (io_follows_bind [] []); [|intros ?]
    | apply (io_follows_try [] []); [|intros ?]
    | apply (follows_bind [] []); [|intros ?]
    | apply (follows_try [] []); [|intros ?]
    | match goal with
      | |- Spec.io_follows [] (match ?x with _ => _ end) => destruct x
      | |- Spec.follows [] (match ?x with _ => _ end) => destruct x
      | |- Spec.follows [] (let '(_, _) := ?x in _) => destruct x
      end ].

Lemma fetch_games_plan up s e teams n :
  Spec.io_follows [Spec.CGames] (fetch_games up s e teams n).
Proof.
  unfold fetch_games. apply (io_follows_bind [] [Spec.CGames]); [quiet|intros _].
  apply (io_follows_http_get (answer_games up)).
Qed.

Lemma fetch_upcoming_games_plan up days :
  Spec.io_follows [Spec.CGames] (fetch_upcoming_games up days).
Proof.
  unfold fetch_upcoming_games.
  apply (io_follows_bind [] [Spec.CGames]); [quiet|intros end_date].
  apply (io_follows_try [Spec.CGames] []); [|intros; quiet].
  apply (io_follows_bind [Spec.CGames] []); [apply fetch_games_plan|intros; quiet].
Qed.

Lemma fetch_past_games_plan up days :
  Spec.io_follows [Spec.CGames] (fetch_past_games up days).
Proof.
  unfold fetch_past_games.
  apply (io_follows_bind [] [Spec.CGames]); [quiet|intros start_date].
  apply (io_follows_bind [] [Spec.CGames]); [quiet|intros end_date].
  apply (io_follows_try [Spec.CGames] []); [|intros; quiet].
  apply (io_follows_bind [Spec.CGames] []); [apply fetch_games_plan|intros; quiet].
Qed.

Lemma fetch_game_by_id_plan up game_id :
  Spec.io_follows [Spec.CGame] (fetch_game_by_id up game_id).
Proof.
  unfold fetch_game_by_id.
  apply (io_follows_try [Spec.CGame] []); [|intros; quiet].
  apply (io_follows_bind [] [Spec.CGame]); [quiet|intros _].
  apply (io_follows_bind [Spec.CGame] []);
    [apply (io_follows_http_get (answer_game up))|intros; quiet].
Qed.

Lemma fetch_team_roster_plan up team_id :
  Spec.io_follows [Spec.CPlayers] (fetch_team_roster up team_id).
Proof.
  unfold fetch_team_roster.
  apply (io_follows_try [Spec.CPlayers] []); [|intros; quiet].
  apply (io_follows_bind [] [Spec.CPlayers]); [quiet|intros _].
  apply (io_follows_bind [Spec.CPlayers] []);
    [apply (io_follows_http_get (answer_players up))|intros; quiet].
Qed.

Lemma fetch_team_upcoming_games_plan up team_id limit :
  Spec.io_follows [Spec.CGames] (fetch_team_upcoming_games up team_id limit).
Proof.
  unfold fetch_team_upcoming_games.
  apply (io_follows_bind [] [Spec.CGames]); [quiet|intros end_date].
  apply (io_follows_try [Spec.CGames] []); [|intros; quiet].
  apply (io_follows_bind [] [Spec.CGames]); [quiet|intros _].
  apply (io_follows_bind [Spec.CGames] []);
    [apply (io_follows_http_get (answer_games up))|intros; quiet].
Qed.

Lemma io_follows_ret_any {A} p (a : A) : Spec.io_follows p (io_ret a).
Proof. eapply io_follows_weaken; [apply sublist_nil_l|apply io_follows_ret]. Qed.

Lemma fetch_game_details_full_plan up game_id :
  Spec.io_follows [Spec.CGame; Spec.CPlayers; Spec.CPlayers; Spec.CGames; Spec.CGames]
    (fetch_game_details_full up game_id).
Proof.
  unfold fetch_game_details_full.
  apply (io_follows_bind [Spec.CGame]
           [Spec.CPlayers; Spec.CPlayers; Spec.CGames; Spec.CGames]);
    [apply fetch_game_by_id_plan|intros [game|]]; [|apply io_follows_ret_any].
  destruct (negb (nonempty game)); [apply io_follows_ret_any|].
  apply (io_follows_bind [Spec.CPlayers] [Spec.CPlayers; Spec.CGames; Spec.CGames]).
  { apply io_follows_if; [apply fetch_team_roster_plan|apply io_follows_ret_any]. }
  intros home_roster.
  apply (io_follows_bind [Spec.CPlayers] [Spec.CGames; Spec.CGames]).
  { apply io_follows_if; [apply fetch_team_roster_plan|apply io_follows_ret_any]. }
  intros away_roster.
  apply (io_follows_bind [Spec.CGames] [Spec.CGames]).
  { apply io_follows_if; [apply fetch_team_upcoming_games_plan|apply io_follows_ret_any]. }
  intros home_upcoming.
  apply (io_follows_bind [Spec.CGames] []).
  { apply io_follows_if; [apply fetch_team_upcoming_games_plan|apply io_follows_ret_any]. }
  intros away_upcoming. quiet.
Qed.

Lemma fetch_teams_plan up : Spec.io_follows [Spec.CTeams] (fetch_teams up).
Proof.
  unfold fetch_teams.
  apply (io_follows_bind [] [Spec.CTeams]); [quiet|intros _].
  apply (io_follows_bind [Spec.CTeams] []);
    [apply (io_follows_http_get (answer_teams up))|intros; quiet].
Qed.

Lemma fetch_players_plan up search team_ids per_page :
  Spec.io_follows [Spec.CPlayers] (fetch_players up search team_ids per_page).
Proof.
  unfold fetch_players.
  apply (io_follows_bind [] [Spec.CPlayers]); [quiet|intros _].
  apply (io_follows_bind [Spec.CPlayers] []);
    [apply (io_follows_http_get (answer_players up))|intros; quiet].
Qed.

Lemma fetch_box_score_plan up game_id :
  Spec.io_follows [Spec.CBoxScores] (fetch_box_score up game_id).
Proof.
  unfold fetch_box_score.
  apply (io_follows_bind [] [Spec.CBoxScores]); [quiet|intros _].
  apply (io_follows_bind [Spec.CBoxScores] []);
    [apply (io_follows_http_get (answer_box_scores up))|intros data].
  destruct (get data) as [[|? ?]|]; quiet.
Qed.

Lemma fetch_player_season_averages_plan up player_id season :
  Spec.io_follows [Spec.CSeasonAverages]
    (fetch_player_season_averages up player_id season).
Proof.
  unfold fetch_player_season_averages.
  apply (io_follows_bind [] [Spec.CSeasonAverages]); [quiet|intros _].
  apply (io_follows_bind [Spec.CSeasonAverages] []);
    [apply (io_follows_http_get (answer_season_averages up))|intros data].
  destruct (get data) as [[|? ?]|]; quiet.
Qed.

Lemma fetch_ticket_prices_plan up home away date :
  Spec.io_follows [Spec.CSeatGeek] (fetch_ticket_prices up home away date).
Proof.
  unfold fetch_ticket_prices.
  destruct (String.eqb (SEATGEEK_CLIENT_ID up) ""); [apply io_follows_ret_any|].
  apply (io_follows_try [Spec.CSeatGeek] []); [|intros; quiet].
  apply (io_follows_bind [] [Spec.CSeatGeek]); [quiet|intros d].
  apply (io_follows_bind [Spec.CSeatGeek] []);
    [apply (io_follows_http_get (answer_seatgeek up))|intros data].
  destruct (get_default data (Some [])) as [[|? ?]|]; quiet.
Qed.

Lemma get_key_players_for_team_plan up team_id :
  Spec.follows [Spec.CPlayers] (get_key_players_for_team up team_id).
Proof.
  unfold get_key_players_for_team.
  apply (follows_try [Spec.CPlayers] []); [|intros; quiet].
  apply (follows_bind [Spec.CPlayers] []);
    [apply follows_await, fetch_team_roster_plan|intros roster].
  destruct (negb (nonempty roster)); quiet.
Qed.

Lemma locate_game_plan up game_id : Spec.follows [Spec.CGame] (locate_game up game_id).
Proof.
  unfold locate_game.
  apply (follows_bind [] [Spec.CGame]); [quiet|intros cached].
  apply (follows_bind [] [Spec.CGame]); [quiet|intros game0].
  apply (follows_bind [] [Spec.CGame]); [quiet|intros [game|]];
    [apply follows_nil_weaken; quiet|].
  apply follows_guarded; [apply fetch_game_by_id_plan| |]; intros; quiet.
Qed.

Lemma predict_located_plan up game_id mb game :
  Spec.follows [Spec.CPlayers] (predict_located up game_id mb game).
Proof.
  unfold predict_located.
  apply (follows_bind [] [Spec.CPlayers]); [quiet|intros home_team].
  apply (follows_bind [] [Spec.CPlayers]); [quiet|intros away_team].
  apply (follows_bind [] [Spec.CPlayers]); [quiet|intros [features|]];
    [|apply follows_nil_weaken; quiet].
  apply (follows_bind [] [Spec.CPlayers]); [quiet|intros model].
  apply (follows_bind [] [Spec.CPlayers]); [quiet|intros prob].
  destruct (predict_game_verdict home_team away_team (snd prob) (fst prob)) as [w c].
  apply (follows_bind [] [Spec.CPlayers]); [quiet|intros home_logo].
  apply (follows_bind [] [Spec.CPlayers]); [quiet|intros away_logo].
  apply (follows_bind [Spec.CPlayers] []); [|intros; quiet].
  apply (follows_try [Spec.CPlayers] []); [|intros; quiet].
  match goal with |- Spec.follows _ (if ?b then _ else _) => destruct b end;
    [apply get_key_players_for_team_plan|apply follows_nil_weaken; quiet].
Qed.

Lemma handle_follows_plan up ep : Spec.follows (Spec.call_plan ep) (handle up ep).
Proof.
  destruct ep; simpl.
  - unfold root. quiet.
  - unfold get_games.
    apply (follows_bind [Spec.CGames] []); [|intros [resp|]; quiet].
    apply follows_guarded; [apply fetch_upcoming_games_plan| |]; intros; quiet.
  - unfold get_today_games.
    apply follows_guarded; [apply fetch_upcoming_games_plan| |]; intros; quiet.
  - unfold get_past_games.
    apply follows_guarded; [apply fetch_past_games_plan| |]; intros; quiet.
  - unfold get_game.
    apply (follows_bind [Spec.CGame] []); [|intros [resp|]; quiet].
    apply follows_guarded; [apply fetch_game_by_id_plan| |]; intros; quiet.
  - unfold get_game_full_details.
    apply (follows_bind
             [Spec.CGame; Spec.CPlayers; Spec.CPlayers; Spec.CGames; Spec.CGames] []);
      [|intros [resp|]; quiet].
    apply follows_guarded; [apply fetch_game_details_full_plan| |]; intros; quiet.
  - unfold predict_game.
    apply (follows_bind [] [Spec.CGame; Spec.CPlayers]); [quiet|intros mb].
    apply (follows_bind [] [Spec.CGame; Spec.CPlayers]); [quiet|intros _].
    apply (follows_bind [Spec.CGame] [Spec.CPlayers]);
      [apply locate_game_plan|intros game0].
    destruct (found game0) as [game|]; [|apply follows_nil_weaken; quiet].
    apply predict_located_plan.
  - unfold predict_by_teams.
    apply (follows_bind [] [Spec.CPlayers]); [quiet|intros mb].
    apply (follows_bind [] [Spec.CPlayers]); [quiet|intros _].
    apply (follows_bind [] [Spec.CPlayers]); [quiet|intros [features|]];
      [|apply follows_nil_weaken; quiet].
    apply (follows_bind [] [Spec.CPlayers]); [quiet|intros model].
    apply (follows_bind [] [Spec.CPlayers]); [quiet|intros prob].
    destruct (predict_by_teams_verdict (upper home_team) (upper away_team)
                (snd prob) (fst prob)) as [w c].
    apply (follows_bind [Spec.CPlayers] []); [|intros; quiet].
    apply (follows_try [Spec.CPlayers] []); [|intros; quiet].
    destruct (get_balldontlie_team_id w) as [tid|]; [|apply follows_nil_weaken; quiet].
    destruct (tid =? 0); [apply follows_nil_weaken; quiet|].
    apply get_key_players_for_team_plan.
  - unfold get_results. quiet.
  - unfold list_teams.
    apply (follows_bind [Spec.CTeams] []); [|intros [resp|]; quiet].
    apply follows_guarded; [apply fetch_teams_plan| |]; intros; quiet.
  - unfold get_team_logo.
    match goal with |- Spec.follows _ (if ?b then _ else _) => destruct b end; quiet.
  - unfold get_team_roster.
    apply follows_guarded; [apply fetch_team_roster_plan| |]; intros; quiet.
  - unfold get_team_upcoming_games.
    apply follows_guarded; [apply fetch_team_upcoming_games_plan| |]; intros; quiet.
  - unfold list_players.
    apply follows_guarded; [apply fetch_players_plan| |]; intros; quiet.
  - unfold get_player.
    apply follows_guarded; [apply fetch_player_season_averages_plan| |]; intros; quiet.
  - unfold get_box_score.
    apply follows_guarded; [apply fetch_box_score_plan| |]; intros; quiet.
  - unfold get_game_tickets.
    apply (follows_bind [Spec.CGame] [Spec.CSeatGeek]);
      [apply follows_await, fetch_game_by_id_plan|intros game0].
    destruct (found game0) as [game|]; [|apply follows_nil_weaken; quiet].
    apply (follows_bind [] [Spec.CSeatGeek]); [quiet|intros home_name].
    apply (follows_bind [] [Spec.CSeatGeek]); [quiet|intros away_name].
    apply (follows_bind [] [Spec.CSeatGeek]); [quiet|intros game_date].
    apply (follows_bind [Spec.CSeatGeek] []);
      [apply follows_await, fetch_ticket_prices_plan|intros; quiet].
Qed.

(** *** Upstream failure: what each helper and handler answers *)

Lemma io_try_failed {A B} (m : IO A) (k : A -> IO B) (d : B) sent :
  (exists e, fst (m sent) = Raise e) ->
  fst (io_try (io_bind m k) (fun _ => io_ret d) sent) = Ok d.
Proof.
  intros [e He]. unfold io_try, io_bind, io_ret.
  destruct (m sent) as [[a|e0] s1]; simpl in *; [discriminate|reflexivity].
Qed.

Lemma guarded_Ok {A B} (io : IO A) (k : A -> B) (h : exn -> M B) a g sent :
  fst (io sent) = Ok a ->
  fst (fst (try_except (bind (await io) (fun x => ret (k x))) h g sent)) = Ok (k a).
Proof.
  intros H. unfold try_except, bind, await, ret.
  destruct (io sent) as [[a0|e] s1]; simpl in *; [|discriminate].
  injection H as ->. reflexivity.
Qed.

Lemma guarded_Raise {A B} (io : IO A) (k : A -> M B) (prefix : string) g sent :
  (exists e, fst (io sent) = Raise e) ->
  exists detail,
    fst (fst (try_except (bind (await io) k)
                (fun e => raise (HTTPException 500 (prefix +:+ exn_text e))) g sent))
    = Raise (HTTPException 500 detail).
Proof.
  intros [e H]. unfold try_except, bind, await, raise.
  destruct (io sent) as [[a0|e0] s1]; simpl in *; [discriminate|eauto].
Qed.

Lemma io_try_default {A} (m : IO A) (d : A) sent :
  (exists e, fst (m sent) = Raise e) ->
  fst (io_try m (fun _ => io_ret d) sent) = Ok d.
Proof.
  intros [e He]. unfold io_try, io_ret.
  destruct (m sent) as [[a|e0] s1]; simpl in *; [discriminate|reflexivity].
Qed.

(** A helper body of the shape [headers = get_headers(); response = await
    client.get(...); ...] raises when the call fails, before or at the call. *)
Lemma get_failed {A B} (hdr : result string)
    (answer : list request -> request -> outcome A) (r : request) (k : A -> IO B) sent :
  (forall s, exists msg, answer s r = Failed msg) ->
  exists e, fst (io_bind (lift hdr) (fun _ => io_bind (http_get answer r) k) sent)
            = Raise e.
Proof.
  intros Ha. unfold io_bind, lift, http_get.
  destruct hdr; simpl; [destruct (Ha sent) as [msg ->]|]; eauto.
Qed.

Section CutOff.
Variable up : env.

Lemma fetch_games_cut_off s e teams n sent :
  exists e0, fst (fetch_games (Spec.cut_off up) s e teams n sent) = Raise e0.
Proof.
  unfold fetch_games, io_bind, lift, http_get.
  destruct (get_headers (Spec.cut_off up)); simpl; eauto.
Qed.

Lemma fetch_upcoming_games_cut_off days sent :
  fst (fetch_upcoming_games (Spec.cut_off up) days sent)
  = rbind (date_plus (now up) days) (fun _ => Ok []).
Proof.
  unfold fetch_upcoming_games. change (now (Spec.cut_off up)) with (now up).
  unfold io_bind at 1, lift at 1.
  destruct (date_plus (now up) days) as [end_date|e]; [|reflexivity].
  apply io_try_failed, fetch_games_cut_off.
Qed.

Lemma fetch_past_games_cut_off days sent :
  fst (fetch_past_games (Spec.cut_off up) days sent)
  = rbind (date_plus (now up) (- days))
      (fun _ => rbind (date_plus (now up) (- 1)) (fun _ => Ok [])).
Proof.
  unfold fetch_past_games. change (now (Spec.cut_off up)) with (now up).
  unfold io_bind at 1, lift at 1.
  destruct (date_plus (now up) (- days)) as [start_date|e]; [|reflexivity].
  unfold io_bind at 1, lift at 1.
  destruct (date_plus (now up) (- 1)) as [end_date|e]; [|reflexivity].
  apply io_try_failed, fetch_games_cut_off.
Qed.

Lemma fetch_game_by_id_cut_off game_id sent :
  fst (fetch_game_by_id (Spec.cut_off up) game_id sent) = Ok None.
Proof.
  unfold fetch_game_by_id. apply io_try_default, get_failed. intros s. eexists. reflexivity.
Qed.

Lemma fetch_team_roster_cut_off team_id sent :
  fst (fetch_team_roster (Spec.cut_off up) team_id sent) = Ok [].
Proof.
  unfold fetch_team_roster. apply io_try_default, get_failed. intros s. eexists. reflexivity.
Qed.

Lemma fetch_team_upcoming_games_cut_off team_id limit sent :
  fst (fetch_team_upcoming_games (Spec.cut_off up) team_id limit sent)
  = rbind (date_plus (now up) 30) (fun _ => Ok []).
Proof.
  unfold fetch_team_upcoming_games. change (now (Spec.cut_off up)) with (now up).
  unfold io_bind at 1, lift at 1.
  destruct (date_plus (now up) 30) as [end_date|e]; [|reflexivity].
  apply io_try_default, get_failed. intros s. eexists. reflexivity.
Qed.

Lemma fetch_game_details_full_cut_off game_id sent :
  fst (fetch_game_details_full (Spec.cut_off up) game_id sent) = Ok None.
Proof.
  unfold fetch_game_details_full, io_bind at 1.
  pose proof (fetch_game_by_id_cut_off game_id sent) as H.
  destruct (fetch_game_by_id (Spec.cut_off up) game_id sent) as [r s1].
  simpl in H. subst r. reflexivity.
Qed.

Lemma fetch_teams_cut_off sent :
  exists e, fst (fetch_teams (Spec.cut_off up) sent) = Raise e.
Proof. unfold fetch_teams. apply get_failed. intros s. eexists. reflexivity. Qed.

Lemma fetch_players_cut_off search team_ids per_page sent :
  exists e, fst (fetch_players (Spec.cut_off up) search team_ids per_page sent) = Raise e.
Proof. unfold fetch_players. apply get_failed. intros s. eexists. reflexivity. Qed.

Lemma fetch_box_score_cut_off game_id sent :
  exists e, fst (fetch_box_score (Spec.cut_off up) game_id sent) = Raise e.
Proof. unfold fetch_box_score. apply get_failed. intros s. eexists. reflexivity. Qed.

Lemma fetch_player_season_averages_cut_off player_id season sent :
  exists e, fst (fetch_player_season_averages (Spec.cut_off up) player_id season sent)
            = Raise e.
Proof.
  unfold fetch_player_season_averages. apply get_failed. intros s. eexists. reflexivity.
Qed.
End CutOff.

Lemma get_key_players_for_team_cut_off up team_id g sent :
  fst (fst (get_key_players_for_team (Spec.cut_off up) team_id g sent)) = Ok [].
Proof.
  unfold get_key_players_for_team, try_except, bind, await, ret.
  pose proof (fetch_team_roster_cut_off up team_id sent) as H.
  destruct (fetch_team_roster (Spec.cut_off up) team_id sent) as [r s1].
  simpl in H. subst r. reflexivity.
Qed.

Lemma bind_pure {A B} (r : result A) (k : A -> M B) g sent :
  bind (pure r) k g sent
  = match r with Ok a => k a g sent | Raise e => (Raise e, g, sent) end.
Proof. unfold bind, pure. destruct r; reflexivity. Qed.

Lemma bind_read {A B} (proj : globals -> A) (k : A -> M B) g sent :
  bind (read proj) k g sent = k (proj g) g sent.
Proof. reflexivity. Qed.

Lemma bind_ret_fst {A B} (m : M A) (f : A -> B) a g sent :
  fst (fst (m g sent)) = Ok a ->
  fst (fst (bind m (fun x => ret (f x)) g sent)) = Ok (f a).
Proof.
  intros H. unfold bind, ret. destruct (m g sent) as [[[a0|e] g1] s1]; simpl in *.
  - injection H as ->. reflexivity.
  - discriminate.
Qed.

Lemma try_Ok_fst {A} (m : M A) (h : exn -> M A) a g sent :
  fst (fst (m g sent)) = Ok a -> fst (fst (try_except m h g sent)) = Ok a.
Proof.
  intros H. unfold try_except. destruct (m g sent) as [[[a0|e] g1] s1]; simpl in *.
  - exact H.
  - discriminate.
Qed.

(** One pure step of a handler that went on to return a value. *)
Ltac pure_step H :=
  rewrite bind_pure in H;
  match type of H with
  | context [match ?r with Ok _ => _ | Raise _ => _ end] =>
      destruct r; [|discriminate H]
  end.

Lemma predict_located_cut_off up game_id mb game g sent p :
  fst (fst (predict_located (Spec.cut_off up) game_id mb game g sent)) = Ok (Prediction p) ->
  pr_key_players p = None.
Proof.
  unfold predict_located. intros H.
  pure_step H. pure_step H. pure_step H.
  match type of H with
  | context [match ?o with Some _ => _ | None => _ end] => destruct o; [|discriminate H]
  end.
  pure_step H. pure_step H.
  match type of H with
  | context [let '(_, _) := ?v in _] => destruct v as [w c]
  end.
  pure_step H. pure_step H.
  erewrite (bind_ret_fst _ _ []) in H.
  - injection H as <-. reflexivity.
  - apply try_Ok_fst.
    match goal with |- context [if ?b then _ else _] => destruct b end;
      [apply get_key_players_for_team_cut_off|reflexivity].
Qed.

Lemma predict_game_cut_off up game_id g sent p :
  fst (fst (predict_game (Spec.cut_off up) game_id g sent)) = Ok (Prediction p) ->
  pr_key_players p = None.
Proof.
  unfold predict_game. rewrite bind_read. intros H.
  unfold bind at 1 in H.
  destruct (model_bundle g) as [b|]; [|discriminate H].
  unfold ret at 1 in H. unfold bind at 1 in H.
  destruct (locate_game (Spec.cut_off up) game_id g sent) as [[[o|e] g1] s1];
    [|discriminate H].
  destruct (found o) as [game|]; [|discriminate H].
  exact (predict_located_cut_off _ _ _ _ _ _ _ H).
Qed.

Lemma predict_by_teams_cut_off up home away g sent p :
  fst (fst (predict_by_teams (Spec.cut_off up) home away g sent)) = Ok (Prediction p) ->
  pr_key_players p = None.
Proof.
  unfold predict_by_teams. rewrite bind_read. intros H.
  unfold bind at 1 in H.
  destruct (model_bundle g) as [b|]; [|discriminate H].
  unfold ret at 1 in H.
  pure_step H.
  match type of H with
  | context [match ?o with Some _ => _ | None => _ end] => destruct o; [|discriminate H]
  end.
  pure_step H. pure_step H.
  match type of H with
  | context [let '(_, _) := ?v in _] => destruct v as [w c]
  end.
  erewrite (bind_ret_fst _ _ []) in H.
  - injection H as <-. reflexivity.
  - apply try_Ok_fst.
    destruct (get_balldontlie_team_id w) as [tid|]; [|reflexivity].
    destruct (tid =? 0); [reflexivity|apply get_key_players_for_team_cut_off].
Qed.

(** Handlers of the shape [try: x = await helper; if x: return ... except:
    pass] followed by a fallback: when the helper fails or yields nothing
    usable, the answer is the fallback's. *)
Lemma fallback_fst {A B C} (io : IO A) (k : A -> M (option B))
    (rest : option B -> M C) g sent :
  match fst (io sent) with
  | Ok a => forall g s, k a g s = (Ok None, g, s)
  | Raise _ => True
  end ->
  fst (fst (bind (try_except (bind (await io) k) (fun _ => ret None)) rest g sent))
  = fst (fst (rest None g (snd (io sent)))).
Proof.
  intros H. unfold bind, try_except, await, ret.
  destruct (io sent) as [[a|e] s1]; simpl in *; [rewrite H|]; reflexivity.
Qed.

Lemma handle_outage up ep g sent :
  Spec.outage_answer up ep g (fst (fst (handle (Spec.cut_off up) ep g sent))).
Proof.
  destruct ep; simpl; trivial.
  - (* GET /games *)
    unfold get_games. rewrite fallback_fst.
    + rewrite bind_read. destruct (nonempty (cached_games g)); reflexivity.
    + rewrite fetch_upcoming_games_cut_off.
      destruct (date_plus (now up) days); simpl; [reflexivity|exact I].
  - (* GET /games/today *)
    unfold get_today_games, fetch_today_games.
    apply (guarded_Ok _ (fun games => Json (PDict [("count", len games);
                                                   ("games", list_of_dicts games)])) _ []).
    rewrite fetch_upcoming_games_cut_off, date_plus_now_0. reflexivity.
  - (* GET /games/past *)
    unfold get_past_games.
    destruct (date_plus (now up) (- days)) eqn:E1; simpl;
      [destruct (date_plus (now up) (- 1)) eqn:E2|].
    + apply (guarded_Ok _ (fun games => Json (PDict [("count", len games);
                                                     ("days_back", PInt days);
                                                     ("games", list_of_dicts games)])) _ []).
      rewrite fetch_past_games_cut_off, E1. simpl. rewrite E2. reflexivity.
    + apply guarded_Raise. rewrite fetch_past_games_cut_off, E1. simpl. rewrite E2. eauto.
    + apply guarded_Raise. rewrite fetch_past_games_cut_off, E1. simpl. eauto.
  - (* GET /games/{id} *)
    unfold get_game, Spec.lookup_game. rewrite fallback_fst.
    + rewrite bind_read, bind_pure.
      destruct (find_game game_id (cached_games g)) as [c|e]; simpl; [|reflexivity].
      destruct (found c); [reflexivity|].
      rewrite bind_read, bind_pure.
      destruct (find_game game_id (fallback_games g)) as [s|e]; simpl; [|reflexivity].
      destruct (found s); reflexivity.
    + rewrite fetch_game_by_id_cut_off. reflexivity.
  - (* GET /games/{id}/details *)
    unfold get_game_full_details. rewrite fallback_fst; [reflexivity|].
    rewrite fetch_game_details_full_cut_off. reflexivity.
  - (* POST /predict/{id} *)
    intros p. apply predict_game_cut_off.
  - (* GET /predict/teams/{home}/{away} *)
    intros p. apply predict_by_teams_cut_off.
  - (* GET /teams *)
    unfold list_teams. rewrite fallback_fst.
    + rewrite bind_read. destruct (model_bundle g) as [b|]; [|reflexivity].
      eexists. reflexivity.
    + destruct (fetch_teams_cut_off up sent) as [e ->]. exact I.
  - (* GET /teams/{id}/roster *)
    unfold get_team_roster.
    apply (guarded_Ok _ (fun roster => Json (PDict [("team_id", PInt team_id);
                                                    ("count", len roster);
                                                    ("players", list_of_dicts roster)])) _ []).
    apply fetch_team_roster_cut_off.
  - (* GET /teams/{id}/upcoming *)
    unfold get_team_upcoming_games.
    destruct (date_plus (now up) 30) eqn:E.
    + apply (guarded_Ok _ (fun games => Json (PDict [("team_id", PInt team_id);
                                                     ("count", len games);
                                                     ("games", list_of_dicts games)])) _ []).
      rewrite fetch_team_upcoming_games_cut_off, E. reflexivity.
    + apply guarded_Raise. rewrite fetch_team_upcoming_games_cut_off, E. simpl. eauto.
  - (* GET /players *)
    apply guarded_Raise, fetch_players_cut_off.
  - (* GET /players/{id} *)
    apply guarded_Raise, fetch_player_season_averages_cut_off.
  - (* GET /games/{id}/boxscore *)
    apply guarded_Raise, fetch_box_score_cut_off.
  - (* GET /games/{id}/tickets *)
    unfold get_game_tickets, bind at 1, await.
    pose proof (fetch_game_by_id_cut_off up game_id sent) as H.
    destruct (fetch_game_by_id (Spec.cut_off up) game_id sent) as [r s1].
    simpl in H. subst r. reflexivity.
Qed.

(** C5. Upstream failure never leaves a handler as an exception of the
    outbound call: whatever the upstream answers, a handler either returns a
    body or raises an HTTP error or an exception of its own code; it sends
    each request of its plan at most once, so a failed call is not tried
    again; and when every upstream call fails, each endpoint answers as
    [Spec.outage_answer] lists: GET /games from the cache or the static list,
    GET /games/today, GET /games/past, GET /teams/{id}/roster and
    GET /teams/{id}/upcoming with an empty list, GET /games/{id} from the
    data the process holds, the predictions without key players, GET /teams
    from the model, GET /players, GET /players/{id} and
    GET /games/{id}/boxscore with HTTP 500, and GET /games/{id}/details and
    GET /games/{id}/tickets with HTTP 404.  The handlers of GET /games/today,
    GET /games/past and GET /teams/{id}/roster have an [except] that raises
    HTTP 500 as the one of GET /players does, but their fetch helpers have
    caught the failure and returned the empty list before it, so an
    upstream failure does not reach it and the answer is a success with
    count 0. *)
Theorem upstream_failures_are_handled (up : env) (ep : endpoint) (g : globals)
    (sent : list request) :
  (forall e, fst (fst (handle up ep g sent)) = Raise e -> ~ Spec.outbound e)
  /\ (exists new, snd (handle up ep g sent) = sent ++ new
                  /\ sublist (map Spec.call_of new) (Spec.call_plan ep))
  /\ Spec.outage_answer up ep g (fst (fst (handle (Spec.cut_off up) ep g sent))).
Proof.
  split; [|split].
  - exact (handle_contained up ep g sent).
  - exact (handle_follows_plan up ep g sent).
  - apply handle_outage.
Qed.

(** With the upstream unreachable, GET /games/today, GET /games/past and
    GET /teams/{id}/roster each send their one request, which fails, and
    answer with an empty list rather than with HTTP 500. *)
Lemma outage_answers_with_empty_lists :
  let today := handle Examples.offline GetTodayGames Examples.fresh [] in
  let past := handle Examples.offline (GetPastGames 7) Examples.fresh [] in
  let roster := handle Examples.offline (GetTeamRoster 14) Examples.fresh [] in
  (snd today = [GET_games 739264 739264 [] 100]
   /\ answer_games Examples.offline [] (GET_games 739264 739264 [] 100)
      = Failed "connect timeout"
   /\ fst (fst today) = Ok (Json (PDict [ ("count", PInt 0); ("games", PList []) ]))
   /\ ~ Spec.http_error 500 (fst (fst today)))
  /\ (snd past = [GET_games 739257 739263 [] 100]
      /\ answer_games Examples.offline [] (GET_games 739257 739263 [] 100)
         = Failed "connect timeout"
      /\ fst (fst past) = Ok (Json (PDict [ ("count", PInt 0); ("days_back", PInt 7);
                                            ("games", PList []) ]))
      /\ ~ Spec.http_error 500 (fst (fst past)))
  /\ (snd roster = [GET_players None [PInt 14] 50]
      /\ answer_players Examples.offline [] (GET_players None [PInt 14] 50)
         = Failed "connect timeout"
      /\ fst (fst roster) = Ok (Json (PDict [ ("team_id", PInt 14); ("count", PInt 0);
                                              ("players", PList []) ]))
      /\ ~ Spec.http_error 500 (fst (fst roster))).
Proof.
  repeat split; try (vm_compute; reflexivity);
    intros [detail H]; vm_compute in H; discriminate H.
Qed.

(* ===================================================================== *)
(** ** Further properties of the code *)
(* ===================================================================== *)

Import Shapes.

(** *** Without an API key *)

Section NoKey.
Variable up : env.
Hypothesis no_key : BALL_API_KEY up = "".

Lemma get_headers_no_key :
  get_headers up
  = Raise (Error Outbound ValueError "BALL_API_KEY environment variable not set").
Proof. unfold get_headers. rewrite no_key. reflexivity. Qed.

(** A helper body that starts with [get_headers()] stops there. *)
Lemma headers_first_silent {A} (k : string -> IO A) :
  Spec.io_follows [] (io_bind (lift (get_headers up)) k).
Proof.
  intros sent. exists []. rewrite app_nil_r.
  unfold io_bind, lift. rewrite get_headers_no_key. split; [reflexivity|constructor].
Qed.

Lemma fetch_games_silent s e teams n : Spec.io_follows [] (fetch_games up s e teams n).
Proof. unfold fetch_games. apply headers_first_silent. Qed.

Lemma fetch_upcoming_games_silent days : Spec.io_follows [] (fetch_upcoming_games up days).
Proof.
  unfold fetch_upcoming_games.
  apply (io_follows_bind [] []); [quiet|intros end_date].
  apply (io_follows_try [] []); [|intros; quiet].
  apply (io_follows_bind [] []); [apply fetch_games_silent|intros; quiet].
Qed.

Lemma fetch_past_games_silent days : Spec.io_follows [] (fetch_past_games up days).
Proof.
  unfold fetch_past_games.
  apply (io_follows_bind [] []); [quiet|intros start_date].
  apply (io_follows_bind [] []); [quiet|intros end_date].
  apply (io_follows_try [] []); [|intros; quiet].
  apply (io_follows_bind [] []); [apply fetch_games_silent|intros; quiet].
Qed.

Lemma fetch_game_by_id_silent game_id : Spec.io_follows [] (fetch_game_by_id up game_id).
Proof.
  unfold fetch_game_by_id.
  apply (io_follows_try [] []); [apply headers_first_silent|intros; quiet].
Qed.

Lemma fetch_team_roster_silent team_id : Spec.io_follows [] (fetch_team_roster up team_id).
Proof.
  unfold fetch_team_roster.
  apply (io_follows_try [] []); [apply headers_first_silent|intros; quiet].
Qed.

Lemma fetch_team_upcoming_games_silent team_id limit :
  Spec.io_follows [] (fetch_team_upcoming_games up team_id limit).
Proof.
  unfold fetch_team_upcoming_games.
  apply (io_follows_bind [] []); [quiet|intros end_date].
  apply (io_follows_try [] []); [apply headers_first_silent|intros; quiet].
Qed.

Lemma fetch_game_details_full_silent game_id :
  Spec.io_follows [] (fetch_game_details_full up game_id).
Proof.
  unfold fetch_game_details_full.
  apply (io_follows_bind [] []); [apply fetch_game_by_id_silent|intros [game|]];
    [|quiet].
  destruct (negb (nonempty game)); [quiet|].
  apply (io_follows_bind [] []).
  { apply io_follows_if; [apply fetch_team_roster_silent|quiet]. }
  intros home_roster. apply (io_follows_bind [] []).
  { apply io_follows_if; [apply fetch_team_roster_silent|quiet]. }
  intros away_roster. apply (io_follows_bind [] []).
  { apply io_follows_if; [apply fetch_team_upcoming_games_silent|quiet]. }
  intros home_upcoming. apply (io_follows_bind [] []).
  { apply io_follows_if; [apply fetch_team_upcoming_games_silent|quiet]. }
  intros away_upcoming. quiet.
Qed.

Lemma get_key_players_for_team_silent team_id :
  Spec.follows [] (get_key_players_for_team up team_id).
Proof.
  unfold get_key_players_for_team.
  apply (follows_try [] []); [|intros; quiet].
  apply (follows_bind [] []); [apply follows_await, fetch_team_roster_silent|intros roster].
  destruct (negb (nonempty roster)); quiet.
Qed.

(** Without a key [fetch_game_by_id] finds nothing. *)
Lemma fetch_game_by_id_no_key game_id sent :
  fetch_game_by_id up game_id sent = (Ok None, sent).
Proof.
  unfold fetch_game_by_id, io_try, io_bind, lift. rewrite get_headers_no_key. reflexivity.
Qed.

Lemma handle_silent ep : Spec.follows [] (handle up ep).
Proof.
  destruct ep; simpl.
  - unfold root. quiet.
  - unfold get_games.
    apply (follows_bind [] []); [|intros [resp|]; quiet].
    apply follows_guarded; [apply fetch_upcoming_games_silent| |]; intros; quiet.
  - unfold get_today_games.
    apply follows_guarded; [apply fetch_upcoming_games_silent| |]; intros; quiet.
  - unfold get_past_games.
    apply follows_guarded; [apply fetch_past_games_silent| |]; intros; quiet.
  - unfold get_game.
    apply (follows_bind [] []); [|intros [resp|]; quiet].
    apply follows_guarded; [apply fetch_game_by_id_silent| |]; intros; quiet.
  - unfold get_game_full_details.
    apply (follows_bind [] []); [|intros [resp|]; quiet].
    apply follows_guarded; [apply fetch_game_details_full_silent| |]; intros; quiet.
  - unfold predict_game.
    apply (follows_bind [] []); [quiet|intros mb].
    apply (follows_bind [] []); [quiet|intros _].
    apply (follows_bind [] []).
    + unfold locate_game.
      apply (follows_bind [] []); [quiet|intros cached].
      apply (follows_bind [] []); [quiet|intros game0].
      apply (follows_bind [] []); [quiet|intros [game|]]; [quiet|].
      apply follows_guarded; [apply fetch_game_by_id_silent| |]; intros; quiet.
    + intros game0. destruct (found game0) as [game|]; [|quiet].
      unfold predict_located.
      apply (follows_bind [] []); [quiet|intros home_team].
      apply (follows_bind [] []); [quiet|intros away_team].
      apply (follows_bind [] []); [quiet|intros [features|]]; [|quiet].
      apply (follows_bind [] []); [quiet|intros model].
      apply (follows_bind [] []); [quiet|intros prob].
      destruct (predict_game_verdict home_team away_team (snd prob) (fst prob)) as [w c].
      apply (follows_bind [] []); [quiet|intros home_logo].
      apply (follows_bind [] []); [quiet|intros away_logo].
      apply (follows_bind [] []); [|intros; quiet].
      apply (follows_try [] []); [|intros; quiet].
      match goal with |- Spec.follows _ (if ?b then _ else _) => destruct b end;
        [apply get_key_players_for_team_silent|quiet].
  - unfold predict_by_teams.
    apply (follows_bind [] []); [quiet|intros mb].
    apply (follows_bind [] []); [quiet|intros _].
    apply (follows_bind [] []); [quiet|intros [features|]]; [|quiet].
    apply (follows_bind [] []); [quiet|intros model].
    apply (follows_bind [] []); [quiet|intros prob].
    destruct (predict_by_teams_verdict (upper home_team) (upper away_team)
                (snd prob) (fst prob)) as [w c].
    apply (follows_bind [] []); [|intros; quiet].
    apply (follows_try [] []); [|intros; quiet].
    destruct (get_balldontlie_team_id w) as [tid|]; [|quiet].
    destruct (tid =? 0); [quiet|].
    apply get_key_players_for_team_silent.
  - unfold get_results. quiet.
  - unfold list_teams.
    apply (follows_bind [] []); [|intros [resp|]; quiet].
    apply follows_guarded; [unfold fetch_teams; apply headers_first_silent| |];
      intros; quiet.
  - unfold get_team_logo.
    match goal with |- Spec.follows _ (if ?b then _ else _) => destruct b end; quiet.
  - unfold get_team_roster.
    apply follows_guarded; [apply fetch_team_roster_silent| |]; intros; quiet.
  - unfold get_team_upcoming_games.
    apply follows_guarded; [apply fetch_team_upcoming_games_silent| |]; intros; quiet.
  - unfold list_players.
    apply follows_guarded; [unfold fetch_players; apply headers_first_silent| |];
      intros; quiet.
  - unfold get_player.
    apply follows_guarded;
      [unfold fetch_player_season_averages; apply headers_first_silent| |];
      intros; quiet.
  - unfold get_box_score.
    apply follows_guarded; [unfold fetch_box_score; apply headers_first_silent| |];
      intros; quiet.
  - unfold get_game_tickets. intros g sent. exists []. rewrite app_nil_r.
    unfold bind, await. rewrite fetch_game_by_id_no_key. simpl.
    split; [reflexivity|constructor].
Qed.

End NoKey.

(** X1.  With no [BALL_API_KEY] configured no endpoint sends any request, to
    BallDontLie or to SeatGeek: [get_headers] raises before each call is
    made, and the ticket lookup is only reached once a game was fetched. *)
Theorem no_api_key_no_request :
  forall (up : env) (ep : endpoint) (g : globals) (sent : list request),
    BALL_API_KEY up = "" ->
    snd (handle up ep g sent) = sent.
Proof.
  intros up ep g sent Hkey.
  destruct (handle_silent up Hkey ep g sent) as (new & E & S).
  apply sublist_nil_r in S. apply map_eq_nil in S. subst new.
  rewrite E. apply app_nil_r.
Qed.

Lemma no_api_key_no_request_witness :
  BALL_API_KEY Samples.keyless = ""
  /\ SEATGEEK_CLIENT_ID Samples.keyless = "client"
  /\ snd (handle Samples.keyless (GetGameTickets 300) Examples.fresh []) = []
  /\ snd (handle Samples.keyless (PredictGame 300) Examples.fresh []) = [].
Proof.
  split; [reflexivity|]. split; [reflexivity|]. split.
  - apply (no_api_key_no_request Samples.keyless (GetGameTickets 300)). reflexivity.
  - apply (no_api_key_no_request Samples.keyless (PredictGame 300)). reflexivity.
Defined.

(** *** Which requests can end in HTTP 500 *)

Lemma date_plus_in_range day d :
  Z.abs d <= MAX_DELTA_DAYS -> 1 <= day + d <= MAX_ORDINAL ->
  date_plus day d = Ok (day + d).
Proof.
  intros Hd Hr. unfold date_plus.
  destruct (Z.ltb_spec MAX_DELTA_DAYS (Z.abs d)); [lia|].
  destruct (Z.leb_spec 1 (day + d)); [|lia].
  destruct (Z.leb_spec (day + d) MAX_ORDINAL); [reflexivity|lia].
Qed.

Lemma date_plus_out_of_range day d :
  ~ (Z.abs d <= MAX_DELTA_DAYS /\ 1 <= day + d <= MAX_ORDINAL) ->
  exists msg, date_plus day d = Raise (Error Local OverflowError msg).
Proof.
  intros H. unfold date_plus.
  destruct (Z.ltb_spec MAX_DELTA_DAYS (Z.abs d)); [eauto|].
  destruct (Z.leb_spec 1 (day + d)); simpl; [|eauto].
  destruct (Z.leb_spec (day + d) MAX_ORDINAL); simpl; [lia|eauto].
Qed.

Lemma io_try_default_Ok {A} (m : IO A) (d : A) sent :
  exists a, fst (io_try m (fun _ => io_ret d) sent) = Ok a.
Proof.
  unfold io_try, io_ret. destruct (m sent) as [[a|e] s1]; simpl; eauto.
Qed.

Lemma guarded_body {A} (io : IO A) (k : A -> pyval) (h : exn -> M response) g sent :
  (exists a, fst (io sent) = Ok a) ->
  exists a sent',
    try_except (bind (await io) (fun x => ret (Json (k x)))) h g sent
    = (Ok (Json (k a)), g, sent').
Proof.
  intros [a H]. unfold try_except, bind, await, ret.
  destruct (io sent) as [[a0|e] s1]; simpl in *; [|discriminate].
  injection H as ->. eauto.
Qed.

(** X2.  GET /games/today and GET /teams/{team_id}/roster always answer with
    a body, whatever the upstream does: their helpers turn every exception
    into the empty list, so the handlers' [except] branches, which would
    raise HTTP 500, are never taken. *)
Theorem today_and_roster_never_answer_500 :
  forall (up : env) (g : globals) (sent : list request),
    (exists games sent',
       get_today_games up g sent
       = (Ok (Json (PDict [ ("count", PInt (Z.of_nat (length games)));
                            ("games", PList (map PDict games)) ])), g, sent'))
    /\ (forall team_id,
          exists roster sent',
            get_team_roster up team_id g sent
            = (Ok (Json (PDict [ ("team_id", PInt team_id);
                                 ("count", PInt (Z.of_nat (length roster)));
                                 ("players", PList (map PDict roster)) ])), g, sent')).
Proof.
  intros up g sent. split.
  - unfold get_today_games, fetch_today_games.
    apply (guarded_body _ (fun games => PDict [("count", len games);
                                               ("games", list_of_dicts games)])).
    unfold fetch_upcoming_games. unfold io_bind at 1, lift at 1.
    rewrite date_plus_now_0. apply io_try_default_Ok.
  - intros team_id. unfold get_team_roster.
    apply (guarded_body _ (fun roster => PDict [("team_id", PInt team_id);
                                                ("count", len roster);
                                                ("players", list_of_dicts roster)])).
    unfold fetch_team_roster. apply io_try_default_Ok.
Qed.

(** X3.  GET /games/past answers HTTP 500 exactly when the date arithmetic
    that precedes the helper's [try] overflows: [days] beyond a [timedelta],
    a start date outside years 1 to 9999, or no yesterday; otherwise it
    answers with a body.  GET /teams/{team_id}/upcoming likewise, on the
    date thirty days ahead.  No upstream behaviour makes either fail. *)
Theorem past_games_fail_only_on_dates :
  forall (up : env) (days team_id limit : Z) (g : globals) (sent : list request),
    let in_range :=
      Z.abs days <= 999999999 /\ 1 <= now up - days <= 3652059 /\ 2 <= now up in
    (in_range ->
     exists games sent',
       get_past_games up days g sent
       = (Ok (Json (PDict [ ("count", PInt (Z.of_nat (length games)));
                            ("days_back", PInt days);
                            ("games", PList (map PDict games)) ])), g, sent'))
    /\ (~ in_range ->
        exists detail,
          get_past_games up days g sent = (Raise (HTTPException 500 detail), g, sent))
    /\ (now up + 30 <= 3652059 ->
        exists games sent',
          get_team_upcoming_games up team_id limit g sent
          = (Ok (Json (PDict [ ("team_id", PInt team_id);
                               ("count", PInt (Z.of_nat (length games)));
                               ("games", PList (map PDict games)) ])), g, sent'))
    /\ (3652059 < now up + 30 ->
        exists detail,
          get_team_upcoming_games up team_id limit g sent
          = (Raise (HTTPException 500 detail), g, sent)).
Proof.
  intros up days team_id limit g sent in_range.
  pose proof (now_in_range up) as [Hlo Hhi].
  split; [|split; [|split]].
  - intros (Hd & Hr & Hy). unfold get_past_games.
    apply (guarded_body _ (fun games => PDict [("count", len games);
                                               ("days_back", PInt days);
                                               ("games", list_of_dicts games)])).
    unfold fetch_past_games. unfold io_bind at 1, lift at 1.
    rewrite (date_plus_in_range (now up) (- days));
      [|rewrite Z.abs_opp; exact Hd|unfold MAX_ORDINAL; lia].
    unfold io_bind at 1, lift at 1.
    rewrite (date_plus_in_range (now up) (- 1));
      [|unfold MAX_DELTA_DAYS; lia|unfold MAX_ORDINAL in *; lia].
    apply io_try_default_Ok.
  - intros Hout. unfold get_past_games, fetch_past_games.
    unfold try_except, bind, await, raise.
    unfold io_bind at 1, lift at 1.
    destruct (date_plus (now up) (- days)) as [start_date|e] eqn:E1.
    + unfold io_bind at 1, lift at 1.
      destruct (date_plus_out_of_range (now up) (- 1)) as [msg E2].
      { intros [_ H1]. apply Hout. unfold date_plus in E1.
        destruct (Z.ltb_spec MAX_DELTA_DAYS (Z.abs (- days))); [discriminate|].
        destruct (Z.leb_spec 1 (now up + - days)); simpl in E1; [|discriminate].
        destruct (Z.leb_spec (now up + - days) MAX_ORDINAL); simpl in E1;
          [|discriminate].
        unfold in_range. rewrite Z.abs_opp in *.
        unfold MAX_DELTA_DAYS, MAX_ORDINAL in *. lia. }
      rewrite E2. eexists. reflexivity.
    + eexists. reflexivity.
  - intros Hr. unfold get_team_upcoming_games.
    apply (guarded_body _ (fun games => PDict [("team_id", PInt team_id);
                                               ("count", len games);
                                               ("games", list_of_dicts games)])).
    unfold fetch_team_upcoming_games. unfold io_bind at 1, lift at 1.
    rewrite (date_plus_in_range (now up) 30);
      [|unfold MAX_DELTA_DAYS; lia|unfold MAX_ORDINAL; lia].
    apply io_try_default_Ok.
  - intros Hr. unfold get_team_upcoming_games, fetch_team_upcoming_games.
    unfold try_except, bind, await, raise.
    unfold io_bind at 1, lift at 1.
    destruct (date_plus_out_of_range (now up) 30) as [msg E].
    { unfold MAX_ORDINAL. lia. }
    rewrite E. eexists. reflexivity.
Qed.

(** *** The upcoming list is all or nothing *)

Lemma for_each_no_failure {A B} (f : A -> result B) l out x e :
  for_each f l = Ok out -> In x l -> f x = Raise e -> False.
Proof.
  intros H Hin Hx. apply for_each_Forall2 in H.
  induction H as [|y d l' out' Hy _ IH]; [destruct Hin|].
  destruct Hin as [<-|Hin]; [congruence|exact (IH Hin)].
Qed.

(** X4.  [fetch_upcoming_games] is all or nothing.  When the upstream
    replies, one request is sent and the result is settled by the games of
    the reply: if every game can be formatted, the result is the list of
    the formatted games, one per upstream game and in the upstream order;
    if one game cannot be formatted (a missing team, id or date), the
    helper's [except] returns the empty list and every other game is lost
    with it. *)
Theorem fetch_upcoming_games_is_all_or_nothing :
  forall (up : env) (days : Z) (sent : list request)
         (data : field (list api_game)) (upstream : list api_game),
    BALL_API_KEY up <> "" ->
    date_plus (now up) days = Ok (now up + days) ->
    answer_games up sent (GET_games (now up) (now up + days) [] 100) = Replied data ->
    get_default data (Some []) = Some upstream ->
    exists games,
      fetch_upcoming_games up days sent
      = (Ok games, sent ++ [GET_games (now up) (now up + days) [] 100])
      /\ (forall entries,
            Forall2 (fun game entry => format_upcoming_game game = Ok entry)
              upstream entries ->
            games = entries)
      /\ (forall game e,
            In game upstream -> format_upcoming_game game = Raise e -> games = [])
      /\ (games = []
          \/ Forall2 (fun game entry => format_upcoming_game game = Ok entry)
               upstream games).
Proof.
  intros up days sent data upstream Hkey Hdate Ha Hd.
  unfold fetch_upcoming_games, fetch_games. unfold_IO.
  rewrite Hdate. unfold get_headers.
  apply String.eqb_neq in Hkey. rewrite Hkey, Ha, Hd. simpl.
  destruct (for_each format_upcoming_game upstream) as [games|e0] eqn:Hf.
  - exists games. split; [reflexivity|]. split; [|split].
    + intros entries Hall. apply Forall2_for_each in Hall. congruence.
    + intros game e Hin He. exfalso. exact (for_each_no_failure _ _ _ _ _ Hf Hin He).
    + right. exact (for_each_Forall2 _ _ _ Hf).
  - exists []. split; [reflexivity|]. split; [|split; [auto|left; reflexivity]].
    intros entries Hall. apply Forall2_for_each in Hall. congruence.
Qed.

Lemma fetch_upcoming_games_is_all_or_nothing_witness :
  (exists games,
      fetch_upcoming_games Examples.online 7 []
      = (Ok games, [GET_games 739264 739271 [] 100])
      /\ Forall2 (fun game entry => format_upcoming_game game = Ok entry)
           Examples.upstream_games games
      /\ map (dict_get "id") games
         = [ Some (PInt 101); Some (PInt 102); Some (PInt 103); Some (PInt 104) ])
  /\ (exists games,
        fetch_upcoming_games Samples.busy 7 []
        = (Ok games, [GET_games 739264 739271 [] 100])
        /\ format_upcoming_game Samples.headless_game
           = Raise (Error Outbound KeyError "home_team")
        /\ games = []).
Proof.
  split.
  - destruct (fetch_upcoming_games_is_all_or_nothing Examples.online 7 []
                (Val Examples.upstream_games) Examples.upstream_games)
      as (games & Hrun & Hfull & _);
      [discriminate|reflexivity|reflexivity|reflexivity|].
    exists games. split; [exact Hrun|].
    assert (Hf : exists entries,
               for_each format_upcoming_game Examples.upstream_games = Ok entries).
    { vm_compute. eauto. }
    destruct Hf as [entries Hf].
    rewrite (Hfull entries (for_each_Forall2 _ _ _ Hf)).
    split; [exact (for_each_Forall2 _ _ _ Hf)|].
    vm_compute in Hf. injection Hf as <-. reflexivity.
  - destruct (fetch_upcoming_games_is_all_or_nothing Samples.busy 7 []
                (Val [ Examples.game_of 300 "2025-01-13T00:00:00Z" "scheduled"
                         Examples.lakers Examples.celtics 0 0;
                       Samples.headless_game ])
                [ Examples.game_of 300 "2025-01-13T00:00:00Z" "scheduled"
                    Examples.lakers Examples.celtics 0 0;
                  Samples.headless_game ])
      as (games & Hrun & _ & Hbad & _);
      [discriminate|reflexivity|reflexivity|reflexivity|].
    exists games. split; [exact Hrun|]. split; [reflexivity|].
    apply (Hbad Samples.headless_game (Error Outbound KeyError "home_team"));
      [right; left; reflexivity|reflexivity].
Defined.

(** *** The sort of past games is stable *)









(** *** Scanning a list of games *)

(** X6.  The scan [next((g for g in games if g["id"] == game_id), None)]
    yields the first game whose id equals [game_id], provided every game
    before it has an ["id"]; it yields [None] when every game has another
    id; and it raises [KeyError: 'id'] exactly when a game without ["id"]
    comes before any match. *)
Theorem find_game_outcomes :
  forall (game_id : Z) (games : list pydict),
    match find_game game_id games with
    | Ok (Some hit) =>
        exists before after,
          games = before ++ hit :: after
          /\ Forall (other_id game_id) before
          /\ Spec.id_is game_id hit = true
    | Ok None => Forall (other_id game_id) games
    | Raise e =>
        e = Error Local KeyError "id"
        /\ exists before bad after,
             games = before ++ bad :: after
             /\ Forall (other_id game_id) before
             /\ ~ Spec.has_id bad
    end.
Proof.
  intros game_id games. induction games as [|g rest IH]; simpl; [constructor|].
  unfold dict_getitem, other_id, Spec.id_is, Spec.has_id in *.
  destruct (dict_get "id" g) as [v|] eqn:Hv; simpl.
  - destruct (eq_int v game_id) eqn:He.
    + exists [], rest. split; [reflexivity|]. split; [constructor|].
      rewrite Hv. exact He.
    + assert (dict_get "id" g <> None /\
              match dict_get "id" g with Some v => eq_int v game_id | None => false end
              = false) as Hg by (rewrite Hv; split; [discriminate|exact He]).
      destruct (find_game game_id rest) as [[hit|]|e].
      * destruct IH as (before & after & -> & Hb & Hhit).
        exists (g :: before), after. split; [reflexivity|]. split; [|exact Hhit].
        constructor; assumption.
      * constructor; assumption.
      * destruct IH as (-> & before & bad & after & -> & Hb & Hbad).
        split; [reflexivity|]. exists (g :: before), bad, after.
        split; [reflexivity|]. split; [|exact Hbad]. constructor; assumption.
  - split; [reflexivity|]. exists [], g, rest. split; [reflexivity|].
    split; [constructor|]. rewrite Hv. intros H. apply H. reflexivity.
Qed.

(** *** After start-up every cached game has an "id" *)

(** X7.  From module initialisation on, under any sequence of requests and
    any upstream behaviour, every game in the cache carries an ["id"]: the
    cache starts empty and only receives games built by
    [fetch_upcoming_games] and [fetch_game_by_id].  So the scan of the cache
    in GET /games/{game_id} and POST /predict/{game_id} never raises. *)
Theorem cached_games_always_have_an_id :
  forall (model_file : option bundle) (games_file : option (list pydict))
         (g : globals) (calls : list (env * endpoint)),
    startup model_file games_file = Ok g ->
    Forall Spec.has_id (cached_games (run calls g))
    /\ forall game_id,
         exists hit, find_game game_id (cached_games (run calls g)) = Ok hit.
Proof.
  intros model_file games_file g calls Hstart.
  assert (Forall Spec.has_id (cached_games (run calls g))) as Hids.
  { apply run_keeps_ids. unfold startup in Hstart.
    destruct (match model_file with
              | Some b => match b_feature_cols b with
                          | Some _ => Ok tt
                          | None => Raise (Error Local KeyError "feature_cols")
                          end
              | None => Ok tt
              end); simpl in Hstart; [|discriminate].
    injection Hstart as <-. constructor. }
  split; [exact Hids|].
  intros game_id. eexists. apply find_game_find. exact Hids.
Qed.

Lemma cached_games_always_have_an_id_witness :
  startup (Some Examples.served_bundle) (Some [ Examples.static_game ])
  = Ok Examples.fresh
  /\ length (cached_games (run [ (Examples.online, GetGames 7);
                                 (Samples.busy, PredictGame 300) ] Examples.fresh))
     = 5%nat
  /\ Forall Spec.has_id
       (cached_games (run [ (Examples.online, GetGames 7);
                            (Samples.busy, PredictGame 300) ] Examples.fresh)).
Proof.
  split; [reflexivity|]. split; [vm_compute; reflexivity|].
  exact (proj1 (cached_games_always_have_an_id
                  (Some Examples.served_bundle) (Some [ Examples.static_game ])
                  Examples.fresh
                  [ (Examples.online, GetGames 7); (Samples.busy, PredictGame 300) ]
                  eq_refl)).
Defined.

(** *** One shape for a game *)

Lemma format_game_details_shape up game d :
  format_game_details game = Ok d ->
  map fst d = ENRICHED_KEYS /\ _enrich_game_data up d = d.
Proof.
  unfold format_game_details. intros H. repeat bind_step H.
  injection H as <-. split; reflexivity.
Qed.

Lemma fetch_game_by_id_shape up game_id sent d :
  fst (fetch_game_by_id up game_id sent) = Ok (Some d) ->
  exists game, format_game_details game = Ok d.
Proof.
  unfold fetch_game_by_id. unfold_IO.
  destruct (get_headers up); [|discriminate].
  destruct (answer_game up sent (GET_game game_id)) as [msg|data]; [discriminate|].
  destruct (get data) as [game|]; [|discriminate].
  destruct (api_game_empty game); [discriminate|].
  destruct (format_game_details game) as [d'|] eqn:Hd; [|discriminate].
  intros H. injection H as <-. eauto.
Qed.

(** What GET /games/{game_id} answers from the cache or the static list. *)
Lemma lookup_shape up game_id g r :
  Spec.lookup_game up game_id g = Ok r ->
  exists body, r = Json (PDict body) /\ map fst body = ENRICHED_KEYS.
Proof.
  unfold Spec.lookup_game.
  destruct (find_game game_id (cached_games g)) as [c|]; simpl; [|discriminate].
  destruct (found c); simpl.
  { intros H. injection H as <-. eexists. split; reflexivity. }
  destruct (find_game game_id (fallback_games g)) as [s|]; simpl; [|discriminate].
  destruct (found s); simpl; [|discriminate].
  intros H. injection H as <-. eexists. split; reflexivity.
Qed.

Lemma get_game_falls_back up game_id g sent :
  (forall d, fst (fetch_game_by_id up game_id sent) = Ok (Some d) -> nonempty d = false) ->
  fst (fst (get_game up game_id g sent)) = Spec.lookup_game up game_id g.
Proof.
  intros Hmiss. unfold get_game, Spec.lookup_game. rewrite fallback_fst.
  - rewrite bind_read, bind_pure.
    destruct (find_game game_id (cached_games g)) as [c|e]; simpl; [|reflexivity].
    destruct (found c); [reflexivity|].
    rewrite bind_read, bind_pure.
    destruct (find_game game_id (fallback_games g)) as [s|e]; simpl; [|reflexivity].
    destruct (found s); reflexivity.
  - destruct (fst (fetch_game_by_id up game_id sent)) as [[d|]|e] eqn:Hf;
      [|intros; reflexivity|exact I].
    intros g0 s0. unfold found. rewrite (Hmiss d eq_refl). reflexivity.
Qed.

(** X8.  Whatever source GET /games/{game_id} answers from (the live API,
    the cache or the static list), the body has the same 27 keys in the
    same order: the keys [fetch_game_by_id] builds are exactly those
    [_enrich_game_data] fills in. *)
Theorem get_game_answers_with_one_shape :
  forall (up : env) (game_id : Z) (g : globals) (sent : list request) (r : response),
    fst (fst (get_game up game_id g sent)) = Ok r ->
    exists body,
      r = Json (PDict body)
      /\ map fst body = ENRICHED_KEYS
      /\ length body = 27%nat.
Proof.
  intros up game_id g sent r Hr.
  assert (exists body, r = Json (PDict body) /\ map fst body = ENRICHED_KEYS)
    as (body & -> & Hkeys).
  { destruct (fst (fetch_game_by_id up game_id sent)) as [[d|]|e] eqn:Hf.
    - pose proof (has_id_nonempty _ (fetch_game_by_id_has_id _ _ _ _ Hf)) as Hne.
      destruct (fetch_game_by_id_shape _ _ _ _ Hf) as [game Hg].
      exists d. split; [|exact (proj1 (format_game_details_shape up _ _ Hg))].
      unfold get_game in Hr. unfold_M.
      destruct (fetch_game_by_id up game_id sent) as [r0 s1]. simpl in Hf. subst r0.
      simpl in Hr. rewrite Hne in Hr. simpl in Hr. injection Hr as <-. reflexivity.
    - rewrite get_game_falls_back in Hr; [exact (lookup_shape _ _ _ _ Hr)|].
      intros d Hd. rewrite Hf in Hd. discriminate.
    - rewrite get_game_falls_back in Hr; [exact (lookup_shape _ _ _ _ Hr)|].
      intros d Hd. rewrite Hf in Hd. discriminate. }
  exists body. split; [reflexivity|]. split; [exact Hkeys|].
  rewrite <- (length_map fst), Hkeys. reflexivity.
Qed.

Lemma get_game_answers_with_one_shape_witness :
  exists live stored,
    fst (fst (get_game Samples.busy 300 Examples.fresh [])) = Ok (Json (PDict live))
    /\ fst (fst (get_game Examples.offline 7 Examples.fresh [])) = Ok (Json (PDict stored))
    /\ map fst live = map fst stored
    /\ length live = 27%nat.
Proof.
  assert (exists live stored,
            fst (fst (get_game Samples.busy 300 Examples.fresh [])) = Ok (Json (PDict live))
            /\ fst (fst (get_game Examples.offline 7 Examples.fresh []))
               = Ok (Json (PDict stored)))
    as (live & stored & Hlive & Hstored)
    by (vm_compute; eexists _, _; split; reflexivity).
  exists live, stored. split; [exact Hlive|]. split; [exact Hstored|].
  destruct (get_game_answers_with_one_shape _ _ _ _ _ Hlive) as (b1 & E1 & K1 & L1).
  destruct (get_game_answers_with_one_shape _ _ _ _ _ Hstored) as (b2 & E2 & K2 & _).
  injection E1 as <-. injection E2 as <-.
  split; [rewrite K1, K2; reflexivity|exact L1].
Defined.

(** X9.  A game built by [fetch_game_by_id] already has every key with a
    value, so [_enrich_game_data] leaves it as it is: a game that POST
    /predict/{game_id} cached is later served from the cache exactly as the
    live API returned it. *)
Theorem enriching_a_fetched_game_changes_nothing :
  forall (up up' : env) (game_id : Z) (sent : list request) (game : pydict),
    fst (fetch_game_by_id up game_id sent) = Ok (Some game) ->
    _enrich_game_data up' game = game.
Proof.
  intros up up' game_id sent game H.
  destruct (fetch_game_by_id_shape _ _ _ _ H) as [upstream Hg].
  exact (proj2 (format_game_details_shape up' _ _ Hg)).
Qed.

Lemma enriching_a_fetched_game_changes_nothing_witness :
  fst (fetch_game_by_id Samples.busy 300 []) = Ok (Some Samples.fetched_300)
  /\ dict_get "home_team" Samples.fetched_300 = Some (PStr "SEA")
  /\ _enrich_game_data Examples.offline Samples.fetched_300 = Samples.fetched_300.
Proof.
  assert (fst (fetch_game_by_id Samples.busy 300 []) = Ok (Some Samples.fetched_300))
    as Hf by (vm_compute; reflexivity).
  split; [exact Hf|]. split; [vm_compute; reflexivity|].
  exact (enriching_a_fetched_game_changes_nothing Samples.busy Examples.offline 300 []
           Samples.fetched_300 Hf).
Defined.

(** *** Enrichment *)

Lemma dict_get_In_keys k d v : dict_get k d = Some v -> In k (map fst d).
Proof.
  induction d as [|[k' v'] d IH]; simpl; [discriminate|].
  destruct (String.eqb_spec k k') as [->|Hne]; [auto|]. intros H. right. exact (IH H).
Qed.

(** X10.  [_enrich_game_data] always returns the same 27 keys in the same
    order, whatever the game holds; it drops every other key of the game
    (the "winner" of a past game, say); and enriching twice is enriching
    once. *)
Theorem enrich_game_data_is_idempotent :
  forall (up : env) (game : pydict),
    map fst (_enrich_game_data up game) = ENRICHED_KEYS
    /\ (forall k, ~ In k ENRICHED_KEYS -> dict_get k (_enrich_game_data up game) = None)
    /\ _enrich_game_data up (_enrich_game_data up game) = _enrich_game_data up game.
Proof.
  intros up game. split; [reflexivity|]. split.
  - intros k Hk. destruct (dict_get k (_enrich_game_data up game)) as [v|] eqn:E;
      [|reflexivity].
    apply dict_get_In_keys in E. contradiction.
  - unfold _enrich_game_data. cbn. reflexivity.
Qed.

(** *** A prediction that fails after the fetch *)

(** X11.  POST /predict/{game_id} appends the game it fetched to the cache
    before it predicts, so the game stays cached even when the request then
    fails: in particular when the teams have no statistics and the answer
    is HTTP 400. *)
Theorem failed_prediction_still_caches_the_game :
  forall (up : env) (game_id : Z) (g : globals) (sent : list request)
         (b : bundle) (game : pydict),
    model_bundle g = Some b ->
    find_game game_id (cached_games g) = Ok None ->
    find_game game_id (fallback_games g) = Ok None ->
    fst (fetch_game_by_id up game_id sent) = Ok (Some game) ->
    cached_games (snd (fst (predict_game up game_id g sent))) = cached_games g ++ [game]
    /\ (forall home_team away_team,
          dict_getitem "home_team" game = Ok home_team ->
          dict_getitem "away_team" game = Ok away_team ->
          get_team_features (Some b) home_team away_team = Ok None ->
          exists detail,
            fst (fst (predict_game up game_id g sent))
            = Raise (HTTPException 400 detail)).
Proof.
  intros up game_id g sent b game Hb Hc Hs Hf.
  assert (nonempty game = true) as Hne
    by exact (has_id_nonempty _ (fetch_game_by_id_has_id _ _ _ _ Hf)).
  assert (locate_game up game_id g sent
          = (Ok (Some game), Spec.with_appended g game,
             snd (fetch_game_by_id up game_id sent))) as Hl.
  { unfold locate_game. unfold_M. rewrite Hc. simpl. rewrite Hs. simpl.
    destruct (fetch_game_by_id up game_id sent) as [r s1]. simpl in Hf. subst r.
    simpl. rewrite Hne. reflexivity. }
  assert (predict_game up game_id g sent
          = predict_located up game_id (Some b) game (Spec.with_appended g game)
              (snd (fetch_game_by_id up game_id sent))) as Hp.
  { unfold predict_game. unfold bind at 1 2 3. unfold read, ret at 1.
    rewrite Hb, Hl. simpl. rewrite Hne. reflexivity. }
  rewrite Hp. split.
  - rewrite (predict_located_keeps up game_id (Some b) game). reflexivity.
  - intros home_team away_team Hh Ha Hfeat.
    unfold predict_located. unfold_M. rewrite Hh, Ha, Hfeat. eexists. reflexivity.
Qed.

Lemma failed_prediction_still_caches_the_game_witness :
  fst (fetch_game_by_id Samples.busy 300 []) = Ok (Some Samples.fetched_300)
  /\ cached_games (snd (fst (predict_game Samples.busy 300 Examples.fresh [])))
     = [ Samples.fetched_300 ]
  /\ exists detail,
       fst (fst (predict_game Samples.busy 300 Examples.fresh []))
       = Raise (HTTPException 400 detail).
Proof.
  assert (fst (fetch_game_by_id Samples.busy 300 []) = Ok (Some Samples.fetched_300))
    as Hf by (vm_compute; reflexivity).
  destruct (failed_prediction_still_caches_the_game Samples.busy 300 Examples.fresh []
              Examples.served_bundle Samples.fetched_300 eq_refl eq_refl eq_refl Hf)
    as [Hcache Hfail].
  split; [exact Hf|]. split; [exact Hcache|].
  apply (Hfail (PStr "SEA") (PStr "BOS")); vm_compute; reflexivity.
Defined.

(** *** Key players *)

Lemma select_key_players_length limit roster acc seen out :
  select_key_players limit roster acc seen = Ok out ->
  (length acc <= limit)%nat -> (length out <= limit)%nat.
Proof.
  revert acc seen. induction roster as [|player rest IH]; intros acc seen H Hacc;
    simpl in H.
  - injection H as <-. exact Hacc.
  - destruct (Nat.leb_spec limit (length acc)) as [Hfull|Hroom].
    + injection H as <-. exact Hacc.
    + match type of H with
      | (if ?c then _ else _) = _ => destruct c
      end.
      * exact (IH _ _ H Hacc).
      * repeat bind_step H. apply IH in H; [exact H|].
        rewrite length_app. simpl. lia.
Qed.

(** X12.  [get_key_players_for_team] never raises, leaves the globals alone
    and returns at most three players, whatever the roster. *)
Theorem key_players_are_at_most_three :
  forall (up : env) (team_id : pyval) (g : globals) (sent : list request),
    exists key_players sent',
      get_key_players_for_team up team_id g sent = (Ok key_players, g, sent')
      /\ (length key_players <= 3)%nat.
Proof.
  intros up team_id g sent. unfold get_key_players_for_team. unfold_M.
  destruct (fetch_team_roster up team_id sent) as [[roster|e] s1].
  - destruct (negb (nonempty roster)).
    + exists [], s1. split; [reflexivity|simpl; lia].
    + destruct (select_key_players 3 (firstn 6 roster) [] []) as [out|e] eqn:Hs.
      * exists out, s1. split; [reflexivity|].
        apply (select_key_players_length _ _ _ _ _ Hs). simpl. lia.
      * exists [], s1. split; [reflexivity|simpl; lia].
  - exists [], s1. split; [reflexivity|simpl; lia].
Qed.

Lemma KeyPlayer_position id name position url reason kp :
  KeyPlayer id name position url reason = Ok kp -> position = PStr (kp_position kp).
Proof.
  unfold KeyPlayer. destruct id, name, position, url; try discriminate.
  intros H. injection H as <-. reflexivity.
Qed.

Lemma later_positions_new_snoc acc kp :
  later_positions_new acc ->
  ((length acc <= 1)%nat \/ ~ In (kp_position kp) (map kp_position acc)) ->
  later_positions_new (acc ++ [kp]).
Proof.
  intros Hacc Hnew pre x post E Hpre.
  destruct post as [|y post'] using rev_ind.
  - apply app_inj_tail in E. destruct E as [-> ->].
    destruct Hnew as [Hshort|Hnew]; [lia|exact Hnew].
  - clear IHpost'. rewrite app_comm_cons, app_assoc in E.
    apply app_inj_tail in E. destruct E as [E _].
    exact (Hacc pre x post' E Hpre).
Qed.

Lemma select_key_players_positions limit roster acc seen out :
  select_key_players limit roster acc seen = Ok out ->
  seen_are_kept seen acc -> later_positions_new acc -> later_positions_new out.
Proof.
  revert acc seen. induction roster as [|player rest IH]; intros acc seen H Hseen Hacc;
    simpl in H.
  - injection H as <-. exact Hacc.
  - destruct (limit <=? length acc)%nat; [injection H as <-; exact Hacc|].
    destruct (existsb (same_position (dict_get_default "position" (PStr "") player)) seen)
      eqn:Hex;
      destruct (Nat.ltb_spec 1 (length acc)) as [Hlong|Hshort]; simpl in H;
      try exact (IH _ _ H Hseen Hacc).
    all: repeat bind_step H.
    all: match goal with
         | E : KeyPlayer _ _ _ _ _ = Ok ?kp |- _ =>
             pose proof (KeyPlayer_position _ _ _ _ _ _ E) as Hpos
         end.
    all: rewrite Hpos in *.
    all: apply IH in H; [exact H| |].
    all: try (intros p; simpl; rewrite map_app, in_app_iff; simpl;
              rewrite <- (Hseen p), orb_true_iff;
              destruct (String.eqb_spec (kp_position a2) p) as [->|Hne];
              [rewrite String.eqb_refl; tauto|];
              split; [intros [Hq|Hq]; [|tauto];
                      apply String.eqb_eq in Hq; congruence
                     |intros [Hq|[Hq|[]]]; [tauto|congruence]]).
    all: apply later_positions_new_snoc; [exact Hacc|].
    + left. lia.
    + right. rewrite <- (Hseen (kp_position a2)), Hex. discriminate.
    + left. lia.
Qed.

(** X13.  When [get_key_players_for_team] returns three players, the third
    has a position that neither of the first two has (the first two may
    share theirs). *)
Theorem third_key_player_has_a_new_position :
  forall (up : env) (team_id : pyval) (g g' : globals) (sent sent' : list request)
         (a b c : key_player),
    get_key_players_for_team up team_id g sent = (Ok [a; b; c], g', sent') ->
    kp_position c <> kp_position a /\ kp_position c <> kp_position b.
Proof.
  intros up team_id g g' sent sent' a b c H.
  assert (later_positions_new [a; b; c]) as Hnew.
  { unfold get_key_players_for_team in H. unfold_M.
    destruct (fetch_team_roster up team_id sent) as [[roster|e] s1];
      [|discriminate H].
    destruct (negb (nonempty roster)); [discriminate H|].
    destruct (select_key_players 3 (firstn 6 roster) [] []) as [out|e] eqn:Hs;
      [|discriminate H].
    injection H as -> _ _.
    apply (select_key_players_positions _ _ _ _ _ Hs).
    - intros p. simpl. split; [discriminate|intros []].
    - intros pre x post E Hpre. destruct pre; simpl in Hpre; [lia|discriminate E]. }
  specialize (Hnew [a; b] c [] eq_refl (le_n 2)). simpl in Hnew. split; intros E; apply Hnew; auto.
Qed.

Lemma third_key_player_has_a_new_position_witness :
  exists a b c,
    get_key_players_for_team Samples.busy (PInt 14) Examples.fresh []
    = (Ok [a; b; c], Examples.fresh, [GET_players None [PInt 14] 50])
    /\ kp_position a = "G" /\ kp_position b = "G" /\ kp_position c = "F"
    /\ kp_position c <> kp_position a /\ kp_position c <> kp_position b.
Proof.
  eexists _, _, _.
  assert (get_key_players_for_team Samples.busy (PInt 14) Examples.fresh []
          = (Ok [ {| kp_id := 11; kp_name := "Ann Ames"; kp_position := "G";
                     kp_headshot_url :=
                       "https://cdn.nba.com/headshots/nba/latest/260x190/11.png";
                     kp_impact_reason := "Floor General" |};
                  {| kp_id := 12; kp_name := "Bea Birk"; kp_position := "G";
                     kp_headshot_url :=
                       "https://cdn.nba.com/headshots/nba/latest/260x190/12.png";
                     kp_impact_reason := "Floor General" |};
                  {| kp_id := 14; kp_name := "Di Dunn"; kp_position := "F";
                     kp_headshot_url :=
                       "https://cdn.nba.com/headshots/nba/latest/260x190/14.png";
                     kp_impact_reason := "Two-Way Threat" |} ],
             Examples.fresh, [GET_players None [PInt 14] 50])) as Hrun
    by (vm_compute; reflexivity).
  split; [exact Hrun|]. split; [reflexivity|]. split; [reflexivity|].
  split; [reflexivity|].
  exact (third_key_player_has_a_new_position _ _ _ _ _ _ _ _ _ Hrun).
Defined.

(** *** Commentary on a prediction *)

Lemma empty_stats_is_empty : bool_decide ((∅ : gmap string num) = ∅) = true.
Proof. apply bool_decide_eq_true_2. reflexivity. Qed.

(** X14.  [get_prediction_factors] never returns more than three factors,
    so its final slice [factors[:4]] drops nothing; it returns no factor
    when no bundle is loaded; and the only exception it can raise is the
    [TypeError] of a team value that cannot be a dictionary key, never for
    two team names that are strings: the concatenation
    ["Home court advantage favors " + home_team] is only reached with a
    string. *)
Theorem prediction_factors_are_at_most_three :
  forall (up : env) (mb : option bundle) (home_team away_team : pyval) (p : float),
    match get_prediction_factors up mb home_team away_team p with
    | Ok factors =>
        (length factors <= 3)%nat /\ (mb = None -> factors = [])
    | Raise e =>
        e = Error Local TypeError "unhashable type"
        /\ forall h a, ~ (home_team = PStr h /\ away_team = PStr a)
    end.
Proof.
  intros up mb home_team away_team p. unfold get_prediction_factors.
  destruct mb as [b|]; [|split; [simpl; lia|reflexivity]].
  unfold stats_get_or_empty.
  destruct home_team as [| | | |h| |]; simpl;
    try (split; [reflexivity|intros h' a' [H1 H2]; discriminate]).
  all: destruct away_team as [| | | |a| |]; simpl;
    try (split; [reflexivity|intros h' a' [H1 H2]; discriminate]).
  all: rewrite ?empty_stats_is_empty; simpl; rewrite ?andb_false_r; simpl.
  all: try (split; [lia|discriminate]).
  repeat match goal with
         | |- context [if ?c then _ else _] => destruct c; simpl
         end.
  all: split; [lia|discriminate].
Qed.

(** X15.  For two team names, [get_prediction_factors] returns no factor
    exactly when either team has no (or an empty) statistics record;
    otherwise the first factor names the team that averages more points
    (the away team on a tie), the second is the home-court factor when the
    home-win probability exceeds 0.5, and without it there are at most two
    factors. *)
Theorem prediction_factors_start_with_points :
  forall (up : env) (b : bundle) (h a : string) (p : float),
    let home_stats := match team_stats_home b !! h with Some d => d | None => ∅ end in
    let away_stats := match team_stats_away b !! a with Some d => d | None => ∅ end in
    exists factors,
      get_prediction_factors up (Some b) (PStr h) (PStr a) p = Ok factors
      /\ (factors = [] <-> home_stats = ∅ \/ away_stats = ∅)
      /\ (factors <> [] ->
          nth_error factors 0
          = Some ((if num_gt (stat_or_zero home_stats "pts_home")
                             (stat_or_zero away_stats "pts_away")
                   then h else a) +:+ " averages more points per game")
          /\ (PrimFloat.ltb 0.5 p = true ->
              nth_error factors 1 = Some ("Home court advantage favors " +:+ h))
          /\ (PrimFloat.ltb 0.5 p = false -> (length factors <= 2)%nat)).
Proof.
  intros up b h a p home_stats away_stats.
  unfold get_prediction_factors, stats_get_or_empty. simpl.
  fold home_stats away_stats.
  destruct (decide (home_stats = ∅)) as [Hh|Hh].
  { rewrite (bool_decide_eq_true_2 _ Hh). simpl. exists []. 
    split; [reflexivity|]. split; [tauto|]. intros H; contradiction. }
  rewrite (bool_decide_eq_false_2 _ Hh). simpl.
  destruct (decide (away_stats = ∅)) as [Ha|Ha].
  { rewrite (bool_decide_eq_true_2 _ Ha). simpl. exists [].
    split; [reflexivity|]. split; [tauto|]. intros H; contradiction. }
  rewrite (bool_decide_eq_false_2 _ Ha). simpl.
  destruct (PrimFloat.ltb 0.5 p); simpl.
  all: destruct (num_gt (stat_or_zero home_stats "pts_home")
                   (stat_or_zero away_stats "pts_away")); simpl.
  all: destruct (num_gt (stat_or_zero home_stats "reb_home")
                   (plus_three (stat_or_zero away_stats "reb_away"))); simpl.
  all: try destruct (num_gt (stat_or_zero away_stats "reb_away")
                   (plus_three (stat_or_zero home_stats "reb_home"))); simpl.
  all: eexists; split; [reflexivity|].
  all: split; [split; [discriminate|intros [?|?]; contradiction]|].
  all: intros _; split; [reflexivity|].
  all: split; [intros; try reflexivity; discriminate|intros; simpl; try lia; discriminate].
Qed.

(** *** The team list of the model *)

Lemma leb_false_leb a b : String.leb a b = false -> String.leb b a = true.
Proof.
  intros H. destruct (String.leb_total a b) as [E|E]; [congruence|exact E].
Qed.

Lemma insert_asc_perm x l : Permutation (insert_asc x l) (x :: l).
Proof.
  induction l as [|y l IH]; simpl; [reflexivity|].
  destruct (String.leb x y); [reflexivity|].
  rewrite IH. apply perm_swap.
Qed.

Lemma sorted_strings_perm l : Permutation (sorted_strings l) l.
Proof.
  induction l as [|x l IH]; simpl; [reflexivity|].
  rewrite insert_asc_perm. constructor. exact IH.
Qed.

Lemma insert_asc_hd x l y :
  string_le y x -> HdRel string_le y l -> HdRel string_le y (insert_asc x l).
Proof.
  intros Hyx Hl. destruct l as [|z l]; simpl; [constructor; exact Hyx|].
  destruct (String.leb x z); constructor; [exact Hyx|].
  inversion Hl; assumption.
Qed.

Lemma insert_asc_sorted x l : Sorted string_le l -> Sorted string_le (insert_asc x l).
Proof.
  induction l as [|y l IH]; intros Hs; simpl.
  - repeat constructor.
  - destruct (String.leb x y) eqn:E.
    + constructor; [exact Hs|constructor; exact E].
    + inversion Hs as [|? ? Hs' Hhd]; subst. constructor; [exact (IH Hs')|].
      apply insert_asc_hd; [exact (leb_false_leb _ _ E)|exact Hhd].
Qed.

Lemma sorted_strings_sorted l : Sorted string_le (sorted_strings l).
Proof.
  induction l as [|x l IH]; simpl; [constructor|]. apply insert_asc_sorted, IH.
Qed.

(** X16.  When [fetch_teams] raises or returns nothing and a bundle is
    loaded, GET /teams answers from the model: the teams that have home or
    away statistics, each once, in ascending order, with their number as
    "count". *)
Theorem list_teams_falls_back_to_sorted_model_teams :
  forall (up : env) (g : globals) (sent : list request) (b : bundle),
    model_bundle g = Some b ->
    (forall team rest, fst (fetch_teams up sent) <> Ok (team :: rest)) ->
    exists teams,
      fst (fst (list_teams up g sent))
      = Ok (Json (PDict [ ("source", PStr "model");
                          ("count", PInt (Z.of_nat (length teams)));
                          ("teams", PList (map PStr teams)) ]))
      /\ Sorted string_le teams
      /\ List.NoDup teams
      /\ (forall t, In t teams <->
                    is_Some (team_stats_home b !! t) \/ is_Some (team_stats_away b !! t)).
Proof.
  intros up g sent b Hb Hfetch.
  exists (sorted_strings (elements (dom (team_stats_home b) ∪ dom (team_stats_away b)
                                     : gset string))).
  split; [|split; [apply sorted_strings_sorted|split]].
  - unfold list_teams. unfold_M.
    destruct (fetch_teams up sent) as [[[|team rest]|e] s1]; simpl.
    + rewrite Hb. reflexivity.
    + exfalso. exact (Hfetch team rest eq_refl).
    + rewrite Hb. reflexivity.
  - apply (Permutation_NoDup (Permutation_sym (sorted_strings_perm _))).
    apply NoDup_ListNoDup, NoDup_elements.
  - intros t. split.
    + intros H. apply (Permutation_in _ (sorted_strings_perm _)) in H. revert H.
      rewrite <- list_elem_of_In, elem_of_elements, elem_of_union, !elem_of_dom. tauto.
    + intros H. apply (Permutation_in _ (Permutation_sym (sorted_strings_perm _))).
      rewrite <- list_elem_of_In, elem_of_elements, elem_of_union, !elem_of_dom. tauto.
Qed.

Lemma list_teams_falls_back_to_sorted_model_teams_witness :
  model_bundle Examples.fresh = Some Examples.served_bundle
  /\ (forall team rest, fst (fetch_teams Examples.offline []) <> Ok (team :: rest))
  /\ exists teams,
       fst (fst (list_teams Examples.offline Examples.fresh []))
       = Ok (Json (PDict [ ("source", PStr "model");
                           ("count", PInt (Z.of_nat (length teams)));
                           ("teams", PList (map PStr teams)) ]))
       /\ Sorted string_le teams
       /\ List.NoDup teams
       /\ (In "BOS" teams /\ In "LAL" teams).
Proof.
  assert (forall team rest, fst (fetch_teams Examples.offline []) <> Ok (team :: rest))
    as Hdown by (intros team rest H; vm_compute in H; discriminate H).
  split; [reflexivity|]. split; [exact Hdown|].
  destruct (list_teams_falls_back_to_sorted_model_teams Examples.offline Examples.fresh []
              Examples.served_bundle eq_refl Hdown)
    as (teams & Hrun & Hsorted & Hnodup & Hin).
  exists teams. split; [exact Hrun|]. split; [exact Hsorted|]. split; [exact Hnodup|].
  split; apply Hin; left; vm_compute; eauto.
Defined.

(** *** The three team tables *)

Lemma table_get_keys {V} k (t : list (string * V)) :
  (exists v, table_get k t = Some v) <-> In k (map fst t).
Proof.
  induction t as [|[k' v'] t IH]; simpl.
  - split; [intros [v H]; discriminate|intros []].
  - destruct (String.eqb_spec k k') as [->|Hne].
    + split; [auto|eauto].
    + rewrite IH. split; [auto|intros [H|H]; [congruence|exact H]].
Qed.

Lemma table_get_In {V} k v (t : list (string * V)) :
  table_get k t = Some v -> In (k, v) t.
Proof.
  induction t as [|[k' v'] t IH]; simpl; [discriminate|].
  destruct (String.eqb_spec k k') as [->|Hne].
  - intros H. injection H as ->. left. reflexivity.
  - intros H. right. exact (IH H).
Qed.

(** X17.  The three team tables know the same teams, whatever the case and
    the alphabet of the abbreviation ([str.upper()] is applied first): an
    abbreviation has a logo URL exactly when it has a BallDontLie id, which
    then lies between 1 and 30, exactly when the table of full names has it,
    and exactly when [get_team_full_name] gives something other than the
    abbreviation; for any other abbreviation [get_team_full_name] gives the
    abbreviation back and [get_balldontlie_team_id] gives [None]. *)
Theorem team_tables_know_the_same_teams :
  forall (abbr size : string),
    (get_team_logo_url abbr size <> ""
     <-> exists id, get_balldontlie_team_id abbr = Some id /\ 1 <= id <= 30)
    /\ (get_team_logo_url abbr size <> ""
        <-> exists name, table_get (upper abbr) TEAM_FULL_NAMES = Some name)
    /\ (get_team_logo_url abbr size <> "" <-> get_team_full_name abbr <> abbr)
    /\ (get_team_logo_url abbr size = "" -> get_team_full_name abbr = abbr
                                            /\ get_balldontlie_team_id abbr = None).
Proof.
  intros abbr size.
  assert (get_team_logo_url abbr size <> "" <-> In (upper abbr) (map fst TEAM_NBA_IDS))
    as Hlogo.
  { rewrite <- table_get_keys. unfold get_team_logo_url. split.
    - destruct (table_get (upper abbr) TEAM_NBA_IDS) as [id|]; [eauto|].
      intros H. contradiction.
    - intros [id Hid]. rewrite Hid.
      pose proof (table_get_In _ _ _ Hid) as Hin.
      assert (id <> 0) as Hnz.
      { revert Hin. generalize (upper abbr). intros k Hin.
        repeat (destruct Hin as [Hin|Hin]; [injection Hin as _ <-; discriminate|]).
        destruct Hin. }
      apply Z.eqb_neq in Hnz. rewrite Hnz. discriminate. }
  split; [|split; [|split]].
  - rewrite Hlogo. change (map fst TEAM_NBA_IDS) with (map fst BALLDONTLIE_TEAM_IDS).
    rewrite <- table_get_keys. unfold get_balldontlie_team_id. split.
    + intros [id Hid]. exists id. split; [exact Hid|].
      apply table_get_In in Hid. revert Hid. generalize (upper abbr). intros k Hin.
      repeat (destruct Hin as [Hin|Hin]; [injection Hin as _ <-; lia|]).
      destruct Hin.
    + intros (id & Hid & _). eauto.
  - rewrite Hlogo. change (map fst TEAM_NBA_IDS) with (map fst TEAM_FULL_NAMES).
    rewrite <- table_get_keys. reflexivity.
  - rewrite Hlogo. change (map fst TEAM_NBA_IDS) with (map fst TEAM_FULL_NAMES).
    rewrite <- table_get_keys. unfold get_team_full_name. split.
    + intros [name Hname]. rewrite Hname. intros ->.
      apply table_get_In in Hname.
      repeat (destruct Hname as [Hname|Hname];
              [injection Hname as Hk Hn; rewrite <- Hn in Hk; vm_compute in Hk;
               discriminate|]).
      destruct Hname.
    + destruct (table_get (upper abbr) TEAM_FULL_NAMES) as [name|]; [eauto|].
      intros H. contradiction.
  - intros Hempty.
    assert (~ In (upper abbr) (map fst TEAM_NBA_IDS)) as Hout
      by (intros Hin; apply Hlogo in Hin; contradiction).
    split.
    + unfold get_team_full_name.
      destruct (table_get (upper abbr) TEAM_FULL_NAMES) as [name|] eqn:E; [|reflexivity].
      exfalso. apply Hout. change (map fst TEAM_NBA_IDS) with (map fst TEAM_FULL_NAMES).
      apply table_get_keys. eauto.
    + unfold get_balldontlie_team_id.
      destruct (table_get (upper abbr) BALLDONTLIE_TEAM_IDS) as [id|] eqn:E; [|reflexivity].
      exfalso. apply Hout. change (map fst TEAM_NBA_IDS) with (map fst BALLDONTLIE_TEAM_IDS).
      apply table_get_keys. eauto.
Qed.

Lemma team_tables_know_the_same_teams_witness :
  get_team_logo_url Samples.long_s_as "L"
  = "https://cdn.nba.com/logos/nba/1610612759/primary/L/logo.svg"
  /\ get_balldontlie_team_id Samples.long_s_as = Some 27
  /\ get_team_full_name Samples.long_s_as = "San Antonio Spurs"
  /\ get_team_full_name Samples.ch_dotless_i = "Chicago Bulls"
  /\ (exists id, get_balldontlie_team_id Samples.ch_dotless_i = Some id /\ 1 <= id <= 30)
  /\ get_team_full_name Samples.bo_sharp_s = Samples.bo_sharp_s
  /\ get_balldontlie_team_id Samples.bo_sharp_s = None.
Proof.
  split; [reflexivity|]. split; [reflexivity|]. split; [reflexivity|].
  split; [reflexivity|].
  destruct (team_tables_know_the_same_teams Samples.ch_dotless_i "L") as (Hid & _).
  destruct (team_tables_know_the_same_teams Samples.bo_sharp_s "L") as (_ & _ & _ & Hout).
  split; [apply Hid; discriminate|].
  apply Hout. reflexivity.
Defined.

(** *** Image URLs *)

Lemma length_append (s t : string) :
  String.length (s +:+ t) = (String.length s + String.length t)%nat.
Proof. induction s as [|c s IH]; simpl; [reflexivity|rewrite IH; reflexivity]. Qed.

Lemma append_inj_r (s1 s2 t : string) : s1 +:+ t = s2 +:+ t -> s1 = s2.
Proof.
  revert s2. induction s1 as [|c s1 IH]; intros [|d s2] H.
  - reflexivity.
  - exfalso. apply (f_equal String.length) in H.
    rewrite !length_append in H. simpl in H. lia.
  - exfalso. apply (f_equal String.length) in H.
    rewrite !length_append in H. simpl in H. lia.
  - change (String c (s1 +:+ t) = String d (s2 +:+ t)) in H.
    injection H as -> H. f_equal. exact (IH _ H).
Qed.

(** X18.  Two different player ids never get the same headshot URL. *)
Theorem headshot_url_identifies_the_player :
  forall (a b : Z) (size : string),
    a <> b ->
    get_player_headshot_url (Some a) size <> get_player_headshot_url (Some b) size.
Proof.
  intros a b size Hne H. apply Hne.
  unfold get_player_headshot_url, format_opt_int, str_of_int in H.
  apply String.app_inj in H. apply String.app_inj in H.
  apply String.app_inj in H. apply String.app_inj in H.
  apply append_inj_r in H. exact (pretty_Z_inj _ _ H).
Qed.

Lemma headshot_url_identifies_the_player_witness :
  237 <> 2544
  /\ get_player_headshot_url (Some 237) "260x190"
     = "https://cdn.nba.com/headshots/nba/latest/260x190/237.png"
  /\ get_player_headshot_url (Some 237) "260x190"
     <> get_player_headshot_url (Some 2544) "260x190".
Proof.
  assert (237 <> 2544) as Hne by discriminate.
  split; [exact Hne|]. split; [vm_compute; reflexivity|].
  exact (headshot_url_identifies_the_player 237 2544 "260x190" Hne).
Defined.

(** *** Player details *)

Lemma dict_get_set_same k v d : dict_get k (dict_set k v d) = Some v.
Proof.
  induction d as [|[k' v'] d IH]; simpl.
  - rewrite String.eqb_refl. reflexivity.
  - destruct (String.eqb k k') eqn:E; simpl.
    + rewrite String.eqb_refl. reflexivity.
    + rewrite E. exact IH.
Qed.

Lemma dict_get_set_other k k0 v d : k0 <> k -> dict_get k0 (dict_set k v d) = dict_get k0 d.
Proof.
  intros Hne. induction d as [|[k' v'] d IH]; simpl.
  - apply String.eqb_neq in Hne. rewrite Hne. reflexivity.
  - destruct (String.eqb_spec k k') as [->|Hk]; simpl.
    + apply String.eqb_neq in Hne. rewrite Hne. reflexivity.
    + destruct (String.eqb k0 k'); [reflexivity|exact IH].
Qed.

(** X19.  When the season averages are fetched, GET /players/{player_id}
    returns them with "headshot_url" set to the CDN URL of [player_id] and
    every other key untouched; when the upstream has no averages for the
    player, the body holds the headshot URL and nothing else. *)
Theorem get_player_sets_the_headshot :
  forall (up : env) (player_id season : Z) (g : globals) (sent sent' : list request)
         (stats : pydict),
    fetch_player_season_averages up player_id season sent = (Ok stats, sent') ->
    exists body,
      get_player up player_id season g sent = (Ok (Json (PDict body)), g, sent')
      /\ dict_get "headshot_url" body
         = Some (PStr ("https://cdn.nba.com/headshots/nba/latest/260x190/"
                       +:+ str_of_int player_id +:+ ".png"))
      /\ (forall k, k <> "headshot_url" -> dict_get k body = dict_get k stats)
      /\ (stats = [] -> length body = 1%nat).
Proof.
  intros up player_id season g sent sent' stats Hf.
  eexists. split; [|split; [|split]].
  - unfold get_player. unfold_M. rewrite Hf. reflexivity.
  - apply dict_get_set_same.
  - intros k Hk. apply dict_get_set_other, Hk.
  - intros ->. reflexivity.
Qed.

Lemma get_player_sets_the_headshot_witness :
  fetch_player_season_averages Samples.busy 237 2024 []
  = (Ok [], [GET_season_averages 2024 237])
  /\ get_player Samples.busy 237 2024 Examples.fresh []
     = (Ok (Json (PDict [ ("headshot_url",
                           PStr "https://cdn.nba.com/headshots/nba/latest/260x190/237.png") ])),
        Examples.fresh, [GET_season_averages 2024 237]).
Proof.
  assert (fetch_player_season_averages Samples.busy 237 2024 []
          = (Ok [], [GET_season_averages 2024 237])) as Hf by (vm_compute; reflexivity).
  split; [exact Hf|].
  destruct (get_player_sets_the_headshot Samples.busy 237 2024 Examples.fresh [] _ _ Hf)
    as (body & Hrun & _).
  rewrite Hrun. vm_compute in Hrun. injection Hrun as <-. vm_compute. reflexivity.
Defined.

(** *** Box scores *)

(** X20.  [fetch_box_score] sends one request and reads the first box score
    of the reply only: the home and away player lists then have one entry
    per upstream row, in order; with no box score in the reply both lists
    are empty and the team keys are left out. *)
Theorem fetch_box_score_keeps_every_row :
  forall (up : env) (game_id : Z) (sent sent' : list request) (d : pydict),
    fetch_box_score up game_id sent = (Ok d, sent') ->
    exists data home away,
      answer_box_scores up sent (GET_box_scores game_id) = Replied data
      /\ sent' = sent ++ [GET_box_scores game_id]
      /\ dict_get "game_id" d = Some (PInt game_id)
      /\ dict_get "home_players" d = Some (PList (map PDict home))
      /\ dict_get "away_players" d = Some (PList (map PDict away))
      /\ match get data with
         | Some (box_score :: _) =>
             exists home_rows away_rows,
               get_default (bs_home_team_stats box_score) (Some []) = Some home_rows
               /\ get_default (bs_visitor_team_stats box_score) (Some []) = Some away_rows
               /\ Forall2 (fun row p => format_stat_row row = Ok p) home_rows home
               /\ Forall2 (fun row p => format_stat_row row = Ok p) away_rows away
         | _ => home = [] /\ away = [] /\ dict_get "home_team" d = None
         end.
Proof.
  intros up game_id sent sent' d H.
  unfold fetch_box_score in H. unfold_IO.
  destruct (get_headers up); [|discriminate H].
  destruct (answer_box_scores up sent (GET_box_scores game_id)) as [msg|data] eqn:Ha;
    [discriminate H|].
  exists data.
  destruct (get data) as [[|box_score rest]|] eqn:Hd.
  - injection H as <- <-. exists [], []. repeat split; reflexivity.
  - destruct (get_in (bs_home_team box_score) t_abbreviation (Some ""));
      simpl in H; [|discriminate H].
    destruct (get_in (bs_visitor_team box_score) t_abbreviation (Some ""));
      simpl in H; [|discriminate H].
    destruct (iter (get_default (bs_home_team_stats box_score) (Some [])))
      as [home_rows|] eqn:Hh; simpl in H; [|discriminate H].
    destruct (for_each format_stat_row home_rows) as [home|] eqn:Hfh;
      simpl in H; [|discriminate H].
    destruct (iter (get_default (bs_visitor_team_stats box_score) (Some [])))
      as [away_rows|] eqn:Hv; simpl in H; [|discriminate H].
    destruct (for_each format_stat_row away_rows) as [away|] eqn:Hfa;
      simpl in H; [|discriminate H].
    injection H as <- <-. exists home, away.
    repeat split; try reflexivity.
    exists home_rows, away_rows.
    split; [exact (iter_Ok _ _ Hh)|]. split; [exact (iter_Ok _ _ Hv)|].
    split; apply for_each_Forall2; assumption.
  - injection H as <- <-. exists [], []. repeat split; reflexivity.
Qed.

Lemma fetch_box_score_keeps_every_row_witness :
  exists d,
    fetch_box_score Samples.busy 101 [] = (Ok d, [GET_box_scores 101])
    /\ dict_get "home_team" d = Some (PStr "LAL")
    /\ exists home away,
         dict_get "home_players" d = Some (PList (map PDict home))
         /\ dict_get "away_players" d = Some (PList (map PDict away))
         /\ length home = 1%nat /\ length away = 2%nat.
Proof.
  assert (exists d,
            fetch_box_score Samples.busy 101 [] = (Ok d, [GET_box_scores 101])
            /\ dict_get "home_team" d = Some (PStr "LAL"))
    as (d & Hrun & Hteam) by (vm_compute; eexists; split; reflexivity).
  exists d. split; [exact Hrun|]. split; [exact Hteam|].
  destruct (fetch_box_score_keeps_every_row Samples.busy 101 [] _ d Hrun)
    as (data & home & away & Ha & _ & _ & Hh & Hv & Hrows).
  exists home, away. split; [exact Hh|]. split; [exact Hv|].
  injection Ha as <-. simpl in Hrows.
  destruct Hrows as (home_rows & away_rows & E1 & E2 & F1 & F2).
  injection E1 as <-. injection E2 as <-.
  apply Forall2_length in F1, F2.
  split; [first [exact F1|symmetry; exact F1]|first [exact F2|symmetry; exact F2]].
Defined.

(** *** Ticket listings *)

Lemma format_event_available event d :
  format_event event = Ok d -> dict_get "available" d = Some (PBool true).
Proof.
  unfold format_event. intros H. repeat bind_step H. injection H as <-. reflexivity.
Qed.

(** The part of that which the ticket endpoint needs. *)
Lemma fetch_ticket_prices_Ok up home_team away_team game_date sent :
  exists d available,
    fst (fetch_ticket_prices up home_team away_team game_date sent) = Ok d
    /\ dict_get "available" d = Some (PBool available).
Proof.
  unfold fetch_ticket_prices.
  destruct (String.eqb (SEATGEEK_CLIENT_ID up) ""); [eexists _, _; split; reflexivity|].
  unfold_IO.
  destruct game_date; simpl; try (eexists _, _; split; reflexivity).
  destruct (answer_seatgeek up sent _) as [msg|data]; simpl;
    [eexists _, _; split; reflexivity|].
  destruct (get_default data (Some [])) as [[|event rest]|]; simpl;
    try (eexists _, _; split; reflexivity).
  destruct (format_event event) as [d|e] eqn:Hf; simpl;
    [|eexists _, _; split; reflexivity].
  exists d, true. split; [reflexivity|exact (format_event_available _ _ Hf)].
Qed.

(** X21.  [fetch_ticket_prices] never raises: it always returns a
    dictionary with a Boolean "available".  Without a
    [SEATGEEK_CLIENT_ID] it sends nothing and reports [False]; it reports
    [True] only when the game date is a string and SeatGeek replied with at
    least one event, of which the first is the one described. *)
Theorem fetch_ticket_prices_always_answers :
  forall (up : env) (home_team away_team game_date : pyval) (sent : list request),
    exists d available,
      fst (fetch_ticket_prices up home_team away_team game_date sent) = Ok d
      /\ dict_get "available" d = Some (PBool available)
      /\ (SEATGEEK_CLIENT_ID up = "" ->
          available = false
          /\ snd (fetch_ticket_prices up home_team away_team game_date sent) = sent)
      /\ (available = true ->
          exists date data event rest,
            game_date = PStr date
            /\ answer_seatgeek up sent
                 (GET_seatgeek_events (format (repr_other up) home_team)
                    (format (repr_other up) away_team) date)
               = Replied data
            /\ get_default data (Some []) = Some (event :: rest)
            /\ format_event event = Ok d).
Proof.
  intros up home_team away_team game_date sent. unfold fetch_ticket_prices.
  destruct (String.eqb (SEATGEEK_CLIENT_ID up) "") eqn:Hid.
  - eexists. exists false. split; [reflexivity|]. split; [reflexivity|].
    split; [intros _; split; reflexivity|discriminate].
  - apply String.eqb_neq in Hid. unfold_IO.
    destruct game_date as [| | | |date| |]; simpl;
      try (eexists; exists false; split; [reflexivity|]; split; [reflexivity|];
           split; [intros H; contradiction|discriminate]).
    destruct (answer_seatgeek up sent _) as [msg|data] eqn:Ha; simpl.
    { eexists. exists false. split; [reflexivity|]. split; [reflexivity|].
      split; [intros H; contradiction|discriminate]. }
    destruct (get_default data (Some [])) as [[|event rest]|] eqn:Hd; simpl;
      try (eexists; exists false; split; [reflexivity|]; split; [reflexivity|];
           split; [intros H; contradiction|discriminate]).
    destruct (format_event event) as [d|e] eqn:Hf; simpl.
    + exists d, true. split; [reflexivity|].
      split; [exact (format_event_available _ _ Hf)|].
      split; [intros H; contradiction|]. intros _.
      exists date, data, event, rest. auto.
    + eexists. exists false. split; [reflexivity|]. split; [reflexivity|].
      split; [intros H; contradiction|discriminate].
Qed.

(** *** The ticket endpoint *)

Lemma format_game_details_keys game d :
  format_game_details game = Ok d ->
  exists home_name away_name date away home,
    dict_getitem "home_team_name" d = Ok home_name
    /\ dict_getitem "away_team_name" d = Ok away_name
    /\ dict_getitem "game_date" d = Ok date
    /\ dict_getitem "away_team" d = Ok away
    /\ dict_getitem "home_team" d = Ok home.
Proof.
  unfold format_game_details. intros H. repeat bind_step H.
  injection H as <-. do 5 eexists. repeat split; reflexivity.
Qed.

(** X22.  GET /games/{game_id}/tickets, which has no [try] of its own,
    still never lets an exception out: it answers HTTP 404 when the game
    cannot be fetched, and otherwise a body with the matchup, the date and
    a ticket dictionary that has a Boolean "available"; the globals are
    left alone. *)
Theorem get_game_tickets_answers_or_404 :
  forall (up : env) (game_id : Z) (g : globals) (sent : list request),
    (exists matchup date tickets available sent',
       get_game_tickets up game_id g sent
       = (Ok (Json (PDict [ ("game_id", PInt game_id); ("matchup", PStr matchup);
                            ("game_date", date); ("tickets", PDict tickets) ])),
          g, sent')
       /\ dict_get "available" tickets = Some (PBool available))
    \/ (exists sent',
          get_game_tickets up game_id g sent
          = (Raise (HTTPException 404 "Game not found"), g, sent')).
Proof.
  intros up game_id g sent.
  remember (get_game_tickets up game_id g sent) as run eqn:Hrun.
  unfold get_game_tickets in Hrun. unfold bind at 1 in Hrun. unfold await at 1 in Hrun.
  destruct (fetch_game_by_id up game_id sent) as [[[d|]|e] s1] eqn:Hf.
  - assert (fst (fetch_game_by_id up game_id sent) = Ok (Some d)) as Hf'
      by (rewrite Hf; reflexivity).
    destruct (fetch_game_by_id_shape _ _ _ _ Hf') as [game Hg].
    destruct (format_game_details_keys _ _ Hg)
      as (home_name & away_name & date & away & home & H1 & H2 & H3 & H4 & H5).
    left. unfold found in Hrun.
    rewrite (has_id_nonempty _ (fetch_game_by_id_has_id _ _ _ _ Hf')) in Hrun.
    unfold_M. rewrite H1, H2, H3, H4, H5 in Hrun.
    destruct (fetch_ticket_prices_Ok up home_name away_name date s1)
      as (tickets & available & Ht & Hav).
    destruct (fetch_ticket_prices up home_name away_name date s1) as [r s2].
    simpl in Ht. subst r.
    exists (format (repr_other up) away +:+ " @ " +:+ format (repr_other up) home),
      date, tickets, available, s2.
    split; [exact Hrun|exact Hav].
  - right. exists s1. exact Hrun.
  - exfalso.
    assert (exists x, fst (fetch_game_by_id up game_id sent) = Ok x) as [x Hx].
    { unfold fetch_game_by_id. apply io_try_default_Ok. }
    rewrite Hf in Hx. discriminate.
Qed.

(** *** The training data *)

Lemma is_column_In df c : TrainModel.is_column df c = true <-> In c (TrainModel.columns df).
Proof.
  unfold TrainModel.is_column. rewrite existsb_exists. split.
  - intros (x & Hx & E). apply String.eqb_eq in E. subst x. exact Hx.
  - intros H. exists c. split; [exact H|apply String.eqb_refl].
Qed.

Lemma missing_cols_In df c :
  In c (TrainModel.missing_cols df)
  <-> In c (TrainModel.FEATURE_COLUMNS ++ [TrainModel.LABEL_COLUMN])
      /\ ~ In c (TrainModel.columns df).
Proof.
  unfold TrainModel.missing_cols. rewrite filter_In, negb_true_iff.
  rewrite <- is_column_In. destruct (TrainModel.is_column df c); intuition congruence.
Qed.

(** X23.  [load_data] returns the frame it read, unchanged, only when the
    file exists, was read, and has every one of the fourteen feature columns
    and the label column.  Otherwise it fails: with [FileNotFoundError] for
    a missing file, with what [pd.read_csv] raised, or with the [ValueError]
    that lists exactly the required columns the file lacks, in the order of
    [FEATURE_COLUMNS] with the label last. *)
Theorem load_data_needs_every_column :
  forall (path : string) (file : option (string + TrainModel.frame)),
    match TrainModel.load_data path file with
    | inr df =>
        file = Some (inr df)
        /\ Forall (fun c => In c (TrainModel.columns df))
             (TrainModel.FEATURE_COLUMNS ++ [TrainModel.LABEL_COLUMN])
    | inl (TrainModel.FileNotFoundError msg) =>
        file = None /\ msg = "Training data not found at: " +:+ path
    | inl (TrainModel.ReadError msg) => file = Some (inl msg)
    | inl (TrainModel.MissingColumns msg) =>
        exists df c,
          file = Some (inr df)
          /\ In c (TrainModel.FEATURE_COLUMNS ++ [TrainModel.LABEL_COLUMN])
          /\ ~ In c (TrainModel.columns df)
          /\ (forall c', In c' (TrainModel.missing_cols df)
                         <-> In c' (TrainModel.FEATURE_COLUMNS ++ [TrainModel.LABEL_COLUMN])
                             /\ ~ In c' (TrainModel.columns df))
          /\ msg = "Missing required columns in CSV: "
                   +:+ TrainModel.repr_names (TrainModel.missing_cols df)
    end.
Proof.
  intros path [[msg|df]|]; simpl; auto.
  destruct (TrainModel.missing_cols df) as [|c rest] eqn:Hm.
  - split; [reflexivity|]. apply List.Forall_forall. intros c Hc.
    destruct (in_dec string_dec c (TrainModel.columns df)) as [H|H]; [exact H|].
    assert (In c (TrainModel.missing_cols df)) as Hin by (apply missing_cols_In; split; [exact Hc|exact H]).
    rewrite Hm in Hin. destruct Hin.
  - assert (In c (TrainModel.missing_cols df)) as Hin by (rewrite Hm; left; reflexivity).
    apply missing_cols_In in Hin. destruct Hin as [H1 H2].
    exists df, c.
    split; [reflexivity|]. split; [exact H1|]. split; [exact H2|].
    rewrite <- Hm. split; [|reflexivity].
    intros c'. apply missing_cols_In.
Qed.

(** *** Game details *)

Lemma format_game_details_teams game d :
  format_game_details game = Ok d ->
  exists home home_name home_logo away away_name away_logo,
    dict_getitem "home_team" d = Ok (PStr home)
    /\ dict_getitem "home_team_name" d = Ok home_name
    /\ dict_getitem "home_team_logo" d = Ok home_logo
    /\ dict_getitem "away_team" d = Ok (PStr away)
    /\ dict_getitem "away_team_name" d = Ok away_name
    /\ dict_getitem "away_team_logo" d = Ok away_logo.
Proof.
  unfold format_game_details. intros H. repeat bind_step H.
  repeat match goal with
         | E : get_team_logo_url_of ?a _ = Ok _ |- _ =>
             destruct a; [clear E|discriminate E]
         end.
  injection H as <-. do 6 eexists. repeat split; reflexivity.
Qed.

Lemma io_bind_Ok {A B} (m : IO A) (k : A -> IO B) sent a sent' :
  m sent = (Ok a, sent') -> io_bind m k sent = k a sent'.
Proof. intros H. unfold io_bind. rewrite H. reflexivity. Qed.

(** A roster fetched for the details: always a list, the empty one when
    the call fails. *)
Lemma roster_for_details up (wanted : bool) team_id sent :
  exists roster sent',
    (if wanted then fetch_team_roster up team_id else io_ret []) sent
    = (Ok roster, sent')
    /\ ((forall s r, exists msg, answer_players up s r = Failed msg) -> roster = []).
Proof.
  destruct wanted; [|exists [], sent; split; reflexivity].
  unfold fetch_team_roster. unfold_IO.
  destruct (get_headers up); [|eexists _, _; split; reflexivity].
  destruct (answer_players up sent (GET_players None [team_id] 50)) as [msg|data] eqn:Ha.
  - eexists _, _. split; reflexivity.
  - destruct (iter (get_default data (Some []))) as [players|]; simpl;
      [destruct (for_each format_roster_player players)|];
      eexists _, _; (split; [reflexivity|]);
      intros Hdown; destruct (Hdown sent (GET_players None [team_id] 50)) as [msg Hm];
      congruence.
Qed.

Lemma upcoming_for_details up (wanted : bool) team_id sent :
  now up + 30 <= 3652059 ->
  exists games sent',
    (if wanted then fetch_team_upcoming_games up team_id 5 else io_ret []) sent
    = (Ok games, sent').
Proof.
  intros Hr. destruct wanted; [|exists [], sent; reflexivity].
  pose proof (now_in_range up) as [Hlo Hhi].
  unfold fetch_team_upcoming_games. unfold io_bind at 1, lift at 1.
  rewrite (date_plus_in_range (now up) 30);
    [|unfold MAX_DELTA_DAYS; lia|unfold MAX_ORDINAL; lia].
  match goal with
  | |- context [io_try ?m ?h sent] =>
      destruct (io_try_default_Ok m [] sent) as [games Hg];
      destruct (io_try m h sent) as [r s'] eqn:E
  end.
  simpl in Hg. subst r. eauto.
Qed.

(** X24.  GET /games/{game_id}/details succeeds whenever the game itself
    is fetched (and the date thirty days ahead exists): a failure of the
    roster or upcoming-games calls does not fail the request, it only
    leaves the corresponding list empty.  The body holds the fetched game
    unchanged and the details of the two teams. *)
Theorem details_survive_roster_failures :
  forall (up : env) (game_id : Z) (g : globals) (sent : list request) (game : pydict),
    fst (fetch_game_by_id up game_id sent) = Ok (Some game) ->
    now up + 30 <= 3652059 ->
    exists home_details away_details home_roster away_roster sent',
      get_game_full_details up game_id g sent
      = (Ok (Json (PDict [ ("game", PDict game);
                           ("home_team_details", PDict home_details);
                           ("away_team_details", PDict away_details) ])), g, sent')
      /\ dict_get "roster" home_details = Some (PList (map PDict home_roster))
      /\ dict_get "roster" away_details = Some (PList (map PDict away_roster))
      /\ ((forall s r, exists msg, answer_players up s r = Failed msg) ->
          home_roster = [] /\ away_roster = []).
Proof.
  intros up game_id g sent game Hf Hr.
  pose proof (has_id_nonempty _ (fetch_game_by_id_has_id _ _ _ _ Hf)) as Hne.
  destruct (fetch_game_by_id_shape _ _ _ _ Hf) as [upstream Hg].
  destruct (format_game_details_teams _ _ Hg)
    as (home & home_name & home_logo & away & away_name & away_logo
        & H1 & H2 & H3 & H4 & H5 & H6).
  assert (exists home_roster away_roster home_upcoming away_upcoming sent',
            fetch_game_details_full up game_id sent
            = (Ok (Some
                 [ ("game", PDict game);
                   ("home_team_details", PDict
                      [ ("abbreviation", PStr home); ("name", home_name);
                        ("logo_url", home_logo);
                        ("logo_url_small", PStr (get_team_logo_url home "S"));
                        ("roster", PList (map PDict home_roster));
                        ("upcoming_games", PList (map PDict home_upcoming)) ]);
                   ("away_team_details", PDict
                      [ ("abbreviation", PStr away); ("name", away_name);
                        ("logo_url", away_logo);
                        ("logo_url_small", PStr (get_team_logo_url away "S"));
                        ("roster", PList (map PDict away_roster));
                        ("upcoming_games", PList (map PDict away_upcoming)) ]) ]),
               sent')
            /\ ((forall s r, exists msg, answer_players up s r = Failed msg) ->
                home_roster = [] /\ away_roster = []))
    as (home_roster & away_roster & home_upcoming & away_upcoming & sent' & Hrun & Hdown).
  { destruct (fetch_game_by_id up game_id sent) as [r s0] eqn:Hfetch.
    simpl in Hf. subst r.
    destruct (roster_for_details up (truthy (dict_get_none "home_team_id" game))
                (dict_get_none "home_team_id" game) s0) as (hr & s1 & Ehr & Hhr).
    destruct (roster_for_details up (truthy (dict_get_none "away_team_id" game))
                (dict_get_none "away_team_id" game) s1) as (ar & s2 & Ear & Har).
    destruct (upcoming_for_details up (truthy (dict_get_none "home_team_id" game))
                (dict_get_none "home_team_id" game) s2 Hr) as (hu & s3 & Ehu).
    destruct (upcoming_for_details up (truthy (dict_get_none "away_team_id" game))
                (dict_get_none "away_team_id" game) s3 Hr) as (au & s4 & Eau).
    exists hr, ar, hu, au, s4. split; [|auto].
    unfold fetch_game_details_full.
    rewrite (io_bind_Ok _ _ _ _ _ Hfetch). cbv beta iota.
    rewrite Hne. change (negb true) with false. cbv beta iota zeta.
    rewrite (io_bind_Ok _ _ _ _ _ Ehr). cbv beta.
    rewrite (io_bind_Ok _ _ _ _ _ Ear). cbv beta.
    rewrite (io_bind_Ok _ _ _ _ _ Ehu). cbv beta.
    rewrite (io_bind_Ok _ _ _ _ _ Eau). cbv beta.
    unfold_IO. rewrite H1, H2, H3, H4, H5, H6. reflexivity. }
  do 2 eexists. exists home_roster, away_roster, sent'.
  split; [unfold get_game_full_details; unfold_M; rewrite Hrun; reflexivity|].
  split; [reflexivity|]. split; [reflexivity|exact Hdown].
Qed.

Lemma details_survive_roster_failures_witness :
  fst (fetch_game_by_id Samples.rosterless 300 []) = Ok (Some Samples.fetched_300)
  /\ exists home_details away_details sent',
       get_game_full_details Samples.rosterless 300 Examples.fresh []
       = (Ok (Json (PDict [ ("game", PDict Samples.fetched_300);
                            ("home_team_details", PDict home_details);
                            ("away_team_details", PDict away_details) ])),
          Examples.fresh, sent')
       /\ dict_get "roster" home_details = Some (PList [])
       /\ dict_get "roster" away_details = Some (PList []).
Proof.
  assert (fst (fetch_game_by_id Samples.rosterless 300 []) = Ok (Some Samples.fetched_300))
    as Hf by (vm_compute; reflexivity).
  split; [exact Hf|].
  destruct (details_survive_roster_failures Samples.rosterless 300 Examples.fresh []
              Samples.fetched_300 Hf)
    as (hd & ad & hr & ar & sent' & Hrun & Hh & Ha & Hdown);
    [vm_compute; discriminate|].
  destruct Hdown as [-> ->]; [intros s r; eexists; reflexivity|].
  exists hd, ad, sent'. split; [exact Hrun|]. split; [exact Hh|exact Ha].
Defined.
